(** * GLDOPPCapture: desktop capture session of the RapidFire SDK

    A shallow embedding of [GLDOPPCapture] (constructor, destructor,
    [initDOPP], [createRenderTargets], [resizeDesktopTexture],
    [resizePresentTexture], [releaseEvent], [initEffect], [processDesktop],
    [getFramebufferTex], [createQuad], [setupDOPPExtension] and
    [notificationLoop]) as computations over the session object and an
    explicit model of what the class talks to: the OpenGL context, the DOPP
    driver entry points, the Win32 event and thread primitives and the
    global DOPP lock. *)

From Stdlib Require Import ZArith NArith List Bool String Lia.
From stdpp Require Import base list.

Local Open Scope N_scope.

(** ** Status codes and handles *)

Inductive RFStatus :=
| RF_STATUS_OK
| RF_STATUS_INVALID_DIMENSION
| RF_STATUS_OPENGL_FAIL
| RF_STATUS_INVALID_DESKTOP_ID
| RF_STATUS_DOPP_FAIL.

#[global] Instance RFStatus_eq_dec : EqDecision RFStatus.
Proof. solve_decision. Defined.

(** [GLuint] names and [unsigned int] members are naturals; [HANDLE]s are
    naturals with [NULL] as zero; [GLint] and [DWORD] results are integers
    whose wrap-around is written where the source converts or subtracts. *)
Definition GLuint := N.
Definition HANDLE := N.
Definition NULL : HANDLE := 0.

Definition nonzero (n : N) : bool := negb (n =? 0).
Definition DWORD := Z.

(** The rotation angle is a 32-bit float that only [createQuad] consumes;
    it is carried as its bit pattern. *)
Definition float := N.

Definition two32 : Z := 4294967296.

(** [reinterpret_cast<GLint*>(&m_uiDesktopWidth)]: the [GLint] that GL
    writes is read back as an [unsigned int]. *)
Definition GLint_as_uint (v : Z) : N := Z.to_N (v mod two32).

(** An [unsigned int] passed where the callee takes an [int] ([GLsizei],
    [GLint]): the same 32 bits read as a signed number. *)
Definition uint_as_int (n : N) : Z :=
  ((Z.of_N n + 2147483648) mod two32 - 2147483648)%Z.

Definition WAIT_OBJECT_0 : DWORD := 0%Z.

(** [dwResult - WAIT_OBJECT_0] on [DWORD]. *)
Definition dword_sub (a b : DWORD) : DWORD := ((a - b) mod two32)%Z.

(** ** The five DOPP entry points (global function pointers) *)

Inductive DOPPProc :=
| P_wglGetDesktopTextureAMD
| P_wglEnablePostProcessAMD
| P_wglPresentTextureToVideoAMD
| P_wglDesktopTargetAMD
| P_wglGenPresentTextureAMD.

#[global] Instance DOPPProc_eq_dec : EqDecision DOPPProc.
Proof. solve_decision. Defined.

(** ** OpenGL object name spaces *)

Inductive GLObject := Texture | Framebuffer | Buffer | VertexArray.

#[global] Instance GLObject_eq_dec : EqDecision GLObject.
Proof. solve_decision. Defined.

(** ** Observable calls *)

Inductive TexLevelParam := GL_TEXTURE_WIDTH | GL_TEXTURE_HEIGHT.

Inductive TexParam :=
| GL_TEXTURE_MAG_FILTER | GL_TEXTURE_MIN_FILTER
| GL_TEXTURE_WRAP_S | GL_TEXTURE_WRAP_T.

Inductive TexParamValue := GL_LINEAR | GL_CLAMP_TO_EDGE.

Inductive ShaderStage := GL_VERTEX_SHADER | GL_FRAGMENT_SHADER.

Inductive GLCall :=
| glBindTexture (tex : GLuint)
| glGetTexLevelParameteriv (p : TexLevelParam)
| glTexParameterf (p : TexParam) (v : TexParamValue)
| glTexImage2D (width height : Z)
| glGenFramebuffers (names : list GLuint)
| glGenTextures (names : list GLuint)
| glGenBuffers (names : list GLuint)
| glGenVertexArrays (names : list GLuint)
| glDeleteFramebuffers (names : list GLuint)
| glDeleteTextures (names : list GLuint)
| glDeleteBuffers (names : list GLuint)
| glDeleteVertexArrays (names : list GLuint)
| glBindFramebuffer (fbo : GLuint)
| glFramebufferTexture2D (tex : GLuint)
| glCheckFramebufferStatus
| glGetIntegerv_VIEWPORT
| glViewport (x y w h : Z)
| glActiveTexture (unit : N)
| glUniform1i (loc : Z) (v : Z)
| glBindVertexArray (vao : GLuint)
| glDrawArrays_TRIANGLE_STRIP (first count : N)
| glFinish
| glBindBuffer (buf : GLuint)
| glBufferData_quad (fRotation : float)
| glBufferSubData_texcoords
| glEnableVertexAttribArray (index : N)
| glVertexAttribPointer (index size : N)
| glGetUniformLocation (program : GLuint).

Inductive ShaderCall :=
| Shader_new
| Shader_delete
| Shader_createShaderFromString (stage : ShaderStage)
| Shader_buildProgram
| Shader_bind
| Shader_unbind.

Inductive Event :=
| EvLock                                (* RFReadWriteAccess on g_GlobalDOPPLock *)
| EvUnlock
| EvGetCurrentContext
| EvGetProcAddress (p : DOPPProc)
| EvEnablePostProcess (enable : bool)
| EvDesktopTarget (id : N)
| EvGetDesktopTexture
| EvGL (c : GLCall)
| EvShader (c : ShaderCall)
| EvRFError (st : RFStatus)
| EvStoreTrack (b : bool)               (* write of m_bTrackDesktopChanges *)
| EvStoreChanged (b : bool)             (* write of m_bDesktopChanged *)
| EvSetEvent (h : HANDLE)
| EvSleep (ms : N)
| EvCloseHandle (h : HANDLE)
| EvCreateEvent
| EvWait (h0 h1 : HANDLE)               (* WaitForMultipleObjects(2, .., FALSE, INFINITE) *)
| EvThreadStart
| EvThreadJoin
| EvGetDoppState
| EvEnableDopp
| EvCreateDOPPEvent
| EvDeleteDOPPEvent (h : HANDLE).

(** ** The environment

    [Env] holds the answers of the collaborators (driver, GL, OS); the
    session cannot change them. *)

Record Env := {
  env_glrc : bool;                      (* wglGetCurrentContext() != NULL *)
  env_proc_avail : DOPPProc -> bool;    (* wglGetProcAddress(name) != NULL *)
  env_desktop_target : N -> bool;       (* wglDesktopTargetAMD(id) *)
  env_desktop_texture : GLuint;         (* wglGetDesktopTextureAMD() *)
  env_tex_width : Z;                    (* GL_TEXTURE_WIDTH of the bound texture *)
  env_tex_height : Z;
  env_shader_new : bool;                (* new (std::nothrow) GLShader != NULL *)
  env_shader_vs : bool;                 (* createShaderFromString(vertex) *)
  env_shader_fs : bool;                 (* createShaderFromString(fragment) *)
  env_shader_link : bool;               (* buildProgram() *)
  env_program : GLuint;                 (* getProgram() *)
  env_uniform_loc : Z;                  (* glGetUniformLocation(.., "baseMap") *)
  env_fb_complete : GLuint -> bool;     (* status of that framebuffer is COMPLETE *)
  env_viewport : Z * Z * Z * Z;         (* glGetIntegerv(GL_VIEWPORT) *)
  env_enable_dopp : bool;               (* getDoppState() after enableDopp() *)
  env_create_dopp_event : HANDLE;       (* createDOPPEvent(DOPP_DESKOTOP_EVENT) *)
  env_create_event : HANDLE             (* CreateEvent(NULL, FALSE, FALSE, NULL) *)
}.

(** [World] adds what the calls change: the resolved global function
    pointers, the live GL names, the framebuffer binding, the driver's DOPP
    state, the event objects that are signaled, the wait the notification
    thread is parked in, the outcomes of the waits that signals from
    outside will end (a wait with nothing signaled and none of these left
    never returns) and the log of calls, newest first. *)
Record World := {
  w_env : Env;
  w_procs : DOPPProc -> bool;
  w_names : GLObject -> list GLuint;
  w_bound_fbo : GLuint;
  w_dopp_state : bool;
  w_waits : list DWORD;
  w_signaled : list HANDLE;
  w_parked : option (HANDLE * HANDLE);
  w_trace : list Event
}.

Definition set_w_env (e : Env) (w : World) : World :=
  {| w_env := e; w_procs := w_procs w; w_names := w_names w;
     w_bound_fbo := w_bound_fbo w; w_dopp_state := w_dopp_state w;
     w_waits := w_waits w; w_signaled := w_signaled w;
     w_parked := w_parked w; w_trace := w_trace w |}.

Definition set_w_procs (f : DOPPProc -> bool) (w : World) : World :=
  {| w_env := w_env w; w_procs := f; w_names := w_names w;
     w_bound_fbo := w_bound_fbo w; w_dopp_state := w_dopp_state w;
     w_waits := w_waits w; w_signaled := w_signaled w;
     w_parked := w_parked w; w_trace := w_trace w |}.

Definition set_w_names (f : GLObject -> list GLuint) (w : World) : World :=
  {| w_env := w_env w; w_procs := w_procs w; w_names := f;
     w_bound_fbo := w_bound_fbo w; w_dopp_state := w_dopp_state w;
     w_waits := w_waits w; w_signaled := w_signaled w;
     w_parked := w_parked w; w_trace := w_trace w |}.

Definition set_w_bound_fbo (n : GLuint) (w : World) : World :=
  {| w_env := w_env w; w_procs := w_procs w; w_names := w_names w;
     w_bound_fbo := n; w_dopp_state := w_dopp_state w; w_waits := w_waits w;
     w_signaled := w_signaled w; w_parked := w_parked w;
     w_trace := w_trace w |}.

Definition set_w_dopp_state (b : bool) (w : World) : World :=
  {| w_env := w_env w; w_procs := w_procs w; w_names := w_names w;
     w_bound_fbo := w_bound_fbo w; w_dopp_state := b; w_waits := w_waits w;
     w_signaled := w_signaled w; w_parked := w_parked w;
     w_trace := w_trace w |}.

Definition set_w_waits (l : list DWORD) (w : World) : World :=
  {| w_env := w_env w; w_procs := w_procs w; w_names := w_names w;
     w_bound_fbo := w_bound_fbo w; w_dopp_state := w_dopp_state w;
     w_waits := l; w_signaled := w_signaled w; w_parked := w_parked w;
     w_trace := w_trace w |}.

Definition set_w_signaled (l : list HANDLE) (w : World) : World :=
  {| w_env := w_env w; w_procs := w_procs w; w_names := w_names w;
     w_bound_fbo := w_bound_fbo w; w_dopp_state := w_dopp_state w;
     w_waits := w_waits w; w_signaled := l; w_parked := w_parked w;
     w_trace := w_trace w |}.

Definition set_w_parked (p : option (HANDLE * HANDLE)) (w : World) : World :=
  {| w_env := w_env w; w_procs := w_procs w; w_names := w_names w;
     w_bound_fbo := w_bound_fbo w; w_dopp_state := w_dopp_state w;
     w_waits := w_waits w; w_signaled := w_signaled w; w_parked := p;
     w_trace := w_trace w |}.

Definition set_w_trace (t : list Event) (w : World) : World :=
  {| w_env := w_env w; w_procs := w_procs w; w_names := w_names w;
     w_bound_fbo := w_bound_fbo w; w_dopp_state := w_dopp_state w;
     w_waits := w_waits w; w_signaled := w_signaled w;
     w_parked := w_parked w; w_trace := t |}.

Definition log (e : Event) (w : World) : World :=
  set_w_trace (e :: w_trace w) w.

(** [emits w w' evs]: between [w] and [w'] exactly the calls [evs] were
    made, in that order. *)
Definition emits (w w' : World) (evs : list Event) : Prop :=
  w_trace w' = rev evs ++ w_trace w.

(** ** The session object *)

Record GLShader := { shader_program : GLuint }.

Record GLDOPPCapture := {
  m_uiDesktopTexture : GLuint;
  m_uiDesktopId : N;
  m_uiNumTargets : N;
  m_uiDesktopWidth : N;
  m_uiDesktopHeight : N;
  m_uiPresentWidth : N;
  m_uiPresentHeight : N;
  m_pShader : option GLShader;
  m_uiBaseMap : GLuint;
  m_uiVertexBuffer : GLuint;
  m_uiVertexArray : GLuint;
  m_pFBO : option (list GLuint);
  m_pTexture : option (list GLuint);
  m_bTrackDesktopChanges : bool;
  m_bBlocking : bool;
  m_hDesktopEvent : HANDLE * HANDLE;    (* [0] signaled by DOPP, [1] unblocks *)
  m_bDesktopChanged : bool;
  m_NotificationThread : bool           (* joinable() *)
}.

(** The driver interface pointer [m_pDOPPDrvInterface] is checked once by the
    constructor and never reassigned; the driver it points to is part of
    [World].  [m_uiDesktopId] and [m_uiNumTargets] are only written by the
    constructor.  The other members have an assignment each. *)

Definition set_m_uiDesktopTexture (v : GLuint) (s : GLDOPPCapture) : GLDOPPCapture :=
  {| m_uiDesktopTexture := v; m_uiDesktopId := m_uiDesktopId s;
     m_uiNumTargets := m_uiNumTargets s;
     m_uiDesktopWidth := m_uiDesktopWidth s;
     m_uiDesktopHeight := m_uiDesktopHeight s;
     m_uiPresentWidth := m_uiPresentWidth s;
     m_uiPresentHeight := m_uiPresentHeight s; m_pShader := m_pShader s;
     m_uiBaseMap := m_uiBaseMap s; m_uiVertexBuffer := m_uiVertexBuffer s;
     m_uiVertexArray := m_uiVertexArray s; m_pFBO := m_pFBO s;
     m_pTexture := m_pTexture s;
     m_bTrackDesktopChanges := m_bTrackDesktopChanges s;
     m_bBlocking := m_bBlocking s; m_hDesktopEvent := m_hDesktopEvent s;
     m_bDesktopChanged := m_bDesktopChanged s;
     m_NotificationThread := m_NotificationThread s |}.

Definition set_m_uiDesktopWidth (v : N) (s : GLDOPPCapture) : GLDOPPCapture :=
  {| m_uiDesktopTexture := m_uiDesktopTexture s;
     m_uiDesktopId := m_uiDesktopId s; m_uiNumTargets := m_uiNumTargets s;
     m_uiDesktopWidth := v; m_uiDesktopHeight := m_uiDesktopHeight s;
     m_uiPresentWidth := m_uiPresentWidth s;
     m_uiPresentHeight := m_uiPresentHeight s; m_pShader := m_pShader s;
     m_uiBaseMap := m_uiBaseMap s; m_uiVertexBuffer := m_uiVertexBuffer s;
     m_uiVertexArray := m_uiVertexArray s; m_pFBO := m_pFBO s;
     m_pTexture := m_pTexture s;
     m_bTrackDesktopChanges := m_bTrackDesktopChanges s;
     m_bBlocking := m_bBlocking s; m_hDesktopEvent := m_hDesktopEvent s;
     m_bDesktopChanged := m_bDesktopChanged s;
     m_NotificationThread := m_NotificationThread s |}.

Definition set_m_uiDesktopHeight (v : N) (s : GLDOPPCapture) : GLDOPPCapture :=
  {| m_uiDesktopTexture := m_uiDesktopTexture s;
     m_uiDesktopId := m_uiDesktopId s; m_uiNumTargets := m_uiNumTargets s;
     m_uiDesktopWidth := m_uiDesktopWidth s; m_uiDesktopHeight := v;
     m_uiPresentWidth := m_uiPresentWidth s;
     m_uiPresentHeight := m_uiPresentHeight s; m_pShader := m_pShader s;
     m_uiBaseMap := m_uiBaseMap s; m_uiVertexBuffer := m_uiVertexBuffer s;
     m_uiVertexArray := m_uiVertexArray s; m_pFBO := m_pFBO s;
     m_pTexture := m_pTexture s;
     m_bTrackDesktopChanges := m_bTrackDesktopChanges s;
     m_bBlocking := m_bBlocking s; m_hDesktopEvent := m_hDesktopEvent s;
     m_bDesktopChanged := m_bDesktopChanged s;
     m_NotificationThread := m_NotificationThread s |}.

Definition set_m_uiPresentWidth (v : N) (s : GLDOPPCapture) : GLDOPPCapture :=
  {| m_uiDesktopTexture := m_uiDesktopTexture s;
     m_uiDesktopId := m_uiDesktopId s; m_uiNumTargets := m_uiNumTargets s;
     m_uiDesktopWidth := m_uiDesktopWidth s;
     m_uiDesktopHeight := m_uiDesktopHeight s; m_uiPresentWidth := v;
     m_uiPresentHeight := m_uiPresentHeight s; m_pShader := m_pShader s;
     m_uiBaseMap := m_uiBaseMap s; m_uiVertexBuffer := m_uiVertexBuffer s;
     m_uiVertexArray := m_uiVertexArray s; m_pFBO := m_pFBO s;
     m_pTexture := m_pTexture s;
     m_bTrackDesktopChanges := m_bTrackDesktopChanges s;
     m_bBlocking := m_bBlocking s; m_hDesktopEvent := m_hDesktopEvent s;
     m_bDesktopChanged := m_bDesktopChanged s;
     m_NotificationThread := m_NotificationThread s |}.

Definition set_m_uiPresentHeight (v : N) (s : GLDOPPCapture) : GLDOPPCapture :=
  {| m_uiDesktopTexture := m_uiDesktopTexture s;
     m_uiDesktopId := m_uiDesktopId s; m_uiNumTargets := m_uiNumTargets s;
     m_uiDesktopWidth := m_uiDesktopWidth s;
     m_uiDesktopHeight := m_uiDesktopHeight s;
     m_uiPresentWidth := m_uiPresentWidth s; m_uiPresentHeight := v;
     m_pShader := m_pShader s; m_uiBaseMap := m_uiBaseMap s;
     m_uiVertexBuffer := m_uiVertexBuffer s;
     m_uiVertexArray := m_uiVertexArray s; m_pFBO := m_pFBO s;
     m_pTexture := m_pTexture s;
     m_bTrackDesktopChanges := m_bTrackDesktopChanges s;
     m_bBlocking := m_bBlocking s; m_hDesktopEvent := m_hDesktopEvent s;
     m_bDesktopChanged := m_bDesktopChanged s;
     m_NotificationThread := m_NotificationThread s |}.

Definition set_m_pShader (v : option GLShader) (s : GLDOPPCapture) : GLDOPPCapture :=
  {| m_uiDesktopTexture := m_uiDesktopTexture s;
     m_uiDesktopId := m_uiDesktopId s; m_uiNumTargets := m_uiNumTargets s;
     m_uiDesktopWidth := m_uiDesktopWidth s;
     m_uiDesktopHeight := m_uiDesktopHeight s;
     m_uiPresentWidth := m_uiPresentWidth s;
     m_uiPresentHeight := m_uiPresentHeight s; m_pShader := v;
     m_uiBaseMap := m_uiBaseMap s; m_uiVertexBuffer := m_uiVertexBuffer s;
     m_uiVertexArray := m_uiVertexArray s; m_pFBO := m_pFBO s;
     m_pTexture := m_pTexture s;
     m_bTrackDesktopChanges := m_bTrackDesktopChanges s;
     m_bBlocking := m_bBlocking s; m_hDesktopEvent := m_hDesktopEvent s;
     m_bDesktopChanged := m_bDesktopChanged s;
     m_NotificationThread := m_NotificationThread s |}.

Definition set_m_uiBaseMap (v : GLuint) (s : GLDOPPCapture) : GLDOPPCapture :=
  {| m_uiDesktopTexture := m_uiDesktopTexture s;
     m_uiDesktopId := m_uiDesktopId s; m_uiNumTargets := m_uiNumTargets s;
     m_uiDesktopWidth := m_uiDesktopWidth s;
     m_uiDesktopHeight := m_uiDesktopHeight s;
     m_uiPresentWidth := m_uiPresentWidth s;
     m_uiPresentHeight := m_uiPresentHeight s; m_pShader := m_pShader s;
     m_uiBaseMap := v; m_uiVertexBuffer := m_uiVertexBuffer s;
     m_uiVertexArray := m_uiVertexArray s; m_pFBO := m_pFBO s;
     m_pTexture := m_pTexture s;
     m_bTrackDesktopChanges := m_bTrackDesktopChanges s;
     m_bBlocking := m_bBlocking s; m_hDesktopEvent := m_hDesktopEvent s;
     m_bDesktopChanged := m_bDesktopChanged s;
     m_NotificationThread := m_NotificationThread s |}.

Definition set_m_uiVertexBuffer (v : GLuint) (s : GLDOPPCapture) : GLDOPPCapture :=
  {| m_uiDesktopTexture := m_uiDesktopTexture s;
     m_uiDesktopId := m_uiDesktopId s; m_uiNumTargets := m_uiNumTargets s;
     m_uiDesktopWidth := m_uiDesktopWidth s;
     m_uiDesktopHeight := m_uiDesktopHeight s;
     m_uiPresentWidth := m_uiPresentWidth s;
     m_uiPresentHeight := m_uiPresentHeight s; m_pShader := m_pShader s;
     m_uiBaseMap := m_uiBaseMap s; m_uiVertexBuffer := v;
     m_uiVertexArray := m_uiVertexArray s; m_pFBO := m_pFBO s;
     m_pTexture := m_pTexture s;
     m_bTrackDesktopChanges := m_bTrackDesktopChanges s;
     m_bBlocking := m_bBlocking s; m_hDesktopEvent := m_hDesktopEvent s;
     m_bDesktopChanged := m_bDesktopChanged s;
     m_NotificationThread := m_NotificationThread s |}.

Definition set_m_uiVertexArray (v : GLuint) (s : GLDOPPCapture) : GLDOPPCapture :=
  {| m_uiDesktopTexture := m_uiDesktopTexture s;
     m_uiDesktopId := m_uiDesktopId s; m_uiNumTargets := m_uiNumTargets s;
     m_uiDesktopWidth := m_uiDesktopWidth s;
     m_uiDesktopHeight := m_uiDesktopHeight s;
     m_uiPresentWidth := m_uiPresentWidth s;
     m_uiPresentHeight := m_uiPresentHeight s; m_pShader := m_pShader s;
     m_uiBaseMap := m_uiBaseMap s; m_uiVertexBuffer := m_uiVertexBuffer s;
     m_uiVertexArray := v; m_pFBO := m_pFBO s; m_pTexture := m_pTexture s;
     m_bTrackDesktopChanges := m_bTrackDesktopChanges s;
     m_bBlocking := m_bBlocking s; m_hDesktopEvent := m_hDesktopEvent s;
     m_bDesktopChanged := m_bDesktopChanged s;
     m_NotificationThread := m_NotificationThread s |}.

Definition set_m_pFBO (v : option (list GLuint)) (s : GLDOPPCapture) : GLDOPPCapture :=
  {| m_uiDesktopTexture := m_uiDesktopTexture s;
     m_uiDesktopId := m_uiDesktopId s; m_uiNumTargets := m_uiNumTargets s;
     m_uiDesktopWidth := m_uiDesktopWidth s;
     m_uiDesktopHeight := m_uiDesktopHeight s;
     m_uiPresentWidth := m_uiPresentWidth s;
     m_uiPresentHeight := m_uiPresentHeight s; m_pShader := m_pShader s;
     m_uiBaseMap := m_uiBaseMap s; m_uiVertexBuffer := m_uiVertexBuffer s;
     m_uiVertexArray := m_uiVertexArray s; m_pFBO := v;
     m_pTexture := m_pTexture s;
     m_bTrackDesktopChanges := m_bTrackDesktopChanges s;
     m_bBlocking := m_bBlocking s; m_hDesktopEvent := m_hDesktopEvent s;
     m_bDesktopChanged := m_bDesktopChanged s;
     m_NotificationThread := m_NotificationThread s |}.

Definition set_m_pTexture (v : option (list GLuint)) (s : GLDOPPCapture) : GLDOPPCapture :=
  {| m_uiDesktopTexture := m_uiDesktopTexture s;
     m_uiDesktopId := m_uiDesktopId s; m_uiNumTargets := m_uiNumTargets s;
     m_uiDesktopWidth := m_uiDesktopWidth s;
     m_uiDesktopHeight := m_uiDesktopHeight s;
     m_uiPresentWidth := m_uiPresentWidth s;
     m_uiPresentHeight := m_uiPresentHeight s; m_pShader := m_pShader s;
     m_uiBaseMap := m_uiBaseMap s; m_uiVertexBuffer := m_uiVertexBuffer s;
     m_uiVertexArray := m_uiVertexArray s; m_pFBO := m_pFBO s;
     m_pTexture := v; m_bTrackDesktopChanges := m_bTrackDesktopChanges s;
     m_bBlocking := m_bBlocking s; m_hDesktopEvent := m_hDesktopEvent s;
     m_bDesktopChanged := m_bDesktopChanged s;
     m_NotificationThread := m_NotificationThread s |}.

Definition set_m_bTrackDesktopChanges (v : bool) (s : GLDOPPCapture) : GLDOPPCapture :=
  {| m_uiDesktopTexture := m_uiDesktopTexture s;
     m_uiDesktopId := m_uiDesktopId s; m_uiNumTargets := m_uiNumTargets s;
     m_uiDesktopWidth := m_uiDesktopWidth s;
     m_uiDesktopHeight := m_uiDesktopHeight s;
     m_uiPresentWidth := m_uiPresentWidth s;
     m_uiPresentHeight := m_uiPresentHeight s; m_pShader := m_pShader s;
     m_uiBaseMap := m_uiBaseMap s; m_uiVertexBuffer := m_uiVertexBuffer s;
     m_uiVertexArray := m_uiVertexArray s; m_pFBO := m_pFBO s;
     m_pTexture := m_pTexture s; m_bTrackDesktopChanges := v;
     m_bBlocking := m_bBlocking s; m_hDesktopEvent := m_hDesktopEvent s;
     m_bDesktopChanged := m_bDesktopChanged s;
     m_NotificationThread := m_NotificationThread s |}.

Definition set_m_bBlocking (v : bool) (s : GLDOPPCapture) : GLDOPPCapture :=
  {| m_uiDesktopTexture := m_uiDesktopTexture s;
     m_uiDesktopId := m_uiDesktopId s; m_uiNumTargets := m_uiNumTargets s;
     m_uiDesktopWidth := m_uiDesktopWidth s;
     m_uiDesktopHeight := m_uiDesktopHeight s;
     m_uiPresentWidth := m_uiPresentWidth s;
     m_uiPresentHeight := m_uiPresentHeight s; m_pShader := m_pShader s;
     m_uiBaseMap := m_uiBaseMap s; m_uiVertexBuffer := m_uiVertexBuffer s;
     m_uiVertexArray := m_uiVertexArray s; m_pFBO := m_pFBO s;
     m_pTexture := m_pTexture s;
     m_bTrackDesktopChanges := m_bTrackDesktopChanges s; m_bBlocking := v;
     m_hDesktopEvent := m_hDesktopEvent s;
     m_bDesktopChanged := m_bDesktopChanged s;
     m_NotificationThread := m_NotificationThread s |}.

Definition set_m_hDesktopEvent (v : HANDLE * HANDLE) (s : GLDOPPCapture) : GLDOPPCapture :=
  {| m_uiDesktopTexture := m_uiDesktopTexture s;
     m_uiDesktopId := m_uiDesktopId s; m_uiNumTargets := m_uiNumTargets s;
     m_uiDesktopWidth := m_uiDesktopWidth s;
     m_uiDesktopHeight := m_uiDesktopHeight s;
     m_uiPresentWidth := m_uiPresentWidth s;
     m_uiPresentHeight := m_uiPresentHeight s; m_pShader := m_pShader s;
     m_uiBaseMap := m_uiBaseMap s; m_uiVertexBuffer := m_uiVertexBuffer s;
     m_uiVertexArray := m_uiVertexArray s; m_pFBO := m_pFBO s;
     m_pTexture := m_pTexture s;
     m_bTrackDesktopChanges := m_bTrackDesktopChanges s;
     m_bBlocking := m_bBlocking s; m_hDesktopEvent := v;
     m_bDesktopChanged := m_bDesktopChanged s;
     m_NotificationThread := m_NotificationThread s |}.

Definition set_m_bDesktopChanged (v : bool) (s : GLDOPPCapture) : GLDOPPCapture :=
  {| m_uiDesktopTexture := m_uiDesktopTexture s;
     m_uiDesktopId := m_uiDesktopId s; m_uiNumTargets := m_uiNumTargets s;
     m_uiDesktopWidth := m_uiDesktopWidth s;
     m_uiDesktopHeight := m_uiDesktopHeight s;
     m_uiPresentWidth := m_uiPresentWidth s;
     m_uiPresentHeight := m_uiPresentHeight s; m_pShader := m_pShader s;
     m_uiBaseMap := m_uiBaseMap s; m_uiVertexBuffer := m_uiVertexBuffer s;
     m_uiVertexArray := m_uiVertexArray s; m_pFBO := m_pFBO s;
     m_pTexture := m_pTexture s;
     m_bTrackDesktopChanges := m_bTrackDesktopChanges s;
     m_bBlocking := m_bBlocking s; m_hDesktopEvent := m_hDesktopEvent s;
     m_bDesktopChanged := v; m_NotificationThread := m_NotificationThread s |}.

Definition set_m_NotificationThread (v : bool) (s : GLDOPPCapture) : GLDOPPCapture :=
  {| m_uiDesktopTexture := m_uiDesktopTexture s;
     m_uiDesktopId := m_uiDesktopId s; m_uiNumTargets := m_uiNumTargets s;
     m_uiDesktopWidth := m_uiDesktopWidth s;
     m_uiDesktopHeight := m_uiDesktopHeight s;
     m_uiPresentWidth := m_uiPresentWidth s;
     m_uiPresentHeight := m_uiPresentHeight s; m_pShader := m_pShader s;
     m_uiBaseMap := m_uiBaseMap s; m_uiVertexBuffer := m_uiVertexBuffer s;
     m_uiVertexArray := m_uiVertexArray s; m_pFBO := m_pFBO s;
     m_pTexture := m_pTexture s;
     m_bTrackDesktopChanges := m_bTrackDesktopChanges s;
     m_bBlocking := m_bBlocking s; m_hDesktopEvent := m_hDesktopEvent s;
     m_bDesktopChanged := m_bDesktopChanged s; m_NotificationThread := v |}.

(** ** Computations

    A member function runs on the session and the world.  Besides
    returning, it can die ([Fault]: a null pointer is dereferenced or
    called, an array is read out of bounds, or [std::terminate] is
    reached) or wait for ever ([Blocked]). *)

Inductive Outcome (A : Type) : Type :=
| Done (a : A) (s : GLDOPPCapture) (w : World)
| Fault
| Blocked.

Arguments Done {A} a s w.
Arguments Fault {A}.
Arguments Blocked {A}.

Definition M (A : Type) : Type := GLDOPPCapture -> World -> Outcome A.

Definition ret {A} (a : A) : M A := fun s w => Done a s w.

Definition bind {A B} (m : M A) (k : A -> M B) : M B :=
  fun s w =>
    match m s w with
    | Done a s' w' => k a s' w'
    | Fault => Fault
    | Blocked => Blocked
    end.

Declare Scope dopp_scope.
Delimit Scope dopp_scope with dopp.

Notation "x <- c1 ;; c2" := (bind c1 (fun x => c2))
  (at level 100, c1 at next level, right associativity) : dopp_scope.
Notation "c1 ;; c2" := (bind c1 (fun _ => c2))
  (at level 100, right associativity) : dopp_scope.

Local Open Scope dopp_scope.

Definition this {A} (f : GLDOPPCapture -> A) : M A :=
  fun s w => Done (f s) s w.

Definition assign (upd : GLDOPPCapture -> GLDOPPCapture) : M unit :=
  fun s w => Done tt (upd s) w.

Definition env {A} (f : Env -> A) : M A :=
  fun s w => Done (f (w_env w)) s w.

Definition emit (e : Event) : M unit :=
  fun s w => Done tt s (log e w).

Definition world_update (f : World -> World) : M unit :=
  fun s w => Done tt s (f w).

(** [arr[i]] on a member array: null pointer and out-of-bounds reads die. *)
Definition array_read (arr : GLDOPPCapture -> option (list GLuint)) (i : N)
  : M GLuint :=
  fun s w =>
    match arr s with
    | None => Fault
    | Some l =>
        match l !! N.to_nat i with
        | Some v => Done v s w
        | None => Fault
        end
    end.

(** *** The global DOPP lock: [RFReadWriteAccess doppLock(&g_GlobalDOPPLock)]
    holds the lock until the end of its scope, on every return path. *)
Definition RFReadWriteAccess {A} (scope : M A) : M A :=
  emit EvLock ;; r <- scope ;; emit EvUnlock ;; ret r.

(** *** OpenGL *)

Definition override {K A} `{EqDecision K} (f : K -> A) (k : K) (v : A) : K -> A :=
  fun k' => if decide (k' = k) then v else f k'.

Definition max_name (l : list GLuint) : GLuint := foldr N.max 0 l.

(** [glGen*] hands out names that are not zero and not in use. *)
Definition fresh_names (live : list GLuint) (n : N) : list GLuint :=
  (fun k => max_name live + 1 + N.of_nat k) <$> seq 0 (N.to_nat n).

Definition remove_names (dead live : list GLuint) : list GLuint :=
  filter (fun n => n ∉ dead) live.

Definition gl_effect (c : GLCall) (w : World) : World :=
  match c with
  | glGenTextures l =>
      set_w_names (override (w_names w) Texture (l ++ w_names w Texture)) w
  | glGenFramebuffers l =>
      set_w_names (override (w_names w) Framebuffer (l ++ w_names w Framebuffer)) w
  | glGenBuffers l =>
      set_w_names (override (w_names w) Buffer (l ++ w_names w Buffer)) w
  | glGenVertexArrays l =>
      set_w_names (override (w_names w) VertexArray (l ++ w_names w VertexArray)) w
  | glDeleteTextures l =>
      set_w_names (override (w_names w) Texture (remove_names l (w_names w Texture))) w
  | glDeleteFramebuffers l =>
      set_w_bound_fbo (if decide (w_bound_fbo w ∈ l) then 0 else w_bound_fbo w)
        (set_w_names
           (override (w_names w) Framebuffer (remove_names l (w_names w Framebuffer))) w)
  | glDeleteBuffers l =>
      set_w_names (override (w_names w) Buffer (remove_names l (w_names w Buffer))) w
  | glDeleteVertexArrays l =>
      set_w_names
        (override (w_names w) VertexArray (remove_names l (w_names w VertexArray))) w
  | glBindFramebuffer fbo => set_w_bound_fbo fbo w
  | _ => w
  end.

Definition gl (c : GLCall) : M unit :=
  fun s w => Done tt s (log (EvGL c) (gl_effect c w)).

Definition glGen_call (o : GLObject) (names : list GLuint) : GLCall :=
  match o with
  | Texture => glGenTextures names
  | Framebuffer => glGenFramebuffers names
  | Buffer => glGenBuffers names
  | VertexArray => glGenVertexArrays names
  end.

Definition glGen (o : GLObject) (n : N) : M (list GLuint) :=
  fun s w =>
    let names := fresh_names (w_names w o) n in
    Done names s (log (EvGL (glGen_call o names)) (gl_effect (glGen_call o names) w)).

Definition glGetTexLevelParameter (p : TexLevelParam) : M Z :=
  gl (glGetTexLevelParameteriv p) ;;
  env (match p with
       | GL_TEXTURE_WIDTH => env_tex_width
       | GL_TEXTURE_HEIGHT => env_tex_height
       end).

(** [glCheckFramebufferStatus(GL_FRAMEBUFFER) == GL_FRAMEBUFFER_COMPLETE] *)
Definition glFramebufferComplete : M bool :=
  gl glCheckFramebufferStatus ;;
  fun s w => Done (env_fb_complete (w_env w) (w_bound_fbo w)) s w.

Definition glGetViewport : M (Z * Z * Z * Z) :=
  gl glGetIntegerv_VIEWPORT ;; env env_viewport.

(** The four sampler settings every texture of the session gets. *)
Definition linear_clamped : M unit :=
  gl (glTexParameterf GL_TEXTURE_MAG_FILTER GL_LINEAR) ;;
  gl (glTexParameterf GL_TEXTURE_MIN_FILTER GL_LINEAR) ;;
  gl (glTexParameterf GL_TEXTURE_WRAP_S GL_CLAMP_TO_EDGE) ;;
  gl (glTexParameterf GL_TEXTURE_WRAP_T GL_CLAMP_TO_EDGE).

(** *** WGL and the DOPP entry points *)

Definition wglGetCurrentContext : M bool :=
  emit EvGetCurrentContext ;; env env_glrc.

(** Calling through a global function pointer that holds [nullptr] dies. *)
Definition through (p : DOPPProc) : M unit :=
  fun s w => if w_procs w p then Done tt s w else Fault.

Definition wglDesktopTargetAMD (id : N) : M bool :=
  through P_wglDesktopTargetAMD ;;
  emit (EvDesktopTarget id) ;;
  env (fun e => env_desktop_target e id).

Definition wglGetDesktopTextureAMD : M GLuint :=
  through P_wglGetDesktopTextureAMD ;;
  emit EvGetDesktopTexture ;;
  env env_desktop_texture.

Definition wglEnablePostProcessAMD (enable : bool) : M unit :=
  through P_wglEnablePostProcessAMD ;;
  emit (EvEnablePostProcess enable).

(** [GET_PROC(xx)]: stores what [wglGetProcAddress] returns in the global
    pointer and tells whether it is non-null (the macro returns [false]
    from the enclosing function when it is null). *)
Definition GET_PROC (p : DOPPProc) : M bool :=
  emit (EvGetProcAddress p) ;;
  fun s w =>
    let found := env_proc_avail (w_env w) p in
    Done found s (set_w_procs (override (w_procs w) p found) w).

(** *** Win32 events and the thread

    An event object is signaled from [SetEvent] until a wait is released
    by it: event 1 is created auto-reset, and event 0, the driver's, is
    taken to be auto-reset too (the code never calls [ResetEvent]).
    [SetEvent] on [NULL] fails and does nothing.  [w_signaled] lists the
    handles of the signaled events.  The notification thread is run where
    its steps are observed: it is parked in its wait from its start, and
    the join runs it from there to its return. *)

Definition unsignal (h : HANDLE) (w : World) : World :=
  set_w_signaled (filter (fun x => x <> h) (w_signaled w)) w.

Definition signal (h : HANDLE) (w : World) : World :=
  if nonzero h then set_w_signaled (h :: w_signaled w) w else w.

Definition SetEvent (h : HANDLE) : M unit :=
  emit (EvSetEvent h) ;; world_update (signal h).

Definition Sleep (ms : N) : M unit := emit (EvSleep ms).

Definition CloseHandle (h : HANDLE) : M unit := emit (EvCloseHandle h).

(** [CreateEvent(NULL, FALSE, FALSE, NULL)]: auto-reset, not signaled. *)
Definition CreateEvent : M HANDLE :=
  emit EvCreateEvent ;;
  h <- env env_create_event ;;
  world_update (unsignal h) ;;
  ret h.

(** A wait on the pair [hs] with [bWaitAll = FALSE] and no timeout: it is
    released by the signaled event of lowest index, which it resets;
    with neither signaled it lasts until a signal from outside ends it. *)
Definition wait_on (hs : HANDLE * HANDLE) : M DWORD :=
  fun s w =>
    if bool_decide (fst hs ∈ w_signaled w) then
      Done WAIT_OBJECT_0 s (log (EvWait (fst hs) (snd hs)) (unsignal (fst hs) w))
    else if bool_decide (snd hs ∈ w_signaled w) then
      Done (WAIT_OBJECT_0 + 1)%Z s
        (log (EvWait (fst hs) (snd hs)) (unsignal (snd hs) w))
    else
      match w_waits w with
      | [] => Blocked
      | r :: rest =>
          Done r s (log (EvWait (fst hs) (snd hs)) (set_w_waits rest w))
      end.

(** [WaitForMultipleObjects(2, m_hDesktopEvent, FALSE, INFINITE)] *)
Definition WaitForMultipleObjects : M DWORD :=
  hs <- this m_hDesktopEvent ;; wait_on hs.

(** [m_NotificationThread = std::thread(...)]: assigning to a joinable
    thread calls [std::terminate].  The new thread finds the tracking flag
    set (it is only started then) and parks in its first wait. *)
Definition start_notification_thread : M unit :=
  fun s w =>
    if m_NotificationThread s then Fault
    else Done tt (set_m_NotificationThread true s)
           (log EvThreadStart (set_w_parked (Some (m_hDesktopEvent s)) w)).

(** *** The driver interface *)

Definition createDOPPEvent : M HANDLE :=
  emit EvCreateDOPPEvent ;; env env_create_dopp_event.

Definition deleteDOPPEvent (h : HANDLE) : M unit := emit (EvDeleteDOPPEvent h).

(** *** Writes to the two flags the notification thread shares *)

Definition store_m_bTrackDesktopChanges (b : bool) : M unit :=
  assign (set_m_bTrackDesktopChanges b) ;; emit (EvStoreTrack b).

Definition store_m_bDesktopChanged (b : bool) : M unit :=
  assign (set_m_bDesktopChanged b) ;; emit (EvStoreChanged b).

(** *** The shader object behind [m_pShader] *)

Definition shader (c : ShaderCall) : M unit :=
  fun s w =>
    match m_pShader s with
    | None => Fault
    | Some _ => Done tt s (log (EvShader c) w)
    end.

Definition non_null {A} (p : option A) : bool :=
  match p with Some _ => true | None => false end.

Definition shader_getProgram : M GLuint :=
  fun s w =>
    match m_pShader s with
    | None => Fault
    | Some sh => Done (shader_program sh) s w
    end.

Definition hDesktopEvent0 (s : GLDOPPCapture) : HANDLE := fst (m_hDesktopEvent s).
Definition hDesktopEvent1 (s : GLDOPPCapture) : HANDLE := snd (m_hDesktopEvent s).

Definition set_hDesktopEvent0 (h : HANDLE) (s : GLDOPPCapture) : GLDOPPCapture :=
  set_m_hDesktopEvent (h, hDesktopEvent1 s) s.
Definition set_hDesktopEvent1 (h : HANDLE) (s : GLDOPPCapture) : GLDOPPCapture :=
  set_m_hDesktopEvent (hDesktopEvent0 s, h) s.

(** ** The member functions *)

(** *** Constructor *)

Inductive Constructed :=
| Built (s : GLDOPPCapture) (w : World)
| Thrown (what : string) (w : World).

(** The member initialiser list. *)
Definition GLDOPPCapture_members (uiDesktop : N) : GLDOPPCapture :=
  {| m_uiDesktopTexture := 0; m_uiDesktopId := uiDesktop; m_uiNumTargets := 2;
     m_uiDesktopWidth := 0; m_uiDesktopHeight := 0;
     m_uiPresentWidth := 0; m_uiPresentHeight := 0;
     m_pShader := None; m_uiBaseMap := 0;
     m_uiVertexBuffer := 0; m_uiVertexArray := 0;
     m_pFBO := None; m_pTexture := None;
     m_bTrackDesktopChanges := false; m_bBlocking := false;
     m_hDesktopEvent := (NULL, NULL);
     m_bDesktopChanged := false; m_NotificationThread := false |}.

Definition GLDOPPCapture_ctor (uiDesktop : N) (pDrv : bool) (w : World)
  : Constructed :=
  let s := GLDOPPCapture_members uiDesktop in
  let body (w : World) := Built s (log (EvStoreChanged false) w) in
  if negb pDrv then Thrown "DOPP no driver ineterface" w
  else
    let w1 := log EvGetDoppState w in
    if negb (w_dopp_state w1) then
      let w2 := log EvEnableDopp
                  (set_w_dopp_state (env_enable_dopp (w_env w1)) w1) in
      let w3 := log EvGetDoppState w2 in
      if negb (w_dopp_state w3) then Thrown "DOPP not enabled" w3
      else body w3
    else body w1.

(** *** [setupDOPPExtension] *)

Definition setupDOPPExtension : M bool :=
  p1 <- GET_PROC P_wglGetDesktopTextureAMD ;;
  if negb p1 then ret false else
  p2 <- GET_PROC P_wglEnablePostProcessAMD ;;
  if negb p2 then ret false else
  p3 <- GET_PROC P_wglPresentTextureToVideoAMD ;;
  if negb p3 then ret false else
  p4 <- GET_PROC P_wglDesktopTargetAMD ;;
  if negb p4 then ret false else
  p5 <- GET_PROC P_wglGenPresentTextureAMD ;;
  if negb p5 then ret false else
  ret true.

(** *** [initEffect] *)

Definition initEffect : M bool :=
  old <- this m_pShader ;;
  (if non_null old then shader Shader_delete else ret tt) ;;
  emit (EvShader Shader_new) ;;
  allocated <- env env_shader_new ;;
  assign (set_m_pShader
            (if allocated then Some {| shader_program := 0 |} else None)) ;;
  pShader <- this m_pShader ;;
  if negb (non_null pShader) then ret false else
  shader (Shader_createShaderFromString GL_VERTEX_SHADER) ;;
  vs <- env env_shader_vs ;;
  if negb vs then ret false else
  shader (Shader_createShaderFromString GL_FRAGMENT_SHADER) ;;
  fs <- env env_shader_fs ;;
  if negb fs then ret false else
  shader Shader_buildProgram ;;
  linked <- env env_shader_link ;;
  if negb linked then ret false else
  program <- env env_program ;;
  assign (set_m_pShader (Some {| shader_program := program |})) ;;
  shader Shader_bind ;;
  prog <- shader_getProgram ;;
  gl (glGetUniformLocation prog) ;;
  loc <- env env_uniform_loc ;;
  assign (set_m_uiBaseMap (GLint_as_uint loc)) ;;
  shader Shader_unbind ;;
  ret true.

(** *** [createRenderTargets] *)

(** The loop [for (i = 0; i < m_uiNumTargets; ++i)], with [bFBStatus]. *)
Fixpoint createRenderTargets_loop (idxs : list nat) (bFBStatus : bool) : M bool :=
  match idxs with
  | [] => ret bFBStatus
  | i :: rest =>
      tex <- array_read m_pTexture (N.of_nat i) ;;
      gl (glBindTexture tex) ;;
      width <- this m_uiPresentWidth ;;
      height <- this m_uiPresentHeight ;;
      gl (glTexImage2D (uint_as_int width) (uint_as_int height)) ;;
      linear_clamped ;;
      fbo <- array_read m_pFBO (N.of_nat i) ;;
      gl (glBindFramebuffer fbo) ;;
      tex' <- array_read m_pTexture (N.of_nat i) ;;
      gl (glFramebufferTexture2D tex') ;;
      complete <- glFramebufferComplete ;;
      createRenderTargets_loop rest (if complete then bFBStatus else false)
  end.

Definition createRenderTargets : M bool :=
  pFBO <- this m_pFBO ;;
  pTexture <- this m_pTexture ;;
  if non_null pFBO || non_null pTexture then ret false else
  n <- this m_uiNumTargets ;;
  assign (set_m_pFBO (Some (replicate (N.to_nat n) 0))) ;;
  assign (set_m_pTexture (Some (replicate (N.to_nat n) 0))) ;;
  fbos <- glGen Framebuffer n ;;
  assign (set_m_pFBO (Some fbos)) ;;
  texs <- glGen Texture n ;;
  assign (set_m_pTexture (Some texs)) ;;
  bFBStatus <- createRenderTargets_loop (seq 0 (N.to_nat n)) true ;;
  gl (glBindTexture 0) ;;
  gl (glBindFramebuffer 0) ;;
  ret bFBStatus.

(** *** [createQuad] *)

Definition createQuad (fRotation : float) : M unit :=
  vao <- glGen VertexArray 1 ;;
  assign (set_m_uiVertexArray (default 0 (head vao))) ;;
  uiVertexArray <- this m_uiVertexArray ;;
  gl (glBindVertexArray uiVertexArray) ;;
  vbo <- glGen Buffer 1 ;;
  assign (set_m_uiVertexBuffer (default 0 (head vbo))) ;;
  uiVertexBuffer <- this m_uiVertexBuffer ;;
  gl (glBindBuffer uiVertexBuffer) ;;
  gl (glBufferData_quad fRotation) ;;
  gl glBufferSubData_texcoords ;;
  gl (glEnableVertexAttribArray 0) ;;
  gl (glEnableVertexAttribArray 4) ;;
  gl (glVertexAttribPointer 0 4) ;;
  gl (glVertexAttribPointer 4 2) ;;
  gl (glBindBuffer 0) ;;
  gl (glBindVertexArray 0).

(** *** [initDOPP] *)

(** The part of [initDOPP] after [createQuad]: the tracking configuration. *)
Definition initDOPP_tracking (bTrackDesktopChanges bBlocking : bool) : M RFStatus :=
  store_m_bTrackDesktopChanges bTrackDesktopChanges ;;
  assign (set_m_bBlocking bBlocking) ;;
  blocking <- this m_bBlocking ;;
  track <- this m_bTrackDesktopChanges ;;
  (if blocking && negb track then store_m_bTrackDesktopChanges true else ret tt) ;;
  track <- this m_bTrackDesktopChanges ;;
  (if track then
     h <- createDOPPEvent ;;
     assign (set_hDesktopEvent0 h) ;;
     h0 <- this hDesktopEvent0 ;;
     if negb (nonzero h0) then store_m_bTrackDesktopChanges false
     else (h1 <- CreateEvent ;; assign (set_hDesktopEvent1 h1))
   else ret tt) ;;
  track <- this m_bTrackDesktopChanges ;;
  blocking <- this m_bBlocking ;;
  (if track && negb blocking then start_notification_thread else ret tt) ;;
  ret RF_STATUS_OK.

Definition initDOPP (uiPresentWidth uiPresentHeight : N) (fRotation : float)
    (bTrackDesktopChanges bBlocking : bool) : M RFStatus :=
  RFReadWriteAccess (
    glrc <- wglGetCurrentContext ;;
    if negb glrc then ret RF_STATUS_OPENGL_FAIL else
    if (uiPresentWidth <=? 0) || (uiPresentHeight <=? 0)
    then ret RF_STATUS_INVALID_DIMENSION else
    assign (set_m_uiPresentWidth uiPresentWidth) ;;
    assign (set_m_uiPresentHeight uiPresentHeight) ;;
    ext <- setupDOPPExtension ;;
    if negb ext then ret RF_STATUS_DOPP_FAIL else
    id <- this m_uiDesktopId ;;
    selected <- wglDesktopTargetAMD id ;;
    if negb selected then ret RF_STATUS_INVALID_DESKTOP_ID else
    tex <- wglGetDesktopTextureAMD ;;
    assign (set_m_uiDesktopTexture tex) ;;
    uiDesktopTexture <- this m_uiDesktopTexture ;;
    gl (glBindTexture uiDesktopTexture) ;;
    width <- glGetTexLevelParameter GL_TEXTURE_WIDTH ;;
    assign (set_m_uiDesktopWidth (GLint_as_uint width)) ;;
    height <- glGetTexLevelParameter GL_TEXTURE_HEIGHT ;;
    assign (set_m_uiDesktopHeight (GLint_as_uint height)) ;;
    linear_clamped ;;
    gl (glBindTexture 0) ;;
    effect <- initEffect ;;
    if negb effect then ret RF_STATUS_DOPP_FAIL else
    targets <- createRenderTargets ;;
    if negb targets then ret RF_STATUS_DOPP_FAIL else
    createQuad fRotation ;;
    initDOPP_tracking bTrackDesktopChanges bBlocking).

(** *** [resizeDesktopTexture] *)

Definition resizeDesktopTexture : M RFStatus :=
  id <- this m_uiDesktopId ;;
  if 0 <? id then
    RFReadWriteAccess (
      old <- this m_uiDesktopTexture ;;
      (if nonzero old then gl (glDeleteTextures [old]) else ret tt) ;;
      id <- this m_uiDesktopId ;;
      selected <- wglDesktopTargetAMD id ;;
      if negb selected then ret RF_STATUS_INVALID_DESKTOP_ID else
      tex <- wglGetDesktopTextureAMD ;;
      assign (set_m_uiDesktopTexture tex) ;;
      uiDesktopTexture <- this m_uiDesktopTexture ;;
      gl (glBindTexture uiDesktopTexture) ;;
      linear_clamped ;;
      width <- glGetTexLevelParameter GL_TEXTURE_WIDTH ;;
      assign (set_m_uiDesktopWidth (GLint_as_uint width)) ;;
      height <- glGetTexLevelParameter GL_TEXTURE_HEIGHT ;;
      assign (set_m_uiDesktopHeight (GLint_as_uint height)) ;;
      gl (glBindTexture 0) ;;
      ret RF_STATUS_OK)
  else ret RF_STATUS_INVALID_DESKTOP_ID.

(** *** [resizePresentTexture] *)

(** [glDelete*(m_uiNumTargets, arr)] on a member array. *)
Definition first_targets (l : list GLuint) : M (list GLuint) :=
  n <- this m_uiNumTargets ;; ret (take (N.to_nat n) l).

Definition resizePresentTexture (uiPresentWidth uiPresentHeight : N) : M RFStatus :=
  pTexture <- this m_pTexture ;;
  (match pTexture with
   | Some arr =>
       names <- first_targets arr ;;
       gl (glDeleteTextures names) ;;
       assign (set_m_pTexture None)
   | None => ret tt
   end) ;;
  pFBO <- this m_pFBO ;;
  (match pFBO with
   | Some arr =>
       names <- first_targets arr ;;
       gl (glDeleteFramebuffers names) ;;
       assign (set_m_pFBO None)
   | None => ret tt
   end) ;;
  assign (set_m_uiPresentWidth uiPresentWidth) ;;
  assign (set_m_uiPresentHeight uiPresentHeight) ;;
  targets <- createRenderTargets ;;
  if negb targets then ret RF_STATUS_OPENGL_FAIL else
  ret RF_STATUS_OK.

(** *** [releaseEvent] *)

Definition releaseEvent : M bool :=
  blocking <- this m_bBlocking ;;
  if blocking then
    h1 <- this hDesktopEvent1 ;;
    SetEvent h1 ;;
    Sleep 0 ;;
    ret true
  else ret false.

(** *** [processDesktop] *)

(** The block under the global lock: select the desktop and render its
    texture into the framebuffer of slot [idx]. *)
Definition processDesktop_render (idx : N) : M unit :=
  RFReadWriteAccess (
    fbo <- array_read m_pFBO idx ;;
    gl (glBindFramebuffer fbo) ;;
    pVP <- glGetViewport ;;
    width <- this m_uiPresentWidth ;;
    height <- this m_uiPresentHeight ;;
    gl (glViewport 0 0 (uint_as_int width) (uint_as_int height)) ;;
    id <- this m_uiDesktopId ;;
    wglDesktopTargetAMD id ;;
    shader Shader_bind ;;
    gl (glActiveTexture 1) ;;
    tex <- this m_uiDesktopTexture ;;
    gl (glBindTexture tex) ;;
    uiBaseMap <- this m_uiBaseMap ;;
    gl (glUniform1i (uint_as_int uiBaseMap) 1) ;;
    vao <- this m_uiVertexArray ;;
    gl (glBindVertexArray vao) ;;
    gl (glDrawArrays_TRIANGLE_STRIP 0 4) ;;
    gl (glBindVertexArray 0) ;;
    shader Shader_unbind ;;
    gl (glBindTexture 0) ;;
    gl (glActiveTexture 0) ;;
    gl (glBindFramebuffer 0) ;;
    (let '(x, y, w, h) := pVP in gl (glViewport x y w h)) ;;
    store_m_bDesktopChanged false ;;
    gl glFinish).

Definition processDesktop (idx : N) : M bool :=
  n <- this m_uiNumTargets ;;
  let idx := if n <=? idx then 0 else idx in
  track <- this m_bTrackDesktopChanges ;;
  if track then
    blocking <- this m_bBlocking ;;
    if blocking then
      dwResult <- WaitForMultipleObjects ;;
      if (dword_sub dwResult WAIT_OBJECT_0 =? 1)%Z then ret false else
      processDesktop_render idx ;;
      ret true
    else
      changed <- this m_bDesktopChanged ;;
      if negb changed then ret false else
      processDesktop_render idx ;;
      ret true
  else
    processDesktop_render idx ;;
    ret true.

(** *** [getFramebufferTex] *)

Definition getFramebufferTex (idx : N) : M GLuint :=
  n <- this m_uiNumTargets ;;
  pTexture <- this m_pTexture ;;
  if (0 <? n) && (idx <? n) && non_null pTexture
  then array_read m_pTexture idx
  else ret 0.

(** *** [notificationLoop]

    The body of the notification thread.  Every turn of the loop is
    released by a signaled event or by one outcome from [w_waits], so
    their number bounds the turns: with none left the wait does not
    return. *)

(** One turn: the wait and what follows it. *)
Definition notificationLoop_turn (wait : M DWORD) : M unit :=
  dwResult <- wait ;;
  if (dword_sub dwResult WAIT_OBJECT_0 =? 0)%Z
  then store_m_bDesktopChanged true else ret tt.

Fixpoint notificationLoop_turns (turns : nat) : M unit :=
  track <- this m_bTrackDesktopChanges ;;
  if track then
    match turns with
    | O => fun _ _ => Blocked
    | S k =>
        notificationLoop_turn WaitForMultipleObjects ;;
        notificationLoop_turns k
    end
  else ret tt.

Definition notificationLoop : M unit :=
  fun s w =>
    notificationLoop_turns (length (w_signaled w) + length (w_waits w)) s w.

(** [m_NotificationThread.join()]: returns when the thread function has
    returned.  A thread parked in a wait first has to be released from it,
    finishes that turn and goes on with the loop; a thread that is not in
    a wait is at the loop test. *)
Definition notification_thread_rest : M unit :=
  fun s w =>
    match w_parked w with
    | Some hs =>
        (notificationLoop_turn (wait_on hs) ;; notificationLoop)
          s (set_w_parked None w)
    | None => notificationLoop s w
    end.

Definition join_notification_thread : M unit :=
  notification_thread_rest ;;
  emit EvThreadJoin ;;
  assign (set_m_NotificationThread false).

(** *** Destructor *)

(** The block guarded by "we still have a valid context". *)
Definition dtor_release_gl : M unit :=
  pShader <- this m_pShader ;;
  (if non_null pShader then shader Shader_delete else ret tt) ;;
  tex <- this m_uiDesktopTexture ;;
  (if nonzero tex then gl (glDeleteTextures [tex]) else ret tt) ;;
  pFBO <- this m_pFBO ;;
  (match pFBO with
   | Some arr => names <- first_targets arr ;; gl (glDeleteFramebuffers names)
   | None => ret tt
   end) ;;
  pTexture <- this m_pTexture ;;
  (match pTexture with
   | Some arr => names <- first_targets arr ;; gl (glDeleteTextures names)
   | None => ret tt
   end) ;;
  vbo <- this m_uiVertexBuffer ;;
  (if nonzero vbo then gl (glDeleteBuffers [vbo]) else ret tt) ;;
  vao <- this m_uiVertexArray ;;
  (if nonzero vao then gl (glDeleteVertexArrays [vao]) else ret tt).

Definition GLDOPPCapture_dtor : M unit :=
  wglEnablePostProcessAMD false ;;
  glrc <- wglGetCurrentContext ;;
  (if glrc then dtor_release_gl
   else emit (EvRFError RF_STATUS_OPENGL_FAIL)) ;;
  pFBO <- this m_pFBO ;;
  (if non_null pFBO then assign (set_m_pFBO None) else ret tt) ;;
  pTexture <- this m_pTexture ;;
  (if non_null pTexture then assign (set_m_pTexture None) else ret tt) ;;
  store_m_bTrackDesktopChanges false ;;
  h0 <- this hDesktopEvent0 ;;
  (if nonzero h0 then SetEvent h0 ;; Sleep 0 else ret tt) ;;
  h1 <- this hDesktopEvent1 ;;
  (if nonzero h1 then CloseHandle h1 ;; assign (set_hDesktopEvent1 NULL)
   else ret tt) ;;
  joinable <- this m_NotificationThread ;;
  (if joinable then join_notification_thread else ret tt) ;;
  h0 <- this hDesktopEvent0 ;;
  (if nonzero h0 then deleteDOPPEvent h0 ;; assign (set_hDesktopEvent0 NULL)
   else ret tt).

(** ** A concrete machine to run the code on *)

Definition good_env : Env :=
  {| env_glrc := true;
     env_proc_avail := fun _ => true;
     env_desktop_target := fun _ => true;
     env_desktop_texture := 77;
     env_tex_width := 1920;
     env_tex_height := 1080;
     env_shader_new := true;
     env_shader_vs := true;
     env_shader_fs := true;
     env_shader_link := true;
     env_program := 5;
     env_uniform_loc := 0;
     env_fb_complete := fun _ => true;
     env_viewport := (0, 0, 800, 600)%Z;
     env_enable_dopp := true;
     env_create_dopp_event := 40;
     env_create_event := 44 |}.

Definition boot (e : Env) (waits : list DWORD) : World :=
  {| w_env := e;
     w_procs := fun _ => false;
     w_names := fun _ => [];
     w_bound_fbo := 0;
     w_dopp_state := false;
     w_waits := waits;
     w_signaled := [];
     w_parked := None;
     w_trace := [] |}.

(** Construct a session for [uiDesktop] and initialise it. *)
Definition start (e : Env) (waits : list DWORD) (uiDesktop w h : N)
    (bTrack bBlocking : bool) : Outcome RFStatus :=
  match GLDOPPCapture_ctor uiDesktop true (boot e waits) with
  | Built s w0 => initDOPP w h 0 bTrack bBlocking s w0
  | Thrown _ _ => Fault
  end.

(** ** Vocabulary of the statements *)

Definition result_of {A} (o : Outcome A) : option A :=
  match o with Done a _ _ => Some a | _ => None end.

Definition session_of {A} (o : Outcome A) : option GLDOPPCapture :=
  match o with Done _ s _ => Some s | _ => None end.

(** What [processDesktop] needs from an earlier successful [initDOPP]: the
    framebuffer array with one entry per target, at least one target, the
    shader object and the resolved [wglDesktopTargetAMD]. *)
Definition initialised (s : GLDOPPCapture) (w : World) : bool :=
  match m_pFBO s with
  | Some fbos => N.of_nat (length fbos) =? m_uiNumTargets s
  | None => false
  end
  && (0 <? m_uiNumTargets s)
  && non_null (m_pShader s)
  && w_procs w P_wglDesktopTargetAMD.

(** The slot [processDesktop] renders into for a requested index. *)
Definition slot_of (s : GLDOPPCapture) (idx : N) : N :=
  if m_uiNumTargets s <=? idx then 0 else idx.

(** The calls of one composite into framebuffer [fbo], in order. *)
Definition render_calls (s : GLDOPPCapture) (vp : Z * Z * Z * Z) (fbo : GLuint)
  : list Event :=
  [ EvLock;
    EvGL (glBindFramebuffer fbo);
    EvGL glGetIntegerv_VIEWPORT;
    EvGL (glViewport 0 0 (uint_as_int (m_uiPresentWidth s))
            (uint_as_int (m_uiPresentHeight s)));
    EvDesktopTarget (m_uiDesktopId s);
    EvShader Shader_bind;
    EvGL (glActiveTexture 1);
    EvGL (glBindTexture (m_uiDesktopTexture s));
    EvGL (glUniform1i (uint_as_int (m_uiBaseMap s)) 1);
    EvGL (glBindVertexArray (m_uiVertexArray s));
    EvGL (glDrawArrays_TRIANGLE_STRIP 0 4);
    EvGL (glBindVertexArray 0);
    EvShader Shader_unbind;
    EvGL (glBindTexture 0);
    EvGL (glActiveTexture 0);
    EvGL (glBindFramebuffer 0);
    EvGL (glViewport (vp.1.1.1) (vp.1.1.2) (vp.1.2) (vp.2));
    EvStoreChanged false;
    EvGL glFinish;
    EvUnlock ].

(** [composited s w w']: between [w] and [w'] the session selected its
    desktop and drew it into the framebuffer of some slot, under the lock,
    and nothing but the GL binding and the log changed. *)
Definition composited (s : GLDOPPCapture) (idx : N) (w w' : World) : Prop :=
  exists fbos fbo,
    m_pFBO s = Some fbos
    /\ fbos !! N.to_nat idx = Some fbo
    /\ emits w w' (render_calls s (env_viewport (w_env w)) fbo)
    /\ w_env w' = w_env w /\ w_procs w' = w_procs w
    /\ w_names w' = w_names w /\ w_waits w' = w_waits w
    /\ w_signaled w' = w_signaled w /\ w_parked w' = w_parked w.


(** A machine without a current GL context, and one whose framebuffers
    never validate. *)
Definition no_context_env : Env :=
  {| env_glrc := false;
     env_proc_avail := env_proc_avail good_env;
     env_desktop_target := env_desktop_target good_env;
     env_desktop_texture := env_desktop_texture good_env;
     env_tex_width := env_tex_width good_env;
     env_tex_height := env_tex_height good_env;
     env_shader_new := true; env_shader_vs := true;
     env_shader_fs := true; env_shader_link := true;
     env_program := env_program good_env;
     env_uniform_loc := env_uniform_loc good_env;
     env_fb_complete := env_fb_complete good_env;
     env_viewport := env_viewport good_env;
     env_enable_dopp := true;
     env_create_dopp_event := env_create_dopp_event good_env;
     env_create_event := env_create_event good_env |}.

Definition incomplete_env : Env :=
  {| env_glrc := true;
     env_proc_avail := env_proc_avail good_env;
     env_desktop_target := env_desktop_target good_env;
     env_desktop_texture := env_desktop_texture good_env;
     env_tex_width := env_tex_width good_env;
     env_tex_height := env_tex_height good_env;
     env_shader_new := true; env_shader_vs := true;
     env_shader_fs := true; env_shader_link := true;
     env_program := env_program good_env;
     env_uniform_loc := env_uniform_loc good_env;
     env_fb_complete := fun _ => false;
     env_viewport := env_viewport good_env;
     env_enable_dopp := true;
     env_create_dopp_event := env_create_dopp_event good_env;
     env_create_event := env_create_event good_env |}.

(** A machine on which the display topology changed: no desktop id can be
    selected any more. *)
Definition unplugged_env : Env :=
  {| env_glrc := true;
     env_proc_avail := env_proc_avail good_env;
     env_desktop_target := fun _ => false;
     env_desktop_texture := env_desktop_texture good_env;
     env_tex_width := env_tex_width good_env;
     env_tex_height := env_tex_height good_env;
     env_shader_new := true; env_shader_vs := true;
     env_shader_fs := true; env_shader_link := true;
     env_program := env_program good_env;
     env_uniform_loc := env_uniform_loc good_env;
     env_fb_complete := env_fb_complete good_env;
     env_viewport := env_viewport good_env;
     env_enable_dopp := true;
     env_create_dopp_event := env_create_dopp_event good_env;
     env_create_event := env_create_event good_env |}.

(** A machine whose driver refuses to register the desktop-change event. *)
Definition no_event_env : Env :=
  {| env_glrc := true;
     env_proc_avail := env_proc_avail good_env;
     env_desktop_target := env_desktop_target good_env;
     env_desktop_texture := env_desktop_texture good_env;
     env_tex_width := env_tex_width good_env;
     env_tex_height := env_tex_height good_env;
     env_shader_new := true; env_shader_vs := true;
     env_shader_fs := true; env_shader_link := true;
     env_program := env_program good_env;
     env_uniform_loc := env_uniform_loc good_env;
     env_fb_complete := env_fb_complete good_env;
     env_viewport := env_viewport good_env;
     env_enable_dopp := true;
     env_create_dopp_event := NULL;
     env_create_event := env_create_event good_env |}.

(** The world the constructor leaves behind on a fresh machine. *)
Definition constructed_world (e : Env) (waits : list DWORD) (uiDesktop : N) : World :=
  match GLDOPPCapture_ctor uiDesktop true (boot e waits) with
  | Built _ w => w
  | Thrown _ w => w
  end.

(** The session and the world that [start] leaves behind. *)
Definition started_session (o : Outcome RFStatus) (uiDesktop : N) : GLDOPPCapture :=
  match o with Done _ s _ => s | _ => GLDOPPCapture_members uiDesktop end.

Definition started_world (o : Outcome RFStatus) : World :=
  match o with Done _ _ w => w | _ => boot good_env [] end.

(** The session after the two arrays were allocated and filled. *)
Definition with_pool (fbos texs : list GLuint) (s : GLDOPPCapture) : GLDOPPCapture :=
  set_m_pTexture (Some texs) (set_m_pFBO (Some fbos) s).

(** The two states of the render-target pool: no array at all, or both
    arrays with one entry per target. *)
Definition pool_empty (s : GLDOPPCapture) : Prop :=
  m_pFBO s = None /\ m_pTexture s = None.

Definition pool_allocated (s : GLDOPPCapture) : Prop :=
  exists fbos texs,
    m_pFBO s = Some fbos /\ m_pTexture s = Some texs
    /\ length fbos = N.to_nat (m_uiNumTargets s)
    /\ length texs = N.to_nat (m_uiNumTargets s).

Definition pool_shape (s : GLDOPPCapture) : Prop :=
  pool_empty s \/ pool_allocated s.

(** Every framebuffer of the pool validates as complete. *)
Definition pool_complete (e : Env) (s : GLDOPPCapture) : bool :=
  match m_pFBO s with
  | Some fbos => forallb (env_fb_complete e) fbos
  | None => false
  end.

(** What [initDOPP] makes of the requested tracking mode, given the handle
    [h0] the driver returned for the desktop-change event. *)
Definition tracking_resolved (track blocking : bool) (h0 : HANDLE) : bool :=
  (track || blocking) && nonzero h0.

Definition tracking_session (track blocking : bool) (h0 h1 : HANDLE)
    (s : GLDOPPCapture) : GLDOPPCapture :=
  set_m_NotificationThread
    (m_NotificationThread s || (tracking_resolved track blocking h0 && negb blocking))
    (set_m_hDesktopEvent
       (if track || blocking
        then (h0, if nonzero h0 then h1 else hDesktopEvent1 s)
        else m_hDesktopEvent s)
       (set_m_bBlocking blocking
          (set_m_bTrackDesktopChanges (tracking_resolved track blocking h0) s))).

(** The calls that stop the change notification. *)
Definition is_teardown_call (e : Event) : bool :=
  match e with
  | EvStoreTrack _ | EvSetEvent _ | EvSleep _ | EvCloseHandle _
  | EvThreadJoin | EvDeleteDOPPEvent _ => true
  | _ => false
  end.

(** The teardown order in the words of the specification: clear the
    liveness flag; signal the driver-change event; close the local unblock
    event; join the thread if it was started; only then release the
    driver-change event.  A step on an event is taken when the session
    holds a handle for it. *)
Definition teardown_calls (s : GLDOPPCapture) : list Event :=
  [EvStoreTrack false]
  ++ (if nonzero (hDesktopEvent0 s)
      then [EvSetEvent (hDesktopEvent0 s); EvSleep 0] else [])
  ++ (if nonzero (hDesktopEvent1 s) then [EvCloseHandle (hDesktopEvent1 s)] else [])
  ++ (if m_NotificationThread s then [EvThreadJoin] else [])
  ++ (if nonzero (hDesktopEvent0 s) then [EvDeleteDOPPEvent (hDesktopEvent0 s)] else []).

(** The calls that make slot [i] of the pool: texture [tex] of the present
    size with linear, clamped filtering, attached to framebuffer [fbo] and
    checked. *)
Definition target_calls (s : GLDOPPCapture) (fbo tex : GLuint) : list Event :=
  [ EvGL (glBindTexture tex);
    EvGL (glTexImage2D (uint_as_int (m_uiPresentWidth s))
            (uint_as_int (m_uiPresentHeight s)));
    EvGL (glTexParameterf GL_TEXTURE_MAG_FILTER GL_LINEAR);
    EvGL (glTexParameterf GL_TEXTURE_MIN_FILTER GL_LINEAR);
    EvGL (glTexParameterf GL_TEXTURE_WRAP_S GL_CLAMP_TO_EDGE);
    EvGL (glTexParameterf GL_TEXTURE_WRAP_T GL_CLAMP_TO_EDGE);
    EvGL (glBindFramebuffer fbo);
    EvGL (glFramebufferTexture2D tex);
    EvGL glCheckFramebufferStatus ].

(** The calls of a pool build with the generated names [fbos], [texs]. *)
Definition build_calls (s : GLDOPPCapture) (fbos texs : list GLuint) : list Event :=
  [EvGL (glGenFramebuffers fbos); EvGL (glGenTextures texs)]
  ++ concat (zip_with (target_calls s) fbos texs)
  ++ [EvGL (glBindTexture 0); EvGL (glBindFramebuffer 0)].

(** The names [glDelete*(m_uiNumTargets, arr)] is given for a member
    array, none when the array is not allocated. *)
Definition pool_names (arr : GLDOPPCapture -> option (list GLuint))
    (s : GLDOPPCapture) : list GLuint :=
  match arr s with
  | Some l => take (N.to_nat (m_uiNumTargets s)) l
  | None => []
  end.

(** The calls that tear an existing pool down: textures first. *)
Definition release_calls (s : GLDOPPCapture) : list Event :=
  (if non_null (m_pTexture s)
   then [EvGL (glDeleteTextures (pool_names m_pTexture s))] else [])
  ++ (if non_null (m_pFBO s)
      then [EvGL (glDeleteFramebuffers (pool_names m_pFBO s))] else []).

(** What the notification thread still does before a join returns, once
    the tracking flag is cleared and the driver-change event signaled: a
    thread parked in its wait is released by that event and records the
    change; a thread at the loop test just leaves. *)
Definition thread_exit_calls (w : World) : list Event :=
  match w_parked w with
  | Some hs => [EvWait (fst hs) (snd hs); EvStoreChanged true]
  | None => []
  end.

(** The log of the teardown: the destructor's calls in their order, and
    between the close of the unblock event and the return of the join the
    last steps of the thread. *)
Definition teardown_trace (s : GLDOPPCapture) (w : World) : list Event :=
  [EvStoreTrack false]
  ++ (if nonzero (hDesktopEvent0 s)
      then [EvSetEvent (hDesktopEvent0 s); EvSleep 0] else [])
  ++ (if nonzero (hDesktopEvent1 s) then [EvCloseHandle (hDesktopEvent1 s)] else [])
  ++ (if m_NotificationThread s then thread_exit_calls w ++ [EvThreadJoin] else [])
  ++ (if nonzero (hDesktopEvent0 s) then [EvDeleteDOPPEvent (hDesktopEvent0 s)] else []).

(** A joinable notification thread belongs to this session: the session
    holds the driver-change event, and a thread parked in a wait waits on
    that event (as the thread that [initDOPP] starts does). *)
Definition thread_of_session (s : GLDOPPCapture) (w : World) : Prop :=
  m_NotificationThread s = true ->
  nonzero (hDesktopEvent0 s) = true
  /\ forall hs, w_parked w = Some hs -> fst hs = hDesktopEvent0 s.

(** [gl_frame w w']: the answers of the machine, the resolved entry
    points, the live names, the pending wake-ups and the DOPP state are
    the same in [w] and [w']. *)
Definition gl_frame (w w' : World) : Prop :=
  w_env w' = w_env w /\ w_procs w' = w_procs w /\ w_names w' = w_names w
  /\ w_waits w' = w_waits w /\ w_dopp_state w' = w_dopp_state w
  /\ w_signaled w' = w_signaled w /\ w_parked w' = w_parked w.

(** *** Vocabulary of the further properties *)

Definition is_lock (e : Event) : bool :=
  match e with EvLock | EvUnlock => true | _ => false end.

Definition is_gl (e : Event) : bool :=
  match e with EvGL _ => true | _ => false end.

Definition is_get_proc (e : Event) : bool :=
  match e with EvGetProcAddress _ => true | _ => false end.

Definition is_wait (e : Event) : bool :=
  match e with EvWait _ _ => true | _ => false end.

(** The calls that signal, create or consume an event, and the calls
    that start or join the thread. *)
Definition is_event_call (e : Event) : bool :=
  match e with
  | EvSetEvent _ | EvCreateEvent | EvWait _ _ => true
  | _ => false
  end.

Definition is_thread_call (e : Event) : bool :=
  match e with
  | EvThreadStart | EvThreadJoin => true
  | _ => false
  end.

(** [changes_by evs w w']: the world went from [w] to [w'] through the
    calls [evs] and nothing else: the collaborators' answers and the DOPP
    state are the same, the resolved entry points are the same unless an
    entry point was looked up, the pending wake-ups are the same unless a
    wait was made, the GL names and framebuffer binding are the same
    unless a GL call was made, the signaled events are the same unless an
    event call was made, and the thread is where it was unless it was
    started or joined. *)
Definition changes_by (evs : list Event) (w w' : World) : Prop :=
  emits w w' evs
  /\ w_env w' = w_env w
  /\ w_dopp_state w' = w_dopp_state w
  /\ (forallb (fun e => negb (is_get_proc e)) evs = true -> w_procs w' = w_procs w)
  /\ (forallb (fun e => negb (is_wait e)) evs = true -> w_waits w' = w_waits w)
  /\ (forallb (fun e => negb (is_gl e)) evs = true ->
      w_names w' = w_names w /\ w_bound_fbo w' = w_bound_fbo w)
  /\ (forallb (fun e => negb (is_event_call e)) evs = true ->
      w_signaled w' = w_signaled w)
  /\ (forallb (fun e => negb (is_thread_call e)) evs = true ->
      w_parked w' = w_parked w).

(** [session_keeps f m]: whenever [m] returns, member [f] of the session
    is what it was. *)
Definition session_keeps {A B} (f : GLDOPPCapture -> B) (m : M A) : Prop :=
  forall s w a s' w', m s w = Done a s' w' -> f s' = f s.

(** [emits_only P m]: whenever [m] returns, it changed the world only by
    calls that satisfy [P]. *)
Definition emits_only {A} (P : Event -> bool) (m : M A) : Prop :=
  forall s w a s' w',
    m s w = Done a s' w' ->
    exists evs, changes_by evs w w' /\ forallb P evs = true.

(** The entry points [setupDOPPExtension] looks up before [p]. *)
Definition procs_before (p : DOPPProc) : list DOPPProc :=
  match p with
  | P_wglGetDesktopTextureAMD => []
  | P_wglEnablePostProcessAMD => [P_wglGetDesktopTextureAMD]
  | P_wglPresentTextureToVideoAMD =>
      [P_wglGetDesktopTextureAMD; P_wglEnablePostProcessAMD]
  | P_wglDesktopTargetAMD =>
      [P_wglGetDesktopTextureAMD; P_wglEnablePostProcessAMD;
       P_wglPresentTextureToVideoAMD]
  | P_wglGenPresentTextureAMD =>
      [P_wglGetDesktopTextureAMD; P_wglEnablePostProcessAMD;
       P_wglPresentTextureToVideoAMD; P_wglDesktopTargetAMD]
  end.

Definition all_procs : list DOPPProc :=
  procs_before P_wglGenPresentTextureAMD ++ [P_wglGenPresentTextureAMD].

(** A machine like [e] whose driver resolves the entry points [avail]. *)
Definition with_proc_avail (avail : DOPPProc -> bool) (e : Env) : Env :=
  {| env_glrc := env_glrc e;
     env_proc_avail := avail;
     env_desktop_target := env_desktop_target e;
     env_desktop_texture := env_desktop_texture e;
     env_tex_width := env_tex_width e;
     env_tex_height := env_tex_height e;
     env_shader_new := env_shader_new e;
     env_shader_vs := env_shader_vs e;
     env_shader_fs := env_shader_fs e;
     env_shader_link := env_shader_link e;
     env_program := env_program e;
     env_uniform_loc := env_uniform_loc e;
     env_fb_complete := env_fb_complete e;
     env_viewport := env_viewport e;
     env_enable_dopp := env_enable_dopp e;
     env_create_dopp_event := env_create_dopp_event e;
     env_create_event := env_create_event e |}.

(** A driver without [wglDesktopTargetAMD]. *)
Definition no_target_env : Env :=
  with_proc_avail
    (fun p => match p with P_wglDesktopTargetAMD => false | _ => true end)
    good_env.



(** [session_used s w s' w']: the session went from [s], [w] to [s'], [w']
    through calls of the member functions a client makes between
    [initDOPP] and the destructor, each of which returned. *)
Inductive session_used (s : GLDOPPCapture) (w : World)
  : GLDOPPCapture -> World -> Prop :=
| used_not : session_used s w s w
| used_processDesktop idx b s1 w1 s2 w2 :
    session_used s w s1 w1 ->
    processDesktop idx s1 w1 = Done b s2 w2 ->
    session_used s w s2 w2
| used_resizeDesktopTexture st s1 w1 s2 w2 :
    session_used s w s1 w1 ->
    resizeDesktopTexture s1 w1 = Done st s2 w2 ->
    session_used s w s2 w2
| used_resizePresentTexture pw ph st s1 w1 s2 w2 :
    session_used s w s1 w1 ->
    resizePresentTexture pw ph s1 w1 = Done st s2 w2 ->
    session_used s w s2 w2
| used_releaseEvent b s1 w1 s2 w2 :
    session_used s w s1 w1 ->
    releaseEvent s1 w1 = Done b s2 w2 ->
    session_used s w s2 w2
| used_getFramebufferTex idx tex s1 w1 s2 w2 :
    session_used s w s1 w1 ->
    getFramebufferTex idx s1 w1 = Done tex s2 w2 ->
    session_used s w s2 w2.

(** The calls of [createQuad] for the generated names [va] and [vb]. *)
Definition quad_calls (rot : float) (va vb : GLuint) : list Event :=
  [ EvGL (glGenVertexArrays [va]);
    EvGL (glBindVertexArray va);
    EvGL (glGenBuffers [vb]);
    EvGL (glBindBuffer vb);
    EvGL (glBufferData_quad rot);
    EvGL glBufferSubData_texcoords;
    EvGL (glEnableVertexAttribArray 0);
    EvGL (glEnableVertexAttribArray 4);
    EvGL (glVertexAttribPointer 0 4);
    EvGL (glVertexAttribPointer 4 2);
    EvGL (glBindBuffer 0);
    EvGL (glBindVertexArray 0) ].

(** The calls [resizeDesktopTexture] makes under the lock. *)
Definition is_desktop_call (e : Event) : bool :=
  match e with
  | EvGL _ | EvDesktopTarget _ | EvGetDesktopTexture => true
  | _ => false
  end.


(** ** Proof tools *)

Lemma bind_Done {A B} (m : M A) (k : A -> M B) s w a s' w' :
  m s w = Done a s' w' -> bind m k s w = k a s' w'.
Proof. unfold bind. intros ->. reflexivity. Qed.

Lemma bind_Fault {A B} (m : M A) (k : A -> M B) s w :
  m s w = Fault -> bind m k s w = Fault.
Proof. unfold bind. intros ->. reflexivity. Qed.

Lemma bind_Blocked {A B} (m : M A) (k : A -> M B) s w :
  m s w = Blocked -> bind m k s w = Blocked.
Proof. unfold bind. intros ->. reflexivity. Qed.

Lemma bind_this {A B} (f : GLDOPPCapture -> A) (k : A -> M B) s w :
  bind (this f) k s w = k (f s) s w.
Proof. reflexivity. Qed.

Lemma bind_ret {A B} (a : A) (k : A -> M B) s w :
  bind (ret a) k s w = k a s w.
Proof. reflexivity. Qed.

Lemma bind_assoc {A B C} (m : M A) (k : A -> M B) (h : B -> M C) s w :
  bind (bind m k) h s w = bind m (fun a => bind (k a) h) s w.
Proof. unfold bind. destruct (m s w); reflexivity. Qed.

Lemma bind_assign {B} upd (k : unit -> M B) s w :
  bind (assign upd) k s w = k tt (upd s) w.
Proof. reflexivity. Qed.

Lemma bind_env {A B} (f : Env -> A) (k : A -> M B) s w :
  bind (env f) k s w = k (f (w_env w)) s w.
Proof. reflexivity. Qed.

Lemma bind_emit {B} e (k : unit -> M B) s w :
  bind (emit e) k s w = k tt s (log e w).
Proof. reflexivity. Qed.

Lemma bind_gl {B} c (k : unit -> M B) s w :
  bind (gl c) k s w = k tt s (log (EvGL c) (gl_effect c w)).
Proof. reflexivity. Qed.

Lemma bind_through {B} p (k : unit -> M B) s w :
  bind (through p) k s w = if w_procs w p then k tt s w else Fault.
Proof. unfold bind, through. destruct (w_procs w p); reflexivity. Qed.

Lemma bind_shader {B} c (k : unit -> M B) s w :
  bind (shader c) k s w
  = match m_pShader s with
    | Some _ => k tt s (log (EvShader c) w)
    | None => Fault
    end.
Proof. unfold bind, shader. destruct (m_pShader s); reflexivity. Qed.

Lemma bind_shader_getProgram {B} (k : GLuint -> M B) s w :
  bind shader_getProgram k s w
  = match m_pShader s with
    | Some sh => k (shader_program sh) s w
    | None => Fault
    end.
Proof. unfold bind, shader_getProgram. destruct (m_pShader s); reflexivity. Qed.

Lemma bind_GET_PROC {B} p (k : bool -> M B) s w :
  bind (GET_PROC p) k s w
  = k (env_proc_avail (w_env w) p) s
      (set_w_procs (override (w_procs (log (EvGetProcAddress p) w)) p
                      (env_proc_avail (w_env w) p))
         (log (EvGetProcAddress p) w)).
Proof. reflexivity. Qed.

Lemma bind_glFramebufferComplete {B} (k : bool -> M B) s w :
  bind glFramebufferComplete k s w
  = k (env_fb_complete (w_env w) (w_bound_fbo w)) s
      (log (EvGL glCheckFramebufferStatus) w).
Proof. reflexivity. Qed.

Lemma bind_glGen {B} o n (k : list GLuint -> M B) s w :
  bind (glGen o n) k s w
  = k (fresh_names (w_names w o) n) s
      (log (EvGL (glGen_call o (fresh_names (w_names w o) n)))
         (gl_effect (glGen_call o (fresh_names (w_names w o) n)) w)).
Proof. reflexivity. Qed.

Lemma bind_array_read {B} arr i (k : GLuint -> M B) s w :
  bind (array_read arr i) k s w
  = match arr s with
    | Some l =>
        match l !! N.to_nat i with
        | Some v => k v s w
        | None => Fault
        end
    | None => Fault
    end.
Proof.
  unfold bind, array_read. destruct (arr s) as [l|]; [|reflexivity].
  destruct (l !! N.to_nat i); reflexivity.
Qed.

Create Rewrite HintDb run.

Lemma bind_world_update {B} f (k : unit -> M B) s w :
  bind (world_update f) k s w = k tt s (f w).
Proof. reflexivity. Qed.

Lemma bind_start_notification_thread {B} (k : unit -> M B) s w :
  bind start_notification_thread k s w
  = if m_NotificationThread s then Fault
    else k tt (set_m_NotificationThread true s)
           (log EvThreadStart (set_w_parked (Some (m_hDesktopEvent s)) w)).
Proof.
  unfold bind, start_notification_thread.
  destruct (m_NotificationThread s); reflexivity.
Qed.

#[global] Hint Rewrite @bind_assoc @bind_this @bind_ret @bind_assign @bind_env
  @bind_emit @bind_gl @bind_through @bind_shader @bind_shader_getProgram
  @bind_GET_PROC @bind_glFramebufferComplete @bind_glGen @bind_array_read
  @bind_start_notification_thread @bind_world_update : run.

(** Composite primitives are opened into the basic ones. *)
Ltac open_prims :=
  unfold RFReadWriteAccess, glGetTexLevelParameter, glGetViewport,
    linear_clamped, wglGetCurrentContext, wglDesktopTargetAMD,
    wglGetDesktopTextureAMD, wglEnablePostProcessAMD, SetEvent, Sleep,
    CloseHandle, CreateEvent, createDOPPEvent, deleteDOPPEvent,
    WaitForMultipleObjects, store_m_bTrackDesktopChanges,
    store_m_bDesktopChanged, first_targets.

(** Projections of the world after a logged call. *)
Ltac world_simpl :=
  cbn [w_env w_procs w_names w_bound_fbo w_dopp_state w_waits w_signaled
       w_parked w_trace
       log set_w_trace set_w_procs set_w_names set_w_bound_fbo
       set_w_dopp_state set_w_waits set_w_signaled set_w_parked set_w_env
       unsignal gl_effect glGen_call negb].

(** Projections of the session after an assignment. *)
Ltac session_simpl :=
  cbn [m_uiDesktopTexture m_uiDesktopId m_uiNumTargets m_uiDesktopWidth
       m_uiDesktopHeight m_uiPresentWidth m_uiPresentHeight m_pShader
       m_uiBaseMap m_uiVertexBuffer m_uiVertexArray m_pFBO m_pTexture
       m_bTrackDesktopChanges m_bBlocking m_hDesktopEvent m_bDesktopChanged
       m_NotificationThread
       set_m_uiDesktopTexture set_m_uiDesktopWidth set_m_uiDesktopHeight
       set_m_uiPresentWidth set_m_uiPresentHeight set_m_pShader
       set_m_uiBaseMap set_m_uiVertexBuffer set_m_uiVertexArray set_m_pFBO
       set_m_pTexture set_m_bTrackDesktopChanges set_m_bBlocking
       set_m_hDesktopEvent set_m_bDesktopChanged set_m_NotificationThread
       hDesktopEvent0 hDesktopEvent1 set_hDesktopEvent0 set_hDesktopEvent1
       fst snd].

Ltac session_simpl_in H :=
  cbn [m_uiDesktopTexture m_uiDesktopId m_uiNumTargets m_uiDesktopWidth
       m_uiDesktopHeight m_uiPresentWidth m_uiPresentHeight m_pShader
       m_uiBaseMap m_uiVertexBuffer m_uiVertexArray m_pFBO m_pTexture
       m_bTrackDesktopChanges m_bBlocking m_hDesktopEvent m_bDesktopChanged
       m_NotificationThread
       set_m_uiDesktopTexture set_m_uiDesktopWidth set_m_uiDesktopHeight
       set_m_uiPresentWidth set_m_uiPresentHeight set_m_pShader
       set_m_uiBaseMap set_m_uiVertexBuffer set_m_uiVertexArray set_m_pFBO
       set_m_pTexture set_m_bTrackDesktopChanges set_m_bBlocking
       set_m_hDesktopEvent set_m_bDesktopChanged set_m_NotificationThread
       hDesktopEvent0 hDesktopEvent1 set_hDesktopEvent0 set_hDesktopEvent1
       with_pool fst snd] in H.

Ltac world_simpl_in H :=
  cbn [w_env w_procs w_names w_bound_fbo w_dopp_state w_waits w_signaled
       w_parked w_trace
       log set_w_trace set_w_procs set_w_names set_w_bound_fbo
       set_w_dopp_state set_w_waits set_w_signaled set_w_parked set_w_env
       unsignal gl_effect glGen_call negb] in H.

Ltac run :=
  open_prims;
  repeat (progress (autorewrite with run; world_simpl; session_simpl;
                    cbn [non_null andb orb])).

(** Closes a case in which the code returned something else. *)
Ltac other_result := unfold ret; intros; discriminate.

Lemma override_eq {K A} `{EqDecision K} (f : K -> A) k v : override f k v k = v.
Proof. unfold override. now rewrite decide_True. Qed.

Lemma override_ne {K A} `{EqDecision K} (f : K -> A) k v k' :
  k' <> k -> override f k v k' = f k'.
Proof. intros Hne. unfold override. now rewrite decide_False. Qed.

Ltac unfold_prims :=
  unfold RFReadWriteAccess, glGetTexLevelParameter, glFramebufferComplete,
    glGetViewport, linear_clamped, wglGetCurrentContext, wglDesktopTargetAMD,
    wglGetDesktopTextureAMD, wglEnablePostProcessAMD, GET_PROC, SetEvent, Sleep,
    CloseHandle, CreateEvent, createDOPPEvent, deleteDOPPEvent,
    store_m_bTrackDesktopChanges,
    store_m_bDesktopChanged, through, shader, shader_getProgram, glGen, gl,
    world_update, emit, env, assign, this, array_read, bind, ret.

(** ** [processDesktop] *)

Lemma slot_of_lt s idx : 0 < m_uiNumTargets s -> slot_of s idx < m_uiNumTargets s.
Proof.
  unfold slot_of. intros Hn.
  destruct (N.leb_spec (m_uiNumTargets s) idx); lia.
Qed.

Lemma slot_of_out_of_range s idx : m_uiNumTargets s <= idx -> slot_of s idx = 0.
Proof.
  unfold slot_of. intros H. apply N.leb_le in H. now rewrite H.
Qed.

Lemma initialised_inv s w :
  initialised s w = true ->
  exists fbos sh,
    m_pFBO s = Some fbos /\ length fbos = N.to_nat (m_uiNumTargets s)
    /\ 0 < m_uiNumTargets s /\ m_pShader s = Some sh
    /\ w_procs w P_wglDesktopTargetAMD = true.
Proof.
  unfold initialised. intros H.
  apply andb_prop in H as [H Hp]. apply andb_prop in H as [H Hs].
  apply andb_prop in H as [Hf Hn].
  destruct (m_pFBO s) as [fbos|]; [|discriminate].
  destruct (m_pShader s) as [sh|]; [|discriminate].
  apply N.eqb_eq in Hf. apply N.ltb_lt in Hn.
  exists fbos, sh. repeat split; auto. lia.
Qed.

Lemma processDesktop_render_done s w idx :
  initialised s w = true -> idx < m_uiNumTargets s ->
  exists w', processDesktop_render idx s w = Done tt (set_m_bDesktopChanged false s) w'
             /\ composited s idx w w'.
Proof.
  intros (fbos & sh & Hfbo & Hlen & Hn & Esh & Hproc)%initialised_inv Hidx.
  destruct (lookup_lt_is_Some_2 fbos (N.to_nat idx)) as [fbo Hlk]; [lia|].
  unfold processDesktop_render. unfold_prims. cbn.
  destruct (env_viewport (w_env w)) as [[[x y] vw] vh] eqn:Evp.
  repeat (rewrite ?Hfbo, ?Hlk, ?Hproc, ?Esh, ?Evp; cbn).
  eexists. split; [reflexivity|].
  exists fbos, fbo. unfold emits, render_calls. rewrite Evp. cbn. auto 10.
Qed.

(** What a wait leaves alone. *)
Lemma wait_on_frame hs s w r s1 w1 :
  wait_on hs s w = Done r s1 w1 ->
  s1 = s /\ emits w w1 [EvWait (fst hs) (snd hs)]
  /\ w_env w1 = w_env w /\ w_procs w1 = w_procs w /\ w_names w1 = w_names w.
Proof.
  unfold wait_on.
  destruct (bool_decide (fst hs ∈ w_signaled w)).
  { intros H. inversion H; subst. repeat split. }
  destruct (bool_decide (snd hs ∈ w_signaled w)).
  { intros H. inversion H; subst. repeat split. }
  destruct (w_waits w) as [|r0 rest]; [discriminate|].
  intros H. inversion H; subst. repeat split.
Qed.

Lemma WaitForMultipleObjects_frame s w r s1 w1 :
  WaitForMultipleObjects s w = Done r s1 w1 ->
  s1 = s /\ emits w w1 [EvWait (hDesktopEvent0 s) (hDesktopEvent1 s)]
  /\ initialised s w1 = initialised s w.
Proof.
  intros H. change (wait_on (m_hDesktopEvent s) s w = Done r s1 w1) in H.
  apply wait_on_frame in H as (-> & He & _ & Hp & _).
  split; [reflexivity|]. split; [exact He|].
  unfold initialised. now rewrite Hp.
Qed.

Lemma WaitForMultipleObjects_no_fault s w :
  WaitForMultipleObjects s w <> Fault.
Proof.
  change (WaitForMultipleObjects s w) with (wait_on (m_hDesktopEvent s) s w).
  unfold wait_on.
  destruct (bool_decide _); [discriminate|].
  destruct (bool_decide _); [discriminate|].
  destruct (w_waits w); discriminate.
Qed.

(** [processDesktop], one case per tracking mode. *)
Lemma processDesktop_cases idx s w :
  processDesktop idx s w =
  let render := bind (processDesktop_render (slot_of s idx)) (fun _ => ret true) in
  if m_bTrackDesktopChanges s then
    if m_bBlocking s then
      match WaitForMultipleObjects s w with
      | Done r s1 w1 =>
          if (dword_sub r WAIT_OBJECT_0 =? 1)%Z then Done false s1 w1
          else render s1 w1
      | Fault => Fault
      | Blocked => Blocked
      end
    else if m_bDesktopChanged s then render s w else Done false s w
  else render s w.
Proof.
  unfold processDesktop, slot_of. rewrite !bind_this. cbv zeta.
  destruct (m_bTrackDesktopChanges s); [|reflexivity].
  rewrite bind_this. destruct (m_bBlocking s).
  - unfold bind at 1.
    destruct (WaitForMultipleObjects s w) as [r s1 w1| |]; try reflexivity.
    destruct (dword_sub r WAIT_OBJECT_0 =? 1)%Z; reflexivity.
  - rewrite bind_this. destruct (m_bDesktopChanged s); reflexivity.
Qed.

Lemma render_then_true s w idx :
  initialised s w = true ->
  exists w', bind (processDesktop_render (slot_of s idx)) (fun _ => ret true) s w
             = Done true (set_m_bDesktopChanged false s) w'
             /\ composited s (slot_of s idx) w w'.
Proof.
  intros Hi.
  destruct (processDesktop_render_done s w (slot_of s idx) Hi) as (w' & Hr & Hc).
  { apply slot_of_lt.
    destruct (initialised_inv s w Hi) as (? & ? & ? & ? & Hn & ?). exact Hn. }
  exists w'. split; [|exact Hc].
  erewrite bind_Done by exact Hr. reflexivity.
Qed.





(** C8.  A slot index at or beyond the target count is replaced by 0: the
    call is the call for slot 0, and on an initialised session it never
    dies and, whenever it composites, it binds and draws into the
    framebuffer of slot 0; with tracking off it always does. *)
Theorem processDesktop_clamps_index (s : GLDOPPCapture) (w : World) (idx : N) :
  m_uiNumTargets s <= idx ->
  processDesktop idx s w = processDesktop 0 s w
  /\ slot_of s idx = 0
  /\ (initialised s w = true ->
      processDesktop idx s w <> Fault
      /\ (forall s' w',
             processDesktop idx s w = Done true s' w' ->
             exists w0, composited s 0 w0 w')
      /\ (m_bTrackDesktopChanges s = false ->
          exists w',
            processDesktop idx s w = Done true (set_m_bDesktopChanged false s) w'
            /\ composited s 0 w w')).
Proof.
  intros Hout.
  assert (Hslot : slot_of s idx = 0) by now apply slot_of_out_of_range.
  assert (Hslot0 : slot_of s 0 = 0).
  { unfold slot_of. now destruct (m_uiNumTargets s <=? 0). }
  split; [|split; [exact Hslot|]].
  - rewrite !processDesktop_cases, Hslot, Hslot0. reflexivity.
  - intros Hi. rewrite processDesktop_cases, Hslot. cbv zeta.
    destruct (render_then_true s w idx Hi) as (w' & Hr & Hc).
    rewrite Hslot in Hr, Hc.
    destruct (m_bTrackDesktopChanges s).
    + split; [|split; [|discriminate]].
      * destruct (m_bBlocking s).
        -- pose proof (WaitForMultipleObjects_no_fault s w) as Hnf.
           destruct (WaitForMultipleObjects s w) as [r s1 w1| |] eqn:Hw;
             [|now destruct Hnf|discriminate].
           destruct (dword_sub r WAIT_OBJECT_0 =? 1)%Z; [discriminate|].
           destruct (WaitForMultipleObjects_frame _ _ _ _ _ Hw) as (-> & _ & Hi1).
           destruct (render_then_true s w1 idx) as (w2 & Hr2 & _).
           { rewrite Hi1. exact Hi. }
           rewrite Hslot in Hr2. congruence.
        -- destruct (m_bDesktopChanged s); [congruence|discriminate].
      * intros s' w2 Hdone. destruct (m_bBlocking s).
        -- destruct (WaitForMultipleObjects s w) as [r s1 w1| |] eqn:Hw;
             [|discriminate..].
           destruct (dword_sub r WAIT_OBJECT_0 =? 1)%Z; [discriminate|].
           destruct (WaitForMultipleObjects_frame _ _ _ _ _ Hw) as (-> & _ & Hi1).
           destruct (render_then_true s w1 idx) as (w3 & Hr3 & Hc3).
           { rewrite Hi1. exact Hi. }
           rewrite Hslot in Hr3, Hc3. rewrite Hr3 in Hdone.
           inversion Hdone; subst. exists w1. exact Hc3.
        -- destruct (m_bDesktopChanged s); [|discriminate].
           rewrite Hr in Hdone. inversion Hdone; subst. exists w. exact Hc.
    + split; [congruence|]. split.
      * intros s' w2 Hdone. rewrite Hr in Hdone. inversion Hdone; subst.
        exists w. exact Hc.
      * intros _. exists w'. auto.
Qed.

Lemma processDesktop_clamps_index_witness :
  let o := start good_env [] 3 640 480 false false in
  let s := started_session o 3 in
  let w := started_world o in
  (m_uiNumTargets s <= 7)
  /\ processDesktop 7 s w = processDesktop 0 s w
  /\ exists w',
       processDesktop 7 s w = Done true (set_m_bDesktopChanged false s) w'
       /\ composited s 0 w w'.
Proof.
  cbv zeta.
  assert (H : m_uiNumTargets
                (started_session (start good_env [] 3 640 480 false false) 3) <= 7).
  { vm_compute. discriminate. }
  destruct (processDesktop_clamps_index
              (started_session (start good_env [] 3 640 480 false false) 3)
              (started_world (start good_env [] 3 640 480 false false)) 7 H)
    as (Heq & _ & Hinit).
  split; [exact H|]. split; [exact Heq|].
  destruct Hinit as (_ & _ & Hoff); [vm_compute; reflexivity|].
  apply Hoff. vm_compute. reflexivity.
Defined.

(** ** [resizeDesktopTexture] *)

(** C10.  A session for desktop id 0 gets [RF_STATUS_INVALID_DESKTOP_ID]
    from [resizeDesktopTexture] with session and world untouched (no lock,
    no GL, no driver call), although such a session can be initialised and
    can composite. *)
Theorem resizeDesktopTexture_desktop_zero (s : GLDOPPCapture) (w : World) :
  m_uiDesktopId s = 0 ->
  resizeDesktopTexture s w = Done RF_STATUS_INVALID_DESKTOP_ID s w
  /\ (let o := start good_env [] 0 640 480 false false in
      result_of o = Some RF_STATUS_OK
      /\ m_uiDesktopId (started_session o 0) = 0
      /\ result_of (processDesktop 0 (started_session o 0) (started_world o))
         = Some true).
Proof.
  intros Hid. split.
  - unfold resizeDesktopTexture. rewrite bind_this, Hid. reflexivity.
  - vm_compute. auto.
Qed.

Lemma resizeDesktopTexture_desktop_zero_witness :
  let s := started_session (start good_env [] 0 640 480 false false) 0 in
  let w := started_world (start good_env [] 0 640 480 false false) in
  m_uiDesktopId s = 0
  /\ resizeDesktopTexture s w = Done RF_STATUS_INVALID_DESKTOP_ID s w.
Proof.
  cbv zeta. split; [reflexivity|].
  apply (resizeDesktopTexture_desktop_zero
           (started_session (start good_env [] 0 640 480 false false) 0)
           (started_world (start good_env [] 0 640 480 false false))).
  reflexivity.
Defined.

(** The failure at the [wglDesktopTargetAMD] check: the session object is
    what it was, but the old desktop texture has been deleted by then. *)
Lemma resizeDesktopTexture_unselectable s w :
  0 < m_uiDesktopId s ->
  w_procs w P_wglDesktopTargetAMD = true ->
  env_desktop_target (w_env w) (m_uiDesktopId s) = false ->
  exists w',
    resizeDesktopTexture s w = Done RF_STATUS_INVALID_DESKTOP_ID s w'
    /\ emits w w'
         ([EvLock]
          ++ (if nonzero (m_uiDesktopTexture s)
              then [EvGL (glDeleteTextures [m_uiDesktopTexture s])] else [])
          ++ [EvDesktopTarget (m_uiDesktopId s); EvUnlock]).
Proof.
  intros Hid Hproc Hsel. apply N.ltb_lt in Hid.
  unfold resizeDesktopTexture. rewrite bind_this, Hid.
  unfold_prims. cbn.
  destruct (nonzero (m_uiDesktopTexture s)); cbn; rewrite Hproc; cbn;
    rewrite Hsel; cbn; eexists; (split; [reflexivity|]); reflexivity.
Qed.

(** C3.  When the desktop id can no longer be selected,
    [resizeDesktopTexture] returns [RF_STATUS_INVALID_DESKTOP_ID] and the
    session object is unchanged: same capture-texture handle, same desktop
    width and height. *)
Theorem resizeDesktopTexture_failure_keeps_session (s : GLDOPPCapture) (w : World) :
  0 < m_uiDesktopId s ->
  w_procs w P_wglDesktopTargetAMD = true ->
  env_desktop_target (w_env w) (m_uiDesktopId s) = false ->
  exists s' w',
    resizeDesktopTexture s w = Done RF_STATUS_INVALID_DESKTOP_ID s' w'
    /\ m_uiDesktopTexture s' = m_uiDesktopTexture s
    /\ m_uiDesktopWidth s' = m_uiDesktopWidth s
    /\ m_uiDesktopHeight s' = m_uiDesktopHeight s
    /\ s' = s.
Proof.
  intros Hid Hproc Hsel.
  destruct (resizeDesktopTexture_unselectable s w Hid Hproc Hsel) as (w' & Hr & _).
  exists s, w'. auto.
Qed.

Lemma resizeDesktopTexture_failure_keeps_session_witness :
  let o := start good_env [] 3 640 480 false false in
  exists s' w',
    resizeDesktopTexture (started_session o 3)
      (set_w_env unplugged_env (started_world o))
    = Done RF_STATUS_INVALID_DESKTOP_ID s' w'
    /\ m_uiDesktopTexture s' = m_uiDesktopTexture (started_session o 3)
    /\ m_uiDesktopWidth s' = m_uiDesktopWidth (started_session o 3)
    /\ m_uiDesktopHeight s' = m_uiDesktopHeight (started_session o 3)
    /\ s' = started_session o 3.
Proof.
  cbv zeta.
  apply (resizeDesktopTexture_failure_keeps_session
           (started_session (start good_env [] 3 640 480 false false) 3)
           (set_w_env unplugged_env
              (started_world (start good_env [] 3 640 480 false false)))).
  - vm_compute. reflexivity.
  - vm_compute. reflexivity.
  - vm_compute. reflexivity.
Defined.

(** ** [initDOPP]: the two checks at the top *)

Lemma initDOPP_early_return pw ph rot track blocking s w :
  env_glrc (w_env w) = false \/ pw = 0 \/ ph = 0 ->
  initDOPP pw ph rot track blocking s w
  = Done (if env_glrc (w_env w) then RF_STATUS_INVALID_DIMENSION
          else RF_STATUS_OPENGL_FAIL)
      s (log EvUnlock (log EvGetCurrentContext (log EvLock w))).
Proof.
  intros H. unfold initDOPP. run.
  destruct (env_glrc (w_env w)); world_simpl; [|reflexivity].
  destruct H as [H | [-> | ->]]; [discriminate | reflexivity |].
  rewrite orb_true_r. reflexivity.
Qed.

(** C4, as the code has it.  With a current GL context, [initDOPP] with a
    zero present width or height returns [RF_STATUS_INVALID_DIMENSION];
    the context check comes first, so without a context the same call
    returns [RF_STATUS_OPENGL_FAIL].  Either way no member of the session
    is modified, and only the lock and the context query were touched. *)
Theorem initDOPP_zero_dimension (pw ph : N) (rot : float) (track blocking : bool)
    (s : GLDOPPCapture) (w : World) :
  pw = 0 \/ ph = 0 ->
  exists w',
    initDOPP pw ph rot track blocking s w
    = Done (if env_glrc (w_env w) then RF_STATUS_INVALID_DIMENSION
            else RF_STATUS_OPENGL_FAIL) s w'
    /\ emits w w' [EvLock; EvGetCurrentContext; EvUnlock].
Proof.
  intros H. eexists. split.
  - apply initDOPP_early_return. auto.
  - reflexivity.
Qed.

Lemma initDOPP_zero_dimension_witness :
  exists w',
    initDOPP 0 480 0 true false (GLDOPPCapture_members 1) (boot good_env [])
    = Done RF_STATUS_INVALID_DIMENSION (GLDOPPCapture_members 1) w'
    /\ emits (boot good_env []) w' [EvLock; EvGetCurrentContext; EvUnlock].
Proof.
  apply (initDOPP_zero_dimension 0 480 0 true false
           (GLDOPPCapture_members 1) (boot good_env [])).
  left. reflexivity.
Defined.

(** C4 as stated fails: with no current GL context a zero width gives the
    OpenGL failure status, not the invalid-dimension status. *)
Lemma initDOPP_zero_width_without_context :
  result_of (initDOPP 0 480 0 false false (GLDOPPCapture_members 1)
               (boot no_context_env []))
  = Some RF_STATUS_OPENGL_FAIL
  /\ result_of (initDOPP 0 480 0 false false (GLDOPPCapture_members 1)
                  (boot no_context_env []))
     <> Some RF_STATUS_INVALID_DIMENSION.
Proof. split; [reflexivity | discriminate]. Qed.

(** ** GL names *)

Lemma length_fresh_names live n : length (fresh_names live n) = N.to_nat n.
Proof. unfold fresh_names. now rewrite length_fmap, length_seq. Qed.

Lemma lookup_fresh_names live n (i : nat) :
  (i < N.to_nat n)%nat ->
  fresh_names live n !! i = Some (max_name live + 1 + N.of_nat i).
Proof.
  intros Hi. unfold fresh_names.
  rewrite list_lookup_fmap, lookup_seq_lt by exact Hi. reflexivity.
Qed.

Lemma fresh_names_inv live n x :
  x ∈ fresh_names live n ->
  exists i : nat, (i < N.to_nat n)%nat /\ x = max_name live + 1 + N.of_nat i.
Proof.
  unfold fresh_names. intros (k & -> & Hk)%list_elem_of_fmap.
  apply elem_of_seq in Hk. exists k. split; [lia | reflexivity].
Qed.

Lemma max_name_ge live x : x ∈ live -> x <= max_name live.
Proof.
  induction live as [|y l IH]; intros Hx.
  - inversion Hx.
  - change (max_name (y :: l)) with (N.max y (max_name l)).
    apply elem_of_cons in Hx as [-> | Hx]; [lia|].
    specialize (IH Hx). lia.
Qed.

(** The names [glGen*] returns are non-zero, pairwise distinct and unused. *)
Lemma fresh_names_nonzero live n x : x ∈ fresh_names live n -> x <> 0.
Proof. intros (i & _ & ->)%fresh_names_inv. lia. Qed.

Lemma fresh_names_unused live n x : x ∈ fresh_names live n -> x ∉ live.
Proof.
  intros (i & _ & ->)%fresh_names_inv Hin. apply max_name_ge in Hin. lia.
Qed.

Lemma fresh_names_NoDup live n : NoDup (fresh_names live n).
Proof.
  unfold fresh_names. apply NoDup_fmap_2; [|apply NoDup_seq].
  intros a b H. lia.
Qed.

Lemma gl_frame_refl w : gl_frame w w.
Proof. repeat split. Qed.

(** ** [createRenderTargets] *)

Lemma emits_app w w1 w' evs1 evs2 :
  emits w w1 evs1 -> emits w1 w' evs2 -> emits w w' (evs1 ++ evs2).
Proof.
  unfold emits. intros H1 H2. rewrite H2, H1, rev_app_distr, app_assoc.
  reflexivity.
Qed.

Lemma emits_nil w : emits w w [].
Proof. reflexivity. Qed.

Lemma createRenderTargets_loop_spec s texs fbos :
  m_pTexture s = Some texs -> m_pFBO s = Some fbos ->
  length texs = length fbos ->
  forall (m k : nat) (acc : bool) (w : World),
    (k + m = length fbos)%nat ->
    exists w',
      createRenderTargets_loop (seq k m) acc s w
      = Done (acc && forallb (env_fb_complete (w_env w)) (drop k fbos)) s w'
      /\ emits w w'
           (concat (zip_with (target_calls s) (drop k fbos) (drop k texs)))
      /\ gl_frame w w'.
Proof.
  intros Htex Hfbo Hlen. induction m as [|m IH]; intros k acc w Hk.
  - exists w. split; [|split; [|apply gl_frame_refl]].
    + rewrite drop_ge by lia. cbn. now rewrite andb_true_r.
    + rewrite drop_ge by lia. apply emits_nil.
  - destruct (lookup_lt_is_Some_2 texs k) as [tex Htexk]; [lia|].
    destruct (lookup_lt_is_Some_2 fbos k) as [fbo Hfbok]; [lia|].
    cbn [seq createRenderTargets_loop]. run.
    repeat (rewrite ?Htex, ?Hfbo, ?Nat2N.id, ?Htexk, ?Hfbok; run).
    match goal with
    | |- context [createRenderTargets_loop _ ?a s ?w1] =>
        destruct (IH (S k) a w1) as (w' & Hrun & Hemit & Hframe); [lia|]
    end.
    exists w'. split; [|split].
    + rewrite Hrun. world_simpl. rewrite (drop_S fbos fbo k Hfbok). cbn [forallb].
      destruct acc, (env_fb_complete (w_env w) fbo); reflexivity.
    + rewrite (drop_S fbos fbo k Hfbok), (drop_S texs tex k Htexk).
      cbn [zip_with concat].
      refine (emits_app _ _ _ _ _ _ Hemit). reflexivity.
    + destruct Hframe as (He & Hp & Hn & Hw & Hd & Hs & Hk'). repeat split; assumption.
Qed.

Lemma createRenderTargets_existing s w :
  m_pFBO s <> None \/ m_pTexture s <> None ->
  createRenderTargets s w = Done false s w.
Proof.
  intros H. unfold createRenderTargets. run.
  destruct (m_pFBO s), (m_pTexture s); try reflexivity.
  destruct H; congruence.
Qed.

Lemma createRenderTargets_build s w :
  m_pFBO s = None -> m_pTexture s = None ->
  let n := m_uiNumTargets s in
  let fbos := fresh_names (w_names w Framebuffer) n in
  let texs := fresh_names (w_names w Texture) n in
  exists w',
    createRenderTargets s w
    = Done (forallb (env_fb_complete (w_env w)) fbos) (with_pool fbos texs s) w'
    /\ w_env w' = w_env w /\ w_procs w' = w_procs w
    /\ w_waits w' = w_waits w /\ w_dopp_state w' = w_dopp_state w
    /\ w_names w' Texture = texs ++ w_names w Texture
    /\ w_names w' Framebuffer = fbos ++ w_names w Framebuffer
    /\ w_names w' Buffer = w_names w Buffer
    /\ w_names w' VertexArray = w_names w VertexArray
    /\ w_signaled w' = w_signaled w /\ w_parked w' = w_parked w
    /\ emits w w' (build_calls s fbos texs)
    /\ w_bound_fbo w' = 0.
Proof.
  intros Hf Ht n fbos texs.
  unfold createRenderTargets. run. rewrite Hf, Ht. cbn [non_null orb]. run.
  fold n. rewrite !(override_ne _ Framebuffer _ Texture) by discriminate.
  fold fbos. fold texs.
  match goal with
  | |- context [bind _ _ ?s1 ?w1] =>
      destruct (createRenderTargets_loop_spec s1 texs fbos eq_refl eq_refl)
        with (m := N.to_nat n) (k := 0%nat) (acc := true) (w := w1)
        as (w2 & Hrun & Hemit & He & Hp & Hn & Hw & Hd & Hs & Hk)
  end.
  { unfold texs, fbos. now rewrite !length_fresh_names. }
  { unfold fbos. now rewrite length_fresh_names. }
  erewrite bind_Done by exact Hrun. run. rewrite drop_0.
  rewrite !drop_0 in Hemit.
  eexists. split.
  - reflexivity.
  - world_simpl. rewrite He, Hp, Hn, Hw, Hd, Hs, Hk. world_simpl.
    rewrite override_eq, !override_ne, override_eq by discriminate.
    repeat (split; [reflexivity|]). split; [|reflexivity].
    unfold build_calls.
    refine (emits_app _ _ _ _ _ _ (emits_app _ _ _ _ _ Hemit _)).
    + reflexivity.
    + reflexivity.
Qed.

(** A successful build found the pool empty. *)
Lemma createRenderTargets_true_inv s w s' w' :
  createRenderTargets s w = Done true s' w' ->
  m_pFBO s = None /\ m_pTexture s = None.
Proof.
  intros H.
  destruct (m_pFBO s) eqn:Ef.
  { rewrite createRenderTargets_existing in H by (left; congruence). discriminate. }
  destruct (m_pTexture s) eqn:Et.
  { rewrite createRenderTargets_existing in H by (right; congruence). discriminate. }
  auto.
Qed.

Lemma with_pool_allocated fbos texs s :
  length fbos = N.to_nat (m_uiNumTargets s) ->
  length texs = N.to_nat (m_uiNumTargets s) ->
  pool_allocated (with_pool fbos texs s).
Proof. intros Hf Ht. exists fbos, texs. repeat split; assumption. Qed.

(** A texture name stored in the pool is what [getFramebufferTex] returns
    for its slot. *)
Lemma getFramebufferTex_stored idx tex texs s w :
  m_pTexture s = Some texs ->
  length texs = N.to_nat (m_uiNumTargets s) ->
  texs !! N.to_nat idx = Some tex ->
  getFramebufferTex idx s w = Done tex s w.
Proof.
  intros Ht Hlen Hlk.
  assert (Hidx : idx < m_uiNumTargets s).
  { apply lookup_lt_Some in Hlk. lia. }
  unfold getFramebufferTex. rewrite !bind_this, Ht.
  replace (0 <? m_uiNumTargets s) with true by (symmetry; apply N.ltb_lt; lia).
  replace (idx <? m_uiNumTargets s) with true by (symmetry; now apply N.ltb_lt).
  cbn [andb non_null]. unfold array_read. rewrite Ht, Hlk. reflexivity.
Qed.

(** ** [resizePresentTexture] *)

(** [w1] is the world after the teardown at the head of
    [resizePresentTexture]: the names of the old pool are no longer
    live. *)
Lemma resizePresentTexture_spec pw ph s w :
  exists w1 w',
    let s1 := set_m_uiPresentHeight ph (set_m_uiPresentWidth pw s) in
    let fbos := fresh_names (w_names w1 Framebuffer) (m_uiNumTargets s) in
    let texs := fresh_names (w_names w1 Texture) (m_uiNumTargets s) in
    resizePresentTexture pw ph s w
    = Done (if forallb (env_fb_complete (w_env w)) fbos
            then RF_STATUS_OK else RF_STATUS_OPENGL_FAIL)
        (with_pool fbos texs s1) w'
    /\ emits w w1 (release_calls s)
    /\ w_names w1 Texture
       = (if non_null (m_pTexture s)
          then remove_names (pool_names m_pTexture s) (w_names w Texture)
          else w_names w Texture)
    /\ w_names w1 Framebuffer
       = (if non_null (m_pFBO s)
          then remove_names (pool_names m_pFBO s) (w_names w Framebuffer)
          else w_names w Framebuffer)
    /\ emits w1 w' (build_calls s1 fbos texs)
    /\ w_names w' Texture = texs ++ w_names w1 Texture
    /\ w_names w' Framebuffer = fbos ++ w_names w1 Framebuffer
    /\ w_env w' = w_env w.
Proof.
  unfold resizePresentTexture, release_calls, pool_names. run.
  destruct (m_pTexture s) as [texs0|] eqn:Et; run; session_simpl;
    (destruct (m_pFBO s) as [fbos0|] eqn:Ef; run; session_simpl);
    match goal with
    | |- context [bind createRenderTargets _ ?s1 ?w1] =>
        assert (Hf1 : m_pFBO s1 = None)
          by (session_simpl; first [reflexivity | assumption]);
        assert (Ht1 : m_pTexture s1 = None)
          by (session_simpl; first [reflexivity | assumption]);
        destruct (createRenderTargets_build s1 w1 Hf1 Ht1)
          as (w' & Hrun & He & _ & _ & _ & Hnt & Hnf & _ & _ & _ & _ & Hemit & _);
        cbv zeta in Hrun, Hnt, Hnf, Hemit; session_simpl_in Hrun;
        session_simpl_in Hnt; session_simpl_in Hnf; session_simpl_in Hemit;
        world_simpl_in He;
        erewrite bind_Done by exact Hrun;
        exists w1, w'
    end;
    cbv zeta; world_simpl; session_simpl;
    rewrite ?override_eq, ?(override_ne _ Texture _ Framebuffer),
      ?(override_ne _ Framebuffer _ Texture), ?override_eq by discriminate;
    world_simpl_in Hrun; world_simpl_in Hnt; world_simpl_in Hnf;
    world_simpl_in Hemit;
    rewrite ?override_eq, ?(override_ne _ Texture _ Framebuffer),
      ?(override_ne _ Framebuffer _ Texture), ?override_eq in Hrun, Hnt, Hnf, Hemit
      by discriminate;
    (split; [match goal with
             | |- context [forallb ?f ?l] => destruct (forallb f l)
             end; reflexivity|]);
    (split; [reflexivity|]); (split; [reflexivity|]); (split; [reflexivity|]);
    (split; [exact Hemit|]); (split; [exact Hnt|]); (split; [exact Hnf|]);
    exact He.
Qed.

(** C2, as the code has it.  On a pool that is empty or allocated,
    [createRenderTargets] returns [false] and changes nothing when the
    pool exists; on an empty pool it generates one framebuffer name and
    one texture name per target, stores them in the two arrays, sets up
    and checks every target in turn and returns whether every framebuffer
    validated.  It leaves the arrays allocated also when one did not:
    nothing is released, the generated names stay live and
    [getFramebufferTex] still returns them.  [resizePresentTexture] first
    deletes the names of an existing pool, stores the new size and
    rebuilds at that size, so it always ends with both arrays allocated,
    with [RF_STATUS_OK] exactly when every framebuffer validated.  After
    either call the pool is never half built: the two arrays are both
    allocated with one entry per target. *)
Theorem render_target_pool_shape (s : GLDOPPCapture) (w : World) :
  pool_shape s ->
  (exists b s' w',
      createRenderTargets s w = Done b s' w'
      /\ pool_allocated s'
      /\ (pool_allocated s -> b = false /\ s' = s /\ w' = w)
      /\ (pool_empty s ->
          let fbos := fresh_names (w_names w Framebuffer) (m_uiNumTargets s) in
          let texs := fresh_names (w_names w Texture) (m_uiNumTargets s) in
          b = pool_complete (w_env w) s'
          /\ s' = with_pool fbos texs s
          /\ emits w w' (build_calls s fbos texs)
          /\ w_names w' Framebuffer = fbos ++ w_names w Framebuffer
          /\ w_names w' Texture = texs ++ w_names w Texture
          /\ (forall idx tex,
                 texs !! N.to_nat idx = Some tex ->
                 getFramebufferTex idx s' w' = Done tex s' w')))
  /\ (forall pw ph, exists st s' w1 w',
         let fbos := fresh_names (w_names w1 Framebuffer) (m_uiNumTargets s) in
         let texs := fresh_names (w_names w1 Texture) (m_uiNumTargets s) in
         resizePresentTexture pw ph s w = Done st s' w'
         /\ pool_allocated s'
         /\ st = (if pool_complete (w_env w) s'
                  then RF_STATUS_OK else RF_STATUS_OPENGL_FAIL)
         /\ emits w w1 (release_calls s)
         /\ w_names w1 Texture
            = (if non_null (m_pTexture s)
               then remove_names (pool_names m_pTexture s) (w_names w Texture)
               else w_names w Texture)
         /\ w_names w1 Framebuffer
            = (if non_null (m_pFBO s)
               then remove_names (pool_names m_pFBO s) (w_names w Framebuffer)
               else w_names w Framebuffer)
         /\ s' = with_pool fbos texs
                   (set_m_uiPresentHeight ph (set_m_uiPresentWidth pw s))
         /\ emits w1 w' (build_calls s' fbos texs)
         /\ w_names w' Framebuffer = fbos ++ w_names w1 Framebuffer
         /\ w_names w' Texture = texs ++ w_names w1 Texture).
Proof.
  intros Hshape. split.
  - destruct Hshape as [[Hf Ht] | Halloc].
    + destruct (createRenderTargets_build s w Hf Ht)
        as (w' & Hrun & _ & _ & _ & _ & Hnt & Hnf & _ & _ & _ & _ & Hemit & _).
      cbv zeta in Hrun, Hnt, Hnf, Hemit. eexists _, _, w'. split; [exact Hrun|].
      split; [|split].
      * apply with_pool_allocated; now rewrite length_fresh_names.
      * intros (fbos & texs & Hf' & _). congruence.
      * intros _. cbv zeta.
        split; [reflexivity|]. split; [reflexivity|]. split; [exact Hemit|].
        split; [exact Hnf|]. split; [exact Hnt|].
        intros idx tex Hlk.
        apply getFramebufferTex_stored
          with (texs := fresh_names (w_names w Texture) (m_uiNumTargets s));
          [reflexivity | apply length_fresh_names | exact Hlk].
    + exists false, s, w. split; [|split; [exact Halloc|split]].
      * apply createRenderTargets_existing.
        destruct Halloc as (fbos & texs & Hf & _). left. congruence.
      * auto.
      * intros [Hf _]. destruct Halloc as (fbos & texs & Hf' & _). congruence.
  - intros pw ph.
    destruct (resizePresentTexture_spec pw ph s w)
      as (w1 & w' & Hrun & Hrel & Hnt1 & Hnf1 & Hemit & Hnt & Hnf & _).
    cbv zeta in Hrun, Hemit, Hnt, Hnf.
    eexists _, _, w1, w'. cbv zeta. split; [exact Hrun|].
    split; [apply with_pool_allocated; apply length_fresh_names|].
    split; [reflexivity|]. split; [exact Hrel|].
    split; [exact Hnt1|]. split; [exact Hnf1|]. split; [reflexivity|].
    split; [exact Hemit|]. split; [exact Hnf|exact Hnt].
Qed.

Lemma render_target_pool_shape_witness :
  exists b s' w',
    createRenderTargets (GLDOPPCapture_members 1) (boot good_env []) = Done b s' w'
    /\ pool_allocated s'
    /\ b = true
    /\ s' = with_pool [1; 2] [1; 2] (GLDOPPCapture_members 1)
    /\ emits (boot good_env []) w'
         (build_calls (GLDOPPCapture_members 1) [1; 2] [1; 2])
    /\ getFramebufferTex 1 s' w' = Done 2 s' w'.
Proof.
  destruct (render_target_pool_shape (GLDOPPCapture_members 1) (boot good_env []))
    as [(b & s' & w' & Hrun & Halloc & _ & Hbuild) _].
  { left. split; reflexivity. }
  destruct Hbuild as (Hb & Hs & Hemit & _ & _ & Hget).
  { split; reflexivity. }
  exists b, s', w'. split; [exact Hrun|]. split; [exact Halloc|].
  split; [rewrite Hb, Hs; reflexivity|]. split; [exact Hs|].
  split; [exact Hemit|]. apply Hget. reflexivity.
Defined.

(** C2 as stated fails: when a framebuffer does not validate,
    [createRenderTargets] returns [false] but both arrays stay allocated,
    and [getFramebufferTex] goes on handing out the texture of slot 0. *)
Lemma createRenderTargets_failure_keeps_arrays :
  let o := createRenderTargets (GLDOPPCapture_members 1) (boot incomplete_env []) in
  result_of o = Some false
  /\ option_map m_pFBO (session_of o) = Some (Some [1; 2])
  /\ option_map m_pTexture (session_of o) = Some (Some [1; 2])
  /\ match o with
     | Done _ s w => result_of (getFramebufferTex 0 s w)
     | _ => None
     end = Some 1.
Proof. vm_compute. repeat split. Qed.

(** C6 fails on the code: [resizePresentTexture] stores whatever it is
    given.  After a successful 640x480 initialisation a resize to 0x0
    leaves present width and height at zero (here the rebuilt framebuffers
    do not validate and the call reports [RF_STATUS_OPENGL_FAIL]). *)
Lemma resizePresentTexture_zero_breaks_invariant :
  let o := start good_env [] 3 640 480 false false in
  let r := resizePresentTexture 0 0 (started_session o 3)
             (set_w_env incomplete_env (started_world o)) in
  result_of o = Some RF_STATUS_OK
  /\ m_uiPresentWidth (started_session o 3) = 640
  /\ m_uiPresentHeight (started_session o 3) = 480
  /\ result_of r = Some RF_STATUS_OPENGL_FAIL
  /\ option_map m_uiPresentWidth (session_of r) = Some 0
  /\ option_map m_uiPresentHeight (session_of r) = Some 0.
Proof. vm_compute. repeat split. Qed.

(** The same for every argument and every driver answer: the call returns
    and the present size is the requested one, zero included. *)
Lemma resizePresentTexture_stores_dimensions pw ph s w :
  exists st s' w',
    resizePresentTexture pw ph s w = Done st s' w'
    /\ m_uiPresentWidth s' = pw /\ m_uiPresentHeight s' = ph.
Proof.
  destruct (resizePresentTexture_spec pw ph s w) as (w1 & w' & Hrun & _).
  cbv zeta in Hrun.
  eexists _, _, w'. split; [exact Hrun|]. split; reflexivity.
Qed.

(** ** The stages of [initDOPP] *)

Lemma setupDOPPExtension_true s w s' w' :
  setupDOPPExtension s w = Done true s' w' ->
  s' = s /\ (forall p, w_procs w' p = true)
  /\ w_env w' = w_env w /\ w_names w' = w_names w
  /\ w_waits w' = w_waits w /\ w_dopp_state w' = w_dopp_state w
  /\ w_signaled w' = w_signaled w /\ w_parked w' = w_parked w.
Proof.
  unfold setupDOPPExtension. run.
  destruct (env_proc_avail (w_env w) P_wglGetDesktopTextureAMD) eqn:E1; run;
    [|other_result].
  destruct (env_proc_avail (w_env w) P_wglEnablePostProcessAMD) eqn:E2; run;
    [|other_result].
  destruct (env_proc_avail (w_env w) P_wglPresentTextureToVideoAMD) eqn:E3; run;
    [|other_result].
  destruct (env_proc_avail (w_env w) P_wglDesktopTargetAMD) eqn:E4; run;
    [|other_result].
  destruct (env_proc_avail (w_env w) P_wglGenPresentTextureAMD) eqn:E5; run;
    [|other_result].
  unfold ret. intros H. inversion H; subst; clear H. world_simpl.
  repeat split.
  intros p. destruct p;
    repeat first [rewrite override_eq | rewrite override_ne by discriminate];
    reflexivity.
Qed.

Lemma initEffect_true s w s' w' :
  initEffect s w = Done true s' w' ->
  (exists sh bm, s' = set_m_uiBaseMap bm (set_m_pShader (Some sh) s))
  /\ gl_frame w w'.
Proof.
  unfold initEffect. run.
  destruct (m_pShader s) as [old|] eqn:Esh; run; rewrite ?Esh;
    (destruct (env_shader_new (w_env w)); run; [|other_result]);
    (destruct (env_shader_vs (w_env w)); run; [|other_result]);
    (destruct (env_shader_fs (w_env w)); run; [|other_result]);
    (destruct (env_shader_link (w_env w)); run; [|other_result]);
    unfold ret; intros H; inversion H; subst; clear H;
    (split; [eexists _, _; reflexivity | repeat split]).
Qed.

Lemma createQuad_spec rot s w :
  exists va vb w',
    createQuad rot s w
    = Done tt (set_m_uiVertexBuffer vb (set_m_uiVertexArray va s)) w'
    /\ w_env w' = w_env w /\ w_procs w' = w_procs w /\ w_waits w' = w_waits w
    /\ w_names w' Texture = w_names w Texture
    /\ w_names w' Framebuffer = w_names w Framebuffer
    /\ w_signaled w' = w_signaled w /\ w_parked w' = w_parked w.
Proof.
  unfold createQuad. run. eexists _, _, _. split; [reflexivity|].
  world_simpl. rewrite !override_ne by discriminate. repeat split.
Qed.

Lemma initDOPP_tracking_spec track blocking s w :
  let h0 := env_create_dopp_event (w_env w) in
  let h1 := env_create_event (w_env w) in
  if m_NotificationThread s && (tracking_resolved track blocking h0 && negb blocking)
  then initDOPP_tracking track blocking s w = Fault
  else exists w',
      initDOPP_tracking track blocking s w
      = Done RF_STATUS_OK (tracking_session track blocking h0 h1 s) w'
      /\ w_env w' = w_env w /\ w_procs w' = w_procs w /\ w_names w' = w_names w
      /\ w_waits w' = w_waits w /\ w_dopp_state w' = w_dopp_state w
      /\ w_parked w'
         = (if tracking_resolved track blocking h0 && negb blocking
            then Some (h0, h1) else w_parked w).
Proof.
  cbv zeta. unfold initDOPP_tracking, tracking_session, tracking_resolved.
  destruct s as [dt id nt dw dh pw ph sh bm vb va fbo tex tr bl [e0 e1] ch th].
  run.
  destruct (nonzero (env_create_dopp_event (w_env w))) eqn:Eh;
    destruct track, blocking, th; cbn [andb orb negb]; run; rewrite ?Eh;
    cbn [andb orb negb]; run;
    try reflexivity;
    (eexists; split; [reflexivity | repeat split]).
Qed.

(** Runs the call at the head of a computation that is known to return. *)
Ltac step_call H :=
  match goal with
  | |- bind ?m ?k ?S ?W = Done _ _ _ -> _ =>
      destruct (m S W) as [? ? ?| |] eqn:H;
      [ rewrite (bind_Done m k S W _ _ _ H)
      | rewrite (bind_Fault m k S W H); intros; discriminate
      | rewrite (bind_Blocked m k S W H); intros; discriminate ]
  end.

(** What a successful [initDOPP] went through: [s2] is the session just
    before the tracking configuration is resolved. *)
Lemma initDOPP_OK_inv pw ph rot track blocking s w s' w' :
  initDOPP pw ph rot track blocking s w = Done RF_STATUS_OK s' w' ->
  exists s2 fbos texs live,
    s' = tracking_session track blocking
           (env_create_dopp_event (w_env w)) (env_create_event (w_env w)) s2
    /\ m_pFBO s2 = Some fbos /\ m_pTexture s2 = Some texs
    /\ length fbos = N.to_nat (m_uiNumTargets s)
    /\ texs = fresh_names live (m_uiNumTargets s)
    /\ (forall x, x ∈ texs -> x ∈ w_names w' Texture)
    /\ m_uiNumTargets s2 = m_uiNumTargets s
    /\ m_uiDesktopId s2 = m_uiDesktopId s
    /\ m_NotificationThread s2 = m_NotificationThread s
    /\ m_bDesktopChanged s2 = m_bDesktopChanged s
    /\ m_pShader s2 <> None
    /\ m_uiPresentWidth s2 = pw /\ m_uiPresentHeight s2 = ph
    /\ (forall p, w_procs w' p = true)
    /\ w_env w' = w_env w /\ w_waits w' = w_waits w
    /\ env_glrc (w_env w) = true /\ 0 < pw /\ 0 < ph
    /\ env_desktop_target (w_env w) (m_uiDesktopId s) = true
    /\ m_NotificationThread s
       && (tracking_resolved track blocking (env_create_dopp_event (w_env w))
           && negb blocking) = false
    /\ w_parked w'
       = (if tracking_resolved track blocking (env_create_dopp_event (w_env w))
             && negb blocking
          then Some (env_create_dopp_event (w_env w), env_create_event (w_env w))
          else w_parked w).
Proof.
  unfold initDOPP. run.
  destruct (env_glrc (w_env w)) eqn:Eglrc; run; [|other_result].
  destruct (pw <=? 0) eqn:Epw; run; [other_result|].
  destruct (ph <=? 0) eqn:Eph; run; [other_result|].
  apply N.leb_gt in Epw, Eph.
  step_call Hext. destruct a; run; [|other_result].
  apply setupDOPPExtension_true in Hext
    as (-> & Hprocs & He1 & Hn1 & Hw1 & Hd1 & _ & Hk1).
  rewrite !Hprocs, !He1. run.
  destruct (env_desktop_target (w_env w) (m_uiDesktopId s)) eqn:Esel; run;
    [|other_result].
  rewrite !Hprocs, !He1. run.
  step_call Heff. destruct a; run; [|other_result].
  apply initEffect_true in Heff as ((sh & bm & ->) & Hframe2).
  destruct Hframe2 as (He2 & Hp2 & Hn2 & Hw2 & Hd2 & _ & Hk2).
  world_simpl_in He1; world_simpl_in Hw1; world_simpl_in He2;
    world_simpl_in Hp2; world_simpl_in Hn2; world_simpl_in Hw2;
    world_simpl_in Hk1; world_simpl_in Hk2.
  step_call Hcrt. destruct a; run; [|other_result].
  destruct (createRenderTargets_true_inv _ _ _ _ Hcrt) as [Hf Ht].
  destruct (createRenderTargets_build _ w1 Hf Ht)
    as (w2' & Hb & He3 & Hp3 & Hw3 & _ & Hn3 & _ & _ & _ & _ & Hk3 & _).
  cbv zeta in Hb, Hn3. rewrite Hb in Hcrt. inversion Hcrt; subst s0 w2'. clear Hcrt.
  match goal with
  | |- bind (createQuad rot) _ ?S ?W = _ -> _ =>
      destruct (createQuad_spec rot S W) as (va & vb & w3 & Hq & He4 & Hp4 & Hw4 & Hn4 & _ & _ & Hk4);
      rewrite (bind_Done _ _ _ _ _ _ _ Hq)
  end.
  match goal with
  | |- bind (initDOPP_tracking _ _) _ ?S ?W = _ -> _ =>
      pose proof (initDOPP_tracking_spec track blocking S W) as Htr
  end.
  cbv zeta in Htr. session_simpl_in Htr.
  assert (Henv : w_env w3 = w_env w) by congruence.
  rewrite Henv in Htr.
  destruct (m_NotificationThread s
            && (tracking_resolved track blocking (env_create_dopp_event (w_env w))
                && negb blocking)) eqn:Ethr.
  { rewrite (bind_Fault _ _ _ _ Htr). intros; discriminate. }
  destruct Htr as (w4 & Htr & He5 & Hp5 & Hn5 & Hw5 & _ & Hk5).
  rewrite (bind_Done _ _ _ _ _ _ _ Htr). run.
  unfold ret. intros H. inversion H; subst s' w'. clear H.
  eexists _, _, _, _. split; [reflexivity|].
  session_simpl. world_simpl.
  split; [reflexivity|]. split; [reflexivity|].
  split; [session_simpl_in Hb; apply length_fresh_names|].
  split; [reflexivity|].
  split.
  { intros x Hx. rewrite Hn5, Hn4, Hn3. apply elem_of_app. left. exact Hx. }
  repeat (split; [try reflexivity; try congruence|]).
  - unfold with_pool. session_simpl. discriminate.
  - rewrite Hk5.
    destruct (tracking_resolved track blocking (env_create_dopp_event (w_env w))
              && negb blocking); [reflexivity|].
    congruence.
Qed.

(** ** After a successful [initDOPP] *)

Lemma initDOPP_OK_initialised pw ph rot track blocking s w s' w' :
  initDOPP pw ph rot track blocking s w = Done RF_STATUS_OK s' w' ->
  0 < m_uiNumTargets s ->
  initialised s' w' = true /\ m_uiNumTargets s' = m_uiNumTargets s.
Proof.
  intros (s2 & fbos & texs & live & -> & Hf & Ht & Hlen & _ & _ & Hn & _ & _ & _
          & Hsh & _ & _ & Hprocs & _)%initDOPP_OK_inv Hpos.
  unfold initialised, tracking_session. session_simpl.
  rewrite Hf, Hn, Hprocs, Hlen, N2Nat.id, N.eqb_refl.
  apply N.ltb_lt in Hpos. rewrite Hpos.
  destruct (m_pShader s2); [auto | congruence].
Qed.

Lemma getFramebufferTex_cases idx s w :
  getFramebufferTex idx s w
  = if (0 <? m_uiNumTargets s) && (idx <? m_uiNumTargets s) && non_null (m_pTexture s)
    then array_read m_pTexture idx s w
    else Done 0 s w.
Proof.
  unfold getFramebufferTex. rewrite !bind_this.
  destruct ((0 <? m_uiNumTargets s) && (idx <? m_uiNumTargets s)
            && non_null (m_pTexture s)); reflexivity.
Qed.

Lemma getFramebufferTex_out_of_range idx s w :
  m_uiNumTargets s <= idx -> getFramebufferTex idx s w = Done 0 s w.
Proof.
  intros H. rewrite getFramebufferTex_cases.
  apply N.ltb_ge in H. rewrite H, andb_false_r. reflexivity.
Qed.

Lemma getFramebufferTex_no_pool idx s w :
  m_pTexture s = None -> getFramebufferTex idx s w = Done 0 s w.
Proof.
  intros H. rewrite getFramebufferTex_cases, H. cbn [non_null].
  rewrite andb_false_r. reflexivity.
Qed.

Lemma getFramebufferTex_fresh idx s w live :
  m_pTexture s = Some (fresh_names live (m_uiNumTargets s)) ->
  idx < m_uiNumTargets s ->
  getFramebufferTex idx s w = Done (max_name live + 1 + idx) s w.
Proof.
  intros Ht Hidx. rewrite getFramebufferTex_cases, Ht. cbn [non_null].
  assert (H0 : 0 < m_uiNumTargets s) by lia.
  apply N.ltb_lt in H0, Hidx. rewrite H0, Hidx. cbn [andb].
  apply N.ltb_lt in Hidx.
  unfold array_read. rewrite Ht, lookup_fresh_names by lia.
  now rewrite N2Nat.id.
Qed.

(** C9.  After [initDOPP] returned [RF_STATUS_OK] (which needs positive
    dimensions), [getFramebufferTex i] returns for every slot [i] below
    the target count a texture name that is not zero and is a live GL
    texture, different slots get different names, and the result is 0 for
    every index at or beyond the target count and whenever the texture
    array is not allocated. *)
Theorem getFramebufferTex_after_init (pw ph : N) (rot : float)
    (track blocking : bool) (s : GLDOPPCapture) (w : World)
    (s' : GLDOPPCapture) (w' : World) :
  initDOPP pw ph rot track blocking s w = Done RF_STATUS_OK s' w' ->
  (0 < pw /\ 0 < ph)
  /\ (forall i, i < m_uiNumTargets s' ->
      exists h, getFramebufferTex i s' w' = Done h s' w'
                /\ h <> 0 /\ h ∈ w_names w' Texture)
  /\ (forall i j hi hj,
         i < m_uiNumTargets s' -> j < m_uiNumTargets s' -> i <> j ->
         getFramebufferTex i s' w' = Done hi s' w' ->
         getFramebufferTex j s' w' = Done hj s' w' ->
         hi <> hj)
  /\ (forall i, m_uiNumTargets s' <= i -> getFramebufferTex i s' w' = Done 0 s' w')
  /\ (forall i s0 w0, m_pTexture s0 = None ->
                      getFramebufferTex i s0 w0 = Done 0 s0 w0).
Proof.
  intros (s2 & fbos & texs & live & -> & Hf & Ht & Hlen & Htexs & Hlive & Hn & _
          & _ & _ & _ & _ & _ & _ & _ & _ & _ & Hpw & Hph & _)%initDOPP_OK_inv.
  assert (Hpool : m_pTexture
                    (tracking_session track blocking
                       (env_create_dopp_event (w_env w))
                       (env_create_event (w_env w)) s2)
                  = Some (fresh_names live
                            (m_uiNumTargets
                               (tracking_session track blocking
                                  (env_create_dopp_event (w_env w))
                                  (env_create_event (w_env w)) s2)))).
  { unfold tracking_session. session_simpl. rewrite Ht, Hn. congruence. }
  assert (Hnum : m_uiNumTargets
                   (tracking_session track blocking
                      (env_create_dopp_event (w_env w))
                      (env_create_event (w_env w)) s2) = m_uiNumTargets s)
    by exact Hn.
  split; [auto|]. split; [|split; [|split]].
  - intros i Hi. eexists. split; [apply (getFramebufferTex_fresh _ _ _ live Hpool Hi)|].
    split; [lia|].
    apply Hlive. rewrite Htexs. rewrite Hnum in Hi.
    apply list_elem_of_lookup. exists (N.to_nat i).
    rewrite lookup_fresh_names by lia. now rewrite N2Nat.id.
  - intros i j hi hj Hi Hj Hij Hgi Hgj.
    rewrite (getFramebufferTex_fresh _ _ _ live Hpool Hi) in Hgi.
    rewrite (getFramebufferTex_fresh _ _ _ live Hpool Hj) in Hgj.
    inversion Hgi. inversion Hgj. lia.
  - intros i Hi. now apply getFramebufferTex_out_of_range.
  - intros i s0 w0 H0. now apply getFramebufferTex_no_pool.
Qed.

(** C5.  When [initDOPP] succeeds on a session without a running thread:
    the blocking flag is the requested one; tracking ends up enabled
    exactly when tracking or blocking was requested and the driver
    registered the desktop-change event, so blocking alone turns tracking
    on and a failed registration turns it off while the call still
    returns [RF_STATUS_OK] and leaves a session that composites; and the
    notification thread runs exactly when tracking ended up enabled and
    blocking was not requested. *)
Theorem initDOPP_tracking_configuration (pw ph : N) (rot : float)
    (track blocking : bool) (s : GLDOPPCapture) (w : World)
    (s' : GLDOPPCapture) (w' : World) :
  initDOPP pw ph rot track blocking s w = Done RF_STATUS_OK s' w' ->
  m_NotificationThread s = false ->
  let registered := nonzero (env_create_dopp_event (w_env w)) in
  m_bBlocking s' = blocking
  /\ m_bTrackDesktopChanges s' = (track || blocking) && registered
  /\ (track = false -> blocking = true -> registered = true ->
      m_bTrackDesktopChanges s' = true)
  /\ (registered = false ->
      m_bTrackDesktopChanges s' = false
      /\ (0 < m_uiNumTargets s -> initialised s' w' = true))
  /\ m_NotificationThread s' = m_bTrackDesktopChanges s' && negb blocking
  /\ (forall s0 w0, m_NotificationThread s0 = false ->
      result_of (initDOPP_tracking track blocking s0 w0) = Some RF_STATUS_OK)
  /\ (let o := start no_event_env [] 3 640 480 true false in
      result_of o = Some RF_STATUS_OK
      /\ m_bTrackDesktopChanges (started_session o 3) = false
      /\ result_of (processDesktop 0 (started_session o 3) (started_world o))
         = Some true).
Proof.
  intros Hinit Hthread. cbv zeta.
  pose proof (initDOPP_OK_initialised _ _ _ _ _ _ _ _ _ Hinit) as Hready.
  apply initDOPP_OK_inv in Hinit
    as (s2 & fbos & texs & live & -> & _ & _ & _ & _ & _ & _ & _ & Hth & _).
  unfold tracking_session, tracking_resolved. session_simpl.
  rewrite Hth, Hthread. cbn [orb].
  split; [reflexivity|]. split; [reflexivity|].
  split; [|split; [|split; [|split]]].
  - intros -> -> ->. reflexivity.
  - intros ->. rewrite andb_false_r. split; [reflexivity|].
    intros Hpos. now apply Hready.
  - reflexivity.
  - intros s0 w0 H0.
    pose proof (initDOPP_tracking_spec track blocking s0 w0) as Hspec.
    cbv zeta in Hspec. rewrite H0 in Hspec. cbn [andb] in Hspec.
    destruct Hspec as (w1 & -> & _). reflexivity.
  - vm_compute. auto.
Qed.

Lemma initDOPP_tracking_configuration_witness :
  let o := start good_env [] 3 640 480 false true in
  m_bBlocking (started_session o 3) = true
  /\ m_bTrackDesktopChanges (started_session o 3) = true
  /\ m_NotificationThread (started_session o 3) = false.
Proof.
  cbv zeta.
  destruct (initDOPP_tracking_configuration 640 480 0 false true
              (GLDOPPCapture_members 3)
              (constructed_world good_env [] 3)
              (started_session (start good_env [] 3 640 480 false true) 3)
              (started_world (start good_env [] 3 640 480 false true)))
    as (Hb & Ht & _ & _ & Hn & _).
  - vm_compute. reflexivity.
  - reflexivity.
  - split; [exact Hb|]. split.
    + rewrite Ht. reflexivity.
    + rewrite Hn, Ht. reflexivity.
Defined.

Lemma getFramebufferTex_after_init_witness :
  let o := start good_env [] 3 640 480 false false in
  exists h,
    getFramebufferTex 1 (started_session o 3) (started_world o)
    = Done h (started_session o 3) (started_world o)
    /\ h <> 0 /\ h ∈ w_names (started_world o) Texture.
Proof.
  cbv zeta.
  destruct (getFramebufferTex_after_init 640 480 0 false false
              (GLDOPPCapture_members 3)
              (constructed_world good_env [] 3)
              (started_session (start good_env [] 3 640 480 false false) 3)
              (started_world (start good_env [] 3 640 480 false false)))
    as (_ & Hslot & _).
  - vm_compute. reflexivity.
  - apply (Hslot 1). vm_compute. reflexivity.
Defined.

(** ** The notification thread *)

(** Once the tracking flag is cleared the loop is left at its next test,
    without another wait. *)
Lemma notificationLoop_exits_when_cleared s w :
  m_bTrackDesktopChanges s = false -> notificationLoop s w = Done tt s w.
Proof.
  intros H. unfold notificationLoop.
  destruct (length (w_signaled w) + length (w_waits w))%nat;
    cbn [notificationLoop_turns]; rewrite bind_this, H; reflexivity.
Qed.

(** While the flag is set and nothing is signaled the thread waits. *)
Lemma notificationLoop_waits s w :
  m_bTrackDesktopChanges s = true -> w_signaled w = [] -> w_waits w = [] ->
  notificationLoop s w = Blocked.
Proof.
  intros Hflag Hsig Hwaits. unfold notificationLoop. rewrite Hsig, Hwaits.
  cbn [length Nat.add notificationLoop_turns]. rewrite bind_this, Hflag.
  reflexivity.
Qed.

(** A wait on a pair with its first event signaled is released by it. *)
Lemma wait_on_signaled hs s w :
  fst hs ∈ w_signaled w ->
  wait_on hs s w
  = Done WAIT_OBJECT_0 s (log (EvWait (fst hs) (snd hs)) (unsignal (fst hs) w)).
Proof. intros H. unfold wait_on. now rewrite bool_decide_eq_true_2. Qed.


(** The join of a thread parked in its wait, after the flag was cleared
    and the event it waits on signaled: the wait is released, the thread
    records the change, finds the flag cleared and returns. *)
Lemma join_parked s w hs :
  m_bTrackDesktopChanges s = false ->
  w_parked w = Some hs -> fst hs ∈ w_signaled w ->
  join_notification_thread s w
  = Done tt (set_m_NotificationThread false (set_m_bDesktopChanged true s))
      (log EvThreadJoin
         (log (EvStoreChanged true)
            (log (EvWait (fst hs) (snd hs))
               (unsignal (fst hs) (set_w_parked None w))))).
Proof.
  intros Hflag Hpark Hsig.
  unfold join_notification_thread.
  erewrite bind_Done; [reflexivity|].
  unfold notification_thread_rest. rewrite Hpark.
  erewrite bind_Done.
  - apply notificationLoop_exits_when_cleared. exact Hflag.
  - unfold notificationLoop_turn.
    erewrite bind_Done by (apply wait_on_signaled; exact Hsig).
    reflexivity.
Qed.

(** The join of a thread that is at its loop test. *)
Lemma join_running s w :
  m_bTrackDesktopChanges s = false -> w_parked w = None ->
  join_notification_thread s w
  = Done tt (set_m_NotificationThread false s) (log EvThreadJoin w).
Proof.
  intros Hflag Hpark. unfold join_notification_thread.
  erewrite bind_Done; [reflexivity|].
  unfold notification_thread_rest. rewrite Hpark.
  apply notificationLoop_exits_when_cleared. exact Hflag.
Qed.


Lemma signal_nonzero h w :
  nonzero h = true -> signal h w = set_w_signaled (h :: w_signaled w) w.
Proof. unfold signal. now intros ->. Qed.

(** A thread that [initDOPP] started is parked on the session's events,
    and the session holds the driver-change event. *)
Lemma initDOPP_thread_of_session pw ph rot track blocking s w s' w' :
  initDOPP pw ph rot track blocking s w = Done RF_STATUS_OK s' w' ->
  m_NotificationThread s = false ->
  thread_of_session s' w'
  /\ (m_NotificationThread s' = true -> w_parked w' = Some (m_hDesktopEvent s')).
Proof.
  intros (s2 & fbos & texs & live & -> & _ & _ & _ & _ & _ & _ & _ & Hth & _
          & _ & _ & _ & _ & _ & _ & _ & _ & _ & _ & _ & Hpark)%initDOPP_OK_inv
         Hthread.
  unfold thread_of_session, tracking_session, tracking_resolved in *.
  session_simpl. rewrite Hth, Hthread. cbn [orb].
  destruct (track || blocking); cbn [andb] in *;
    [|split; intros; discriminate].
  destruct (nonzero (env_create_dopp_event (w_env w))) eqn:E0; cbn [andb] in *;
    [|split; intros; discriminate].
  destruct blocking; cbn [negb] in *; [split; intros; discriminate|].
  session_simpl. split.
  - intros _. split; [exact E0|]. intros hs Hhs. rewrite Hpark in Hhs.
    inversion Hhs. reflexivity.
  - intros _. exact Hpark.
Qed.

(** ** The destructor *)

(** The calls logged on top of [base], newest first. *)
Ltac logged_since t base :=
  match t with
  | base => constr:(@nil Event)
  | ?e :: ?r => let p := logged_since r base in constr:(e :: p)
  end.

Ltac give_emitted w :=
  match goal with
  | |- exists evs w', Done _ _ ?W = Done _ _ w' /\ _ =>
      let t := eval cbn [w_trace log set_w_trace set_w_names set_w_bound_fbo
                         gl_effect] in (w_trace W) in
      let l := logged_since t (w_trace w) in
      exists (rev l), W
  end.

Lemma dtor_release_gl_spec s w :
  exists evs w',
    dtor_release_gl s w = Done tt s w'
    /\ emits w w' evs
    /\ forallb (fun e => negb (is_teardown_call e)) evs = true
    /\ w_env w' = w_env w
    /\ w_signaled w' = w_signaled w /\ w_parked w' = w_parked w
    /\ w_waits w' = w_waits w.
Proof.
  unfold dtor_release_gl. run.
  destruct (m_pShader s) eqn:Esh; run; rewrite ?Esh;
    (destruct (nonzero (m_uiDesktopTexture s)); run);
    (destruct (m_pFBO s); run);
    (destruct (m_pTexture s); run);
    (destruct (nonzero (m_uiVertexBuffer s)); run);
    (destruct (nonzero (m_uiVertexArray s)); run);
    unfold ret, gl; give_emitted w;
    (split; [reflexivity|]); (split; [reflexivity|]);
    repeat split.
Qed.

(** The destructor's first call goes through the global pointer
    [wglEnablePostProcessAMD]; nothing else is done before it. *)
Lemma dtor_unresolved s w :
  w_procs w P_wglEnablePostProcessAMD = false -> GLDOPPCapture_dtor s w = Fault.
Proof.
  intros H. unfold GLDOPPCapture_dtor, wglEnablePostProcessAMD.
  rewrite bind_assoc, bind_through, H. reflexivity.
Qed.

(** From the context query to the end of the GL releases. *)
Lemma dtor_release_stage s w :
  exists evs w1,
    (if env_glrc (w_env w) then dtor_release_gl
     else emit (EvRFError RF_STATUS_OPENGL_FAIL)) s
      (log EvGetCurrentContext (log (EvEnablePostProcess false) w))
    = Done tt s w1
    /\ emits w w1 ([EvEnablePostProcess false; EvGetCurrentContext] ++ evs)
    /\ forallb (fun e => negb (is_teardown_call e)) evs = true
    /\ w_signaled w1 = w_signaled w /\ w_parked w1 = w_parked w
    /\ w_waits w1 = w_waits w.
Proof.
  destruct (env_glrc (w_env w)).
  - destruct (dtor_release_gl_spec s
                (log EvGetCurrentContext (log (EvEnablePostProcess false) w)))
      as (evs & w1 & Hrun & Hev & Hok & _ & Hs & Hk & Hw).
    exists evs, w1. split; [exact Hrun|]. split; [|auto].
    unfold emits in *. rewrite Hev. world_simpl.
    rewrite rev_app_distr, <- app_assoc. reflexivity.
  - eexists [_], _. split; [reflexivity|]. repeat split.
Qed.

(** The destructor, once the extension entry point is resolved: it returns
    whenever a joinable thread is this session's. *)
Lemma dtor_resolved s w :
  w_procs w P_wglEnablePostProcessAMD = true ->
  thread_of_session s w ->
  exists pre w1 s' w',
    GLDOPPCapture_dtor s w = Done tt s' w'
    /\ emits w w1 pre
    /\ forallb (fun e => negb (is_teardown_call e)) pre = true
    /\ emits w1 w' (teardown_trace s w)
    /\ m_bTrackDesktopChanges s' = false
    /\ m_NotificationThread s' = false
    /\ nonzero (hDesktopEvent0 s') = false
    /\ nonzero (hDesktopEvent1 s') = false
    /\ (m_NotificationThread s = true -> w_parked w' = None).
Proof.
  intros Hproc Hthread. unfold GLDOPPCapture_dtor. run. rewrite Hproc.
  destruct (dtor_release_stage s w) as (evs & w1 & Hrun & Hev & Hok & Hs1 & Hk1 & _).
  rewrite (bind_Done _ _ _ _ _ _ _ Hrun). run.
  exists ([EvEnablePostProcess false; EvGetCurrentContext] ++ evs), w1.
  unfold teardown_trace, thread_exit_calls, thread_of_session in *.
  destruct s as [dt id nt dw dh pw ph sh bm vb va fbo tex tr bl [e0 e1] ch th].
  session_simpl. session_simpl_in Hthread.
  destruct th.
  - destruct Hthread as [E0 Hfst]; [reflexivity|]. rewrite E0.
    destruct (w_parked w) as [hs|] eqn:Ek.
    + specialize (Hfst hs eq_refl).
      destruct fbo, tex; run; rewrite ?E0; run;
        rewrite (signal_nonzero _ _ E0);
        (destruct (nonzero e1) eqn:E1; run);
        match goal with
        | |- context [bind join_notification_thread ?k ?S ?W] =>
            rewrite (bind_Done join_notification_thread k S W _ _ _
                       (join_parked S W hs eq_refl
                          ltac:(world_simpl; congruence)
                          ltac:(world_simpl; rewrite Hfst; apply elem_of_cons; now left)))
        end; run; rewrite ?E0; run;
        unfold ret, assign, emit;
        eexists _, _; (split; [reflexivity|]);
        (split; [exact Hev|]); (split; [exact Hok|]);
        (split; [reflexivity|]); session_simpl; world_simpl; auto 10.
    + destruct fbo, tex; run; rewrite ?E0; run;
        rewrite (signal_nonzero _ _ E0);
        (destruct (nonzero e1) eqn:E1; run);
        match goal with
        | |- context [bind join_notification_thread ?k ?S ?W] =>
            rewrite (bind_Done join_notification_thread k S W _ _ _
                       (join_running S W eq_refl
                          ltac:(world_simpl; congruence)))
        end; run; rewrite ?E0; run;
        unfold ret, assign, emit;
        eexists _, _; (split; [reflexivity|]);
        (split; [exact Hev|]); (split; [exact Hok|]);
        (split; [reflexivity|]); session_simpl; world_simpl; auto 10.
  - destruct fbo, tex; run;
      (destruct (nonzero e0) eqn:E0; run; rewrite ?E0; run;
       rewrite ?(signal_nonzero _ _ E0));
      (destruct (nonzero e1) eqn:E1; run); rewrite ?E0;
      unfold ret, assign, emit;
      eexists _, _; (split; [reflexivity|]);
      (split; [exact Hev|]); (split; [exact Hok|]);
      (split; [reflexivity|]); session_simpl;
      repeat split; first [assumption | intros; discriminate].
Qed.

Lemma teardown_trace_order s w :
  List.filter is_teardown_call (teardown_trace s w) = teardown_calls s.
Proof.
  unfold teardown_trace, teardown_calls, thread_exit_calls.
  destruct (nonzero (hDesktopEvent0 s)), (nonzero (hDesktopEvent1 s)),
    (m_NotificationThread s), (w_parked w); reflexivity.
Qed.

(** Whatever the blocking flag, the destructor's own calls are the same. *)
Lemma teardown_calls_blocking b s :
  teardown_calls (set_m_bBlocking b s) = teardown_calls s.
Proof. reflexivity. Qed.

(** C7.  The destructor starts with a call through the global pointer
    [wglEnablePostProcessAMD].  While that pointer has not been resolved
    (no [initDOPP] of the process got as far as [setupDOPPExtension]) the
    call dies and nothing of the teardown is performed.  With the pointer
    resolved the destructor first disables post-processing, queries the
    context and releases the GL resources (none of these calls touches the
    notification machinery), and then performs exactly the teardown
    sequence: clear the tracking flag, signal the driver-change event,
    close the unblock event, join the thread if it is joinable, and only
    then delete the driver-change event.  The thread's wait is released by
    the signaled event, the thread records the change, finds the flag
    cleared and returns, so the join returns.  The sequence does not
    depend on the blocking flag. *)
Theorem destructor_calls_unresolved_extension (s : GLDOPPCapture) (w : World) :
  (w_procs w P_wglEnablePostProcessAMD = false ->
   GLDOPPCapture_dtor s w = Fault)
  /\ (w_procs w P_wglEnablePostProcessAMD = true ->
      thread_of_session s w ->
      exists pre w1 s' w',
        GLDOPPCapture_dtor s w = Done tt s' w'
        /\ emits w w1 pre
        /\ forallb (fun e => negb (is_teardown_call e)) pre = true
        /\ emits w1 w' (teardown_trace s w)
        /\ List.filter is_teardown_call (teardown_trace s w) = teardown_calls s
        /\ (forall b, teardown_calls (set_m_bBlocking b s) = teardown_calls s)
        /\ m_bTrackDesktopChanges s' = false
        /\ m_NotificationThread s' = false
        /\ nonzero (hDesktopEvent0 s') = false
        /\ nonzero (hDesktopEvent1 s') = false
        /\ (m_NotificationThread s = true -> w_parked w' = None)).
Proof.
  split; [apply dtor_unresolved|].
  intros Hproc Hthread.
  destruct (dtor_resolved s w Hproc Hthread)
    as (pre & w1 & s' & w' & Hrun & Hpre & Hok & Htear & Hrest).
  exists pre, w1, s', w'.
  split; [exact Hrun|]. split; [exact Hpre|]. split; [exact Hok|].
  split; [exact Htear|]. split; [apply teardown_trace_order|].
  split; [intros b; apply teardown_calls_blocking|]. exact Hrest.
Qed.

Lemma destructor_calls_unresolved_extension_witness :
  let o := start good_env [] 3 0 480 true false in
  result_of o = Some RF_STATUS_INVALID_DIMENSION
  /\ GLDOPPCapture_dtor (started_session o 3) (started_world o) = Fault
  /\ GLDOPPCapture_dtor (GLDOPPCapture_members 3) (constructed_world good_env [] 3)
     = Fault.
Proof.
  cbv zeta. split; [vm_compute; reflexivity|]. split.
  - apply (destructor_calls_unresolved_extension
             (started_session (start good_env [] 3 0 480 true false) 3)
             (started_world (start good_env [] 3 0 480 true false))).
    vm_compute. reflexivity.
  - apply (destructor_calls_unresolved_extension
             (GLDOPPCapture_members 3) (constructed_world good_env [] 3)).
    vm_compute. reflexivity.
Defined.

(** The destructor after a successful [initDOPP] on a session that had no
    thread: it returns, with the teardown in its order. *)
Lemma destructor_after_initDOPP pw ph rot track blocking s w s1 w1 :
  initDOPP pw ph rot track blocking s w = Done RF_STATUS_OK s1 w1 ->
  m_NotificationThread s = false ->
  exists pre w2 s' w',
    GLDOPPCapture_dtor s1 w1 = Done tt s' w'
    /\ emits w1 w2 pre
    /\ forallb (fun e => negb (is_teardown_call e)) pre = true
    /\ emits w2 w' (teardown_trace s1 w1)
    /\ m_NotificationThread s' = false.
Proof.
  intros Hinit Hthread.
  destruct (initDOPP_thread_of_session _ _ _ _ _ _ _ _ _ Hinit Hthread)
    as [Hof _].
  apply initDOPP_OK_inv in Hinit
    as (s2 & fbos & texs & live & _ & _ & _ & _ & _ & _ & _ & _ & _ & _ & _ & _
        & _ & Hprocs & _).
  destruct (dtor_resolved s1 w1 (Hprocs _) Hof)
    as (pre & w2 & s' & w' & Hrun & Hpre & Hok & Htear & _ & Hjoined & _).
  exists pre, w2, s', w'. auto.
Qed.


(** * Further properties *)

(** ** Every change of the world is a logged call *)

Lemma changes_by_nil w : changes_by [] w w.
Proof. repeat split. Qed.

Lemma changes_by_app a b w w1 w2 :
  changes_by a w w1 -> changes_by b w1 w2 -> changes_by (a ++ b) w w2.
Proof.
  intros (Ea & He & Hd & Hp & Hw & Hg & Hy & Hk)
         (Eb & He' & Hd' & Hp' & Hw' & Hg' & Hy' & Hk').
  unfold changes_by, emits in *. rewrite !forallb_app.
  split; [rewrite Eb, Ea, rev_app_distr, app_assoc; reflexivity|].
  split; [congruence|]. split; [congruence|].
  split; [|split; [|split; [|split]]].
  - intros [Ha Hb]%andb_prop. rewrite (Hp' Hb). auto.
  - intros [Ha Hb]%andb_prop. rewrite (Hw' Hb). auto.
  - intros [Ha Hb]%andb_prop. destruct (Hg Ha), (Hg' Hb). split; congruence.
  - intros [Ha Hb]%andb_prop. rewrite (Hy' Hb). auto.
  - intros [Ha Hb]%andb_prop. rewrite (Hk' Hb). auto.
Qed.

Lemma changes_by_log e w :
  changes_by [e] w (log e w).
Proof. repeat split. Qed.

Lemma changes_by_gl c w :
  changes_by [EvGL c] w (log (EvGL c) (gl_effect c w)).
Proof.
  unfold changes_by, emits.
  split; [destruct c; reflexivity|].
  split; [destruct c; reflexivity|].
  split; [destruct c; reflexivity|].
  split; [intros _; destruct c; reflexivity|].
  split; [intros _; destruct c; reflexivity|].
  split; [cbn; discriminate|].
  split; intros _; destruct c; reflexivity.
Qed.

Section EmitsOnly.
Variable P : Event -> bool.

Lemma eo_ret {A} (a : A) : emits_only P (ret a).
Proof.
  intros s w a' s' w' H. inversion H; subst. exists []. split; [apply changes_by_nil|reflexivity].
Qed.

Lemma eo_this {A} (f : GLDOPPCapture -> A) : emits_only P (this f).
Proof.
  intros s w a' s' w' H. inversion H; subst. exists []. split; [apply changes_by_nil|reflexivity].
Qed.

Lemma eo_assign upd : emits_only P (assign upd).
Proof.
  intros s w a' s' w' H. inversion H; subst. exists []. split; [apply changes_by_nil|reflexivity].
Qed.

Lemma eo_env {A} (f : Env -> A) : emits_only P (env f).
Proof.
  intros s w a' s' w' H. inversion H; subst. exists []. split; [apply changes_by_nil|reflexivity].
Qed.

Lemma eo_emit e : P e = true -> emits_only P (emit e).
Proof.
  intros HP s w a' s' w' H. inversion H; subst. exists [e].
  split; [apply changes_by_log | cbn; now rewrite HP].
Qed.

Lemma eo_gl c : P (EvGL c) = true -> emits_only P (gl c).
Proof.
  intros HP s w a' s' w' H. inversion H; subst. exists [EvGL c].
  split; [apply changes_by_gl | cbn; now rewrite HP].
Qed.

Lemma eo_glGen o n : (forall c, P (EvGL c) = true) -> emits_only P (glGen o n).
Proof.
  intros HP s w a' s' w' H. inversion H; subst. eexists [EvGL _].
  split; [apply changes_by_gl | cbn; now rewrite HP].
Qed.

Lemma eo_glFramebufferComplete :
  P (EvGL glCheckFramebufferStatus) = true -> emits_only P glFramebufferComplete.
Proof.
  intros HP s w a' s' w' H. inversion H; subst. exists [EvGL glCheckFramebufferStatus].
  split; [apply changes_by_gl | cbn; now rewrite HP].
Qed.

Lemma eo_through p : emits_only P (through p).
Proof.
  intros s w a' s' w' H. unfold through in H.
  destruct (w_procs w p); inversion H; subst.
  exists []. split; [apply changes_by_nil|reflexivity].
Qed.

Lemma eo_shader c : P (EvShader c) = true -> emits_only P (shader c).
Proof.
  intros HP s w a' s' w' H. unfold shader in H.
  destruct (m_pShader s); inversion H; subst.
  exists [EvShader c]. split; [apply changes_by_log | cbn; now rewrite HP].
Qed.

Lemma eo_shader_getProgram : emits_only P shader_getProgram.
Proof.
  intros s w a' s' w' H. unfold shader_getProgram in H.
  destruct (m_pShader s); inversion H; subst.
  exists []. split; [apply changes_by_nil|reflexivity].
Qed.

Lemma eo_array_read arr i : emits_only P (array_read arr i).
Proof.
  intros s w a' s' w' H. unfold array_read in H.
  destruct (arr s) as [l|]; [|discriminate].
  destruct (l !! N.to_nat i); inversion H; subst.
  exists []. split; [apply changes_by_nil|reflexivity].
Qed.

Lemma eo_GET_PROC p : P (EvGetProcAddress p) = true -> emits_only P (GET_PROC p).
Proof.
  intros HP s w a' s' w' H. inversion H; subst. exists [EvGetProcAddress p].
  split; [|cbn; now rewrite HP].
  unfold changes_by, emits. cbn. repeat split; discriminate.
Qed.

Lemma eo_SetEvent h : P (EvSetEvent h) = true -> emits_only P (SetEvent h).
Proof.
  intros HP s w a' s' w' H. inversion H; subst. exists [EvSetEvent h].
  split; [|cbn; now rewrite HP].
  unfold changes_by, emits, signal. cbn.
  destruct (nonzero h); cbn; repeat split; discriminate.
Qed.

Lemma eo_CreateEvent : P EvCreateEvent = true -> emits_only P CreateEvent.
Proof.
  intros HP s w a' s' w' H. inversion H; subst. exists [EvCreateEvent].
  split; [|cbn; now rewrite HP].
  unfold changes_by, emits. cbn. repeat split; discriminate.
Qed.

Lemma eo_wait_on hs :
  (forall h0 h1, P (EvWait h0 h1) = true) -> emits_only P (wait_on hs).
Proof.
  intros HP s w a' s' w' H. unfold wait_on in H.
  exists [EvWait (fst hs) (snd hs)]. split; [|cbn; now rewrite HP].
  destruct (bool_decide (fst hs ∈ w_signaled w));
    [|destruct (bool_decide (snd hs ∈ w_signaled w));
      [|destruct (w_waits w) as [|r rest]; [discriminate|]]];
    inversion H; subst; unfold changes_by, emits; cbn;
    repeat split; discriminate.
Qed.

Lemma eo_WaitForMultipleObjects :
  (forall h0 h1, P (EvWait h0 h1) = true) -> emits_only P WaitForMultipleObjects.
Proof.
  intros HP s w a' s' w' H. apply (eo_wait_on (m_hDesktopEvent s) HP s w a' s' w').
  exact H.
Qed.

Lemma eo_start_notification_thread :
  P EvThreadStart = true -> emits_only P start_notification_thread.
Proof.
  intros HP s w a' s' w' H. unfold start_notification_thread in H.
  destruct (m_NotificationThread s); inversion H; subst.
  exists [EvThreadStart]. split; [|cbn; now rewrite HP].
  unfold changes_by, emits. cbn. repeat split; discriminate.
Qed.

Lemma eo_bind {A B} (m : M A) (k : A -> M B) :
  emits_only P m -> (forall a, emits_only P (k a)) -> emits_only P (bind m k).
Proof.
  intros Hm Hk s w b s' w' H. unfold bind in H.
  destruct (m s w) as [a s1 w1| |] eqn:E; try discriminate.
  destruct (Hm _ _ _ _ _ E) as (e1 & Hc1 & Hp1).
  destruct (Hk a _ _ _ _ _ H) as (e2 & Hc2 & Hp2).
  exists (e1 ++ e2). split; [eapply changes_by_app; eassumption|].
  rewrite forallb_app, Hp1, Hp2. reflexivity.
Qed.

Lemma eo_if {A} (c : bool) (a b : M A) :
  emits_only P a -> emits_only P b -> emits_only P (if c then a else b).
Proof. destruct c; auto. Qed.

Lemma eo_option {A B} (o : option B) (a : B -> M A) (b : M A) :
  (forall x, emits_only P (a x)) -> emits_only P b ->
  emits_only P (match o with Some x => a x | None => b end).
Proof. destruct o; auto. Qed.
End EmitsOnly.

(** Walks a computation along its structure. *)
Ltac eo_step :=
  match goal with
  | |- emits_only _ (bind _ _) => apply eo_bind; [|intros ?]
  | |- emits_only _ (ret _) => apply eo_ret
  | |- emits_only _ (this _) => apply eo_this
  | |- emits_only _ (assign _) => apply eo_assign
  | |- emits_only _ (env _) => apply eo_env
  | |- emits_only _ (emit _) => apply eo_emit; reflexivity
  | |- emits_only _ (gl _) => apply eo_gl; reflexivity
  | |- emits_only _ (glGen _ _) => apply eo_glGen; intros ?; reflexivity
  | |- emits_only _ glFramebufferComplete =>
      apply eo_glFramebufferComplete; reflexivity
  | |- emits_only _ (through _) => apply eo_through
  | |- emits_only _ (shader _) => apply eo_shader; reflexivity
  | |- emits_only _ shader_getProgram => apply eo_shader_getProgram
  | |- emits_only _ (array_read _ _) => apply eo_array_read
  | |- emits_only _ (GET_PROC _) => apply eo_GET_PROC; reflexivity
  | |- emits_only _ (SetEvent _) => apply eo_SetEvent; reflexivity
  | |- emits_only _ CreateEvent => apply eo_CreateEvent; reflexivity
  | |- emits_only _ WaitForMultipleObjects =>
      apply eo_WaitForMultipleObjects; intros ? ?; reflexivity
  | |- emits_only _ start_notification_thread =>
      apply eo_start_notification_thread; reflexivity
  | |- emits_only _ (if _ then _ else _) => apply eo_if
  | |- emits_only _ (match ?o with Some _ => _ | None => _ end) => destruct o
  | |- context [let (_, _) := ?p in _] => destruct p
  end.

Ltac eo :=
  unfold RFReadWriteAccess, glGetTexLevelParameter, glGetViewport,
    linear_clamped, wglGetCurrentContext, wglDesktopTargetAMD,
    wglGetDesktopTextureAMD, wglEnablePostProcessAMD, Sleep, CloseHandle,
    createDOPPEvent, deleteDOPPEvent, store_m_bTrackDesktopChanges,
    store_m_bDesktopChanged, first_targets;
  repeat eo_step.

Lemma eo_weaken {A} (P Q : Event -> bool) (m : M A) :
  (forall e, P e = true -> Q e = true) -> emits_only P m -> emits_only Q m.
Proof.
  intros HPQ Hm s w a s' w' H. destruct (Hm _ _ _ _ _ H) as (evs & Hc & Hp).
  exists evs. split; [exact Hc|].
  apply forallb_forall. intros e He. apply HPQ.
  rewrite forallb_forall in Hp. now apply Hp.
Qed.

Lemma setupDOPPExtension_emits :
  emits_only is_get_proc setupDOPPExtension.
Proof. unfold setupDOPPExtension. eo. Qed.

Lemma initEffect_emits :
  emits_only (fun e => match e with EvShader _ | EvGL _ => true | _ => false end)
    initEffect.
Proof. unfold initEffect. eo. Qed.

Lemma createRenderTargets_loop_emits idxs acc :
  emits_only is_gl (createRenderTargets_loop idxs acc).
Proof.
  revert acc. induction idxs as [|i rest IH]; intros acc;
    cbn [createRenderTargets_loop]; eo. apply IH.
Qed.

Lemma createRenderTargets_emits : emits_only is_gl createRenderTargets.
Proof. unfold createRenderTargets. eo. apply createRenderTargets_loop_emits. Qed.

Lemma createQuad_emits rot : emits_only is_gl (createQuad rot).
Proof. unfold createQuad. eo. Qed.

Lemma bind_Done_inv {A B} (m : M A) (k : A -> M B) s w b s' w' :
  bind m k s w = Done b s' w' ->
  exists a s1 w1, m s w = Done a s1 w1 /\ k a s1 w1 = Done b s' w'.
Proof.
  unfold bind. destruct (m s w) as [a s1 w1| |]; try discriminate.
  intros H. exists a, s1, w1. auto.
Qed.

Ltac eo_sub lemma :=
  eapply eo_weaken; [|apply lemma];
  let e := fresh "e" in intros e; destruct e; (reflexivity || discriminate).

Lemma initDOPP_tracking_emits track blocking :
  emits_only (fun e => negb (is_lock e) && negb (is_gl e) && negb (is_get_proc e)
                       && negb (is_wait e))
    (initDOPP_tracking track blocking).
Proof. unfold initDOPP_tracking. eo. Qed.

(** ** [setupDOPPExtension] *)

Lemma setupDOPPExtension_spec (s : GLDOPPCapture) (w : World) :
  exists w',
    setupDOPPExtension s w
    = Done (forallb (env_proc_avail (w_env w)) all_procs) s w'
    /\ (forall p,
           w_procs w' p
           = if forallb (env_proc_avail (w_env w)) (procs_before p)
             then env_proc_avail (w_env w) p
             else w_procs w p)
    /\ w_env w' = w_env w /\ w_names w' = w_names w /\ w_waits w' = w_waits w.
Proof.
  unfold setupDOPPExtension, all_procs. run.
  destruct (env_proc_avail (w_env w) P_wglGetDesktopTextureAMD) eqn:E1; run;
    [destruct (env_proc_avail (w_env w) P_wglEnablePostProcessAMD) eqn:E2; run;
     [destruct (env_proc_avail (w_env w) P_wglPresentTextureToVideoAMD) eqn:E3; run;
      [destruct (env_proc_avail (w_env w) P_wglDesktopTargetAMD) eqn:E4; run;
       [destruct (env_proc_avail (w_env w) P_wglGenPresentTextureAMD) eqn:E5; run
       |] |] |] |];
    unfold ret; (eexists; split; [cbn; rewrite ?E1, ?E2, ?E3, ?E4, ?E5; reflexivity|]);
    world_simpl; (split; [|auto]);
    intros p; destruct p; cbn [procs_before forallb];
    rewrite ?E1, ?E2, ?E3, ?E4, ?E5; cbn [andb];
    repeat first [rewrite override_eq | rewrite override_ne by discriminate];
    reflexivity.
Qed.

(** [setupDOPPExtension] returns [true] exactly when all five entry
    points resolve.  It looks them up in order and stops at the first one
    that is missing: every pointer it looked up holds what the lookup
    returned (null for the missing one, whatever it held before), and the
    pointers after the missing one keep their value. *)
Theorem setupDOPPExtension_lookup (s : GLDOPPCapture) (w : World) :
  exists w',
    setupDOPPExtension s w
    = Done (forallb (env_proc_avail (w_env w)) all_procs) s w'
    /\ (forall p,
           w_procs w' p
           = if forallb (env_proc_avail (w_env w)) (procs_before p)
             then env_proc_avail (w_env w) p
             else w_procs w p)
    /\ w_env w' = w_env w /\ w_names w' = w_names w /\ w_waits w' = w_waits w.
Proof. apply setupDOPPExtension_spec. Qed.

Lemma procs_all_resolved (e : Env) (old : DOPPProc -> bool) :
  forallb (env_proc_avail e) all_procs = true ->
  forall p,
    (if forallb (env_proc_avail e) (procs_before p) then env_proc_avail e p
     else old p) = true.
Proof.
  unfold all_procs. cbn [procs_before app forallb].
  intros H p.
  repeat (apply andb_prop in H as [? H]).
  destruct p; cbn [procs_before forallb];
    repeat match goal with Hx : _ = true |- _ => rewrite Hx; clear Hx end;
    reflexivity.
Qed.

(** ** [initDOPP]: the lock and the failure returns *)

(** Whatever [initDOPP] returns, it took the global DOPP lock first,
    released it last, and did not touch it in between: the lock is held
    over the whole call and released on every return path. *)
Theorem initDOPP_lock_balanced (pw ph : N) (rot : float) (track blocking : bool)
    (s : GLDOPPCapture) (w : World) (st : RFStatus) (s' : GLDOPPCapture)
    (w' : World) :
  initDOPP pw ph rot track blocking s w = Done st s' w' ->
  exists evs,
    changes_by ([EvLock] ++ evs ++ [EvUnlock]) w w'
    /\ forallb (fun e => negb (is_lock e)) evs = true.
Proof.
  unfold initDOPP, RFReadWriteAccess. intros H.
  apply bind_Done_inv in H as (u & s1 & w1 & Hlock & H).
  apply bind_Done_inv in H as (r & s2 & w2 & Hbody & H).
  inversion Hlock; subst u s1 w1; clear Hlock.
  inversion H; subst st s' w'; clear H.
  assert (Hq : exists evs, changes_by evs (log EvLock w) w2
                           /\ forallb (fun e => negb (is_lock e)) evs = true).
  { revert Hbody. generalize (log EvLock w). intros w0 Hbody.
    eapply (fun Heo => Heo s w0 r s2 w2 Hbody). clear.
    match goal with
    | |- forall x x0 x1 x2 x3, ?m x x0 = Done x1 x2 x3 -> _ =>
        change (emits_only (fun e => negb (is_lock e)) m)
    end.
    eo;
      first [ eo_sub setupDOPPExtension_emits | eo_sub initEffect_emits
            | eo_sub createRenderTargets_emits | eo_sub createQuad_emits
            | eo_sub initDOPP_tracking_emits ]. }
  destruct Hq as (evs & Hc & Hp). exists evs. split; [|exact Hp].
  eapply changes_by_app; [apply changes_by_log|].
  eapply changes_by_app; [exact Hc | apply changes_by_log].
Qed.

Lemma initDOPP_lock_balanced_witness :
  let o := start good_env [] 3 640 480 true false in
  exists evs,
    changes_by ([EvLock] ++ evs ++ [EvUnlock])
      (constructed_world good_env [] 3) (started_world o)
    /\ forallb (fun e => negb (is_lock e)) evs = true.
Proof.
  cbv zeta.
  apply (initDOPP_lock_balanced 640 480 0 true false (GLDOPPCapture_members 3)
           (constructed_world good_env [] 3) RF_STATUS_OK
           (started_session (start good_env [] 3 640 480 true false) 3)
           (started_world (start good_env [] 3 640 480 true false))).
  vm_compute. reflexivity.
Defined.

(** With a context and positive dimensions, [initDOPP] on a machine
    where one of the five entry points does not resolve returns
    [RF_STATUS_DOPP_FAIL].  The present size is already stored by then and
    is all that changed in the session; apart from the lock and the
    context query only entry-point lookups were made. *)
Theorem initDOPP_extension_missing (pw ph : N) (rot : float)
    (track blocking : bool) (s : GLDOPPCapture) (w : World) :
  env_glrc (w_env w) = true -> 0 < pw -> 0 < ph ->
  forallb (env_proc_avail (w_env w)) all_procs = false ->
  exists evs w',
    initDOPP pw ph rot track blocking s w
    = Done RF_STATUS_DOPP_FAIL
        (set_m_uiPresentHeight ph (set_m_uiPresentWidth pw s)) w'
    /\ changes_by ([EvLock; EvGetCurrentContext] ++ evs ++ [EvUnlock]) w w'
    /\ forallb is_get_proc evs = true.
Proof.
  intros Hglrc Hpw Hph Hmiss. apply N.leb_gt in Hpw, Hph.
  unfold initDOPP. run. rewrite Hglrc, Hpw, Hph. run.
  match goal with
  | |- context [bind setupDOPPExtension _ ?S ?W] =>
      destruct (setupDOPPExtension_spec S W) as (w1 & Hrun & _);
      destruct (setupDOPPExtension_emits _ _ _ _ _ Hrun) as (evs & Hc & Hev);
      rewrite (bind_Done _ _ _ _ _ _ _ Hrun)
  end.
  world_simpl. rewrite Hmiss. run.
  exists evs. eexists. split; [reflexivity|]. split; [|exact Hev].
  change ([EvLock; EvGetCurrentContext] ++ evs ++ [EvUnlock])
    with ([EvLock] ++ [EvGetCurrentContext] ++ evs ++ [EvUnlock]).
  eapply changes_by_app; [apply changes_by_log|].
  eapply changes_by_app; [apply changes_by_log|].
  eapply changes_by_app; [exact Hc | apply changes_by_log].
Qed.

Lemma initDOPP_extension_missing_witness :
  exists evs w',
    initDOPP 640 480 0 false false (GLDOPPCapture_members 3)
      (constructed_world no_target_env [] 3)
    = Done RF_STATUS_DOPP_FAIL
        (set_m_uiPresentHeight 480 (set_m_uiPresentWidth 640 (GLDOPPCapture_members 3)))
        w'
    /\ changes_by ([EvLock; EvGetCurrentContext] ++ evs ++ [EvUnlock])
         (constructed_world no_target_env [] 3) w'
    /\ forallb is_get_proc evs = true.
Proof.
  apply (initDOPP_extension_missing 640 480 0 false false
           (GLDOPPCapture_members 3) (constructed_world no_target_env [] 3));
    reflexivity.
Defined.

(** With a context, positive dimensions and all entry points, [initDOPP]
    for a desktop id the driver does not accept returns
    [RF_STATUS_INVALID_DESKTOP_ID].  Only the present size was written to
    the session, all five entry points are resolved, and no GL call was
    made: no texture was acquired and no GL name created. *)
Theorem initDOPP_desktop_unselectable (pw ph : N) (rot : float)
    (track blocking : bool) (s : GLDOPPCapture) (w : World) :
  env_glrc (w_env w) = true -> 0 < pw -> 0 < ph ->
  forallb (env_proc_avail (w_env w)) all_procs = true ->
  env_desktop_target (w_env w) (m_uiDesktopId s) = false ->
  exists evs w',
    initDOPP pw ph rot track blocking s w
    = Done RF_STATUS_INVALID_DESKTOP_ID
        (set_m_uiPresentHeight ph (set_m_uiPresentWidth pw s)) w'
    /\ changes_by ([EvLock; EvGetCurrentContext] ++ evs
                   ++ [EvDesktopTarget (m_uiDesktopId s); EvUnlock]) w w'
    /\ forallb is_get_proc evs = true
    /\ (forall p, w_procs w' p = true)
    /\ w_names w' = w_names w.
Proof.
  intros Hglrc Hpw Hph Hall Hsel. apply N.leb_gt in Hpw, Hph.
  unfold initDOPP. run. rewrite Hglrc, Hpw, Hph. run.
  match goal with
  | |- context [bind setupDOPPExtension _ ?S ?W] =>
      destruct (setupDOPPExtension_spec S W) as (w1 & Hrun & Hp & He & Hn & _);
      destruct (setupDOPPExtension_emits _ _ _ _ _ Hrun) as (evs & Hc & Hev);
      rewrite (bind_Done _ _ _ _ _ _ _ Hrun)
  end.
  world_simpl_in Hp. world_simpl_in He. world_simpl_in Hn.
  world_simpl. rewrite Hall. run.
  assert (Hres : forall p, w_procs w1 p = true).
  { intros p. rewrite Hp. now apply procs_all_resolved. }
  rewrite Hres, He, Hsel. run.
  exists evs. eexists. split; [reflexivity|]. split; [|split; [exact Hev|]].
  - change ([EvLock; EvGetCurrentContext] ++ evs
            ++ [EvDesktopTarget (m_uiDesktopId s); EvUnlock])
      with ([EvLock] ++ [EvGetCurrentContext] ++ evs
            ++ [EvDesktopTarget (m_uiDesktopId s)] ++ [EvUnlock]).
    eapply changes_by_app; [apply changes_by_log|].
    eapply changes_by_app; [apply changes_by_log|].
    eapply changes_by_app; [exact Hc|].
    eapply changes_by_app; apply changes_by_log.
  - world_simpl. split; [exact Hres | exact Hn].
Qed.

Lemma initDOPP_desktop_unselectable_witness :
  exists evs w',
    initDOPP 640 480 0 false false (GLDOPPCapture_members 3)
      (constructed_world unplugged_env [] 3)
    = Done RF_STATUS_INVALID_DESKTOP_ID
        (set_m_uiPresentHeight 480 (set_m_uiPresentWidth 640 (GLDOPPCapture_members 3)))
        w'
    /\ changes_by ([EvLock; EvGetCurrentContext] ++ evs
                   ++ [EvDesktopTarget 3; EvUnlock])
         (constructed_world unplugged_env [] 3) w'
    /\ forallb is_get_proc evs = true
    /\ (forall p, w_procs w' p = true)
    /\ w_names w' = w_names (constructed_world unplugged_env [] 3).
Proof.
  apply (initDOPP_desktop_unselectable 640 480 0 false false
           (GLDOPPCapture_members 3) (constructed_world unplugged_env [] 3));
    reflexivity.
Defined.

(** A successful [initDOPP] found the session without a pool. *)
Lemma initDOPP_OK_pool_was_empty pw ph rot track blocking s w s' w' :
  initDOPP pw ph rot track blocking s w = Done RF_STATUS_OK s' w' ->
  m_pFBO s = None /\ m_pTexture s = None.
Proof.
  unfold initDOPP. run.
  destruct (env_glrc (w_env w)) eqn:Eglrc; run; [|other_result].
  destruct (pw <=? 0) eqn:Epw; run; [other_result|].
  destruct (ph <=? 0) eqn:Eph; run; [other_result|].
  step_call Hext. destruct a; run; [|other_result].
  apply setupDOPPExtension_true in Hext as (-> & Hprocs & He1 & _).
  rewrite !Hprocs, !He1. run.
  destruct (env_desktop_target (w_env w) (m_uiDesktopId s)) eqn:Esel; run;
    [|other_result].
  rewrite !Hprocs, !He1. run.
  step_call Heff. destruct a; run; [|other_result].
  apply initEffect_true in Heff as ((sh & bm & ->) & _).
  step_call Hcrt. destruct a; run; [|other_result].
  destruct (createRenderTargets_true_inv _ _ _ _ Hcrt) as [Hf Ht].
  session_simpl_in Hf. session_simpl_in Ht. auto.
Qed.

(** [initDOPP] succeeds only on a session without a render-target pool,
    so it succeeds at most once per session: after a call that returned
    [RF_STATUS_OK] the pool exists, and any further call, with any
    arguments and in any later state of the world, returns a status other
    than [RF_STATUS_OK]. *)
Theorem initDOPP_only_once (pw ph : N) (rot : float) (track blocking : bool)
    (s : GLDOPPCapture) (w : World) (s1 : GLDOPPCapture) (w1 : World) :
  initDOPP pw ph rot track blocking s w = Done RF_STATUS_OK s1 w1 ->
  pool_empty s
  /\ forall pw2 ph2 rot2 track2 blocking2 w2 st s2 w3,
      initDOPP pw2 ph2 rot2 track2 blocking2 s1 w2 = Done st s2 w3 ->
      st <> RF_STATUS_OK.
Proof.
  intros H1. split; [exact (initDOPP_OK_pool_was_empty _ _ _ _ _ _ _ _ _ H1)|].
  intros pw2 ph2 rot2 track2 blocking2 w2 st s2 w3 H2 ->.
  apply initDOPP_OK_inv in H1 as (sa & fbos & texs & live & -> & Hf & _).
  apply initDOPP_OK_pool_was_empty in H2 as [Hf2 _].
  unfold tracking_session in Hf2. session_simpl_in Hf2. congruence.
Qed.

Lemma initDOPP_only_once_witness :
  let o := start good_env [] 3 640 480 false false in
  match initDOPP 800 600 0 false false (started_session o 3) (started_world o) with
  | Done st _ _ => st <> RF_STATUS_OK
  | _ => True
  end.
Proof.
  cbv zeta.
  destruct (initDOPP 800 600 0 false false
              (started_session (start good_env [] 3 640 480 false false) 3)
              (started_world (start good_env [] 3 640 480 false false)))
    as [st s2 w3| |] eqn:E; [|exact I|exact I].
  destruct (initDOPP_only_once 640 480 0 false false (GLDOPPCapture_members 3)
              (constructed_world good_env [] 3)
              (started_session (start good_env [] 3 640 480 false false) 3)
              (started_world (start good_env [] 3 640 480 false false))
              ltac:(vm_compute; reflexivity)) as [_ Honce].
  exact (Honce 800 600 0 false false
           (started_world (start good_env [] 3 640 480 false false)) st s2 w3 E).
Defined.

(** [initDOPP] cannot succeed on a session that holds a render-target
    array, whatever its arguments and the machine. *)
Theorem initDOPP_needs_empty_pool (pw ph : N) (rot : float)
    (track blocking : bool) (s : GLDOPPCapture) (w : World) (st : RFStatus)
    (s' : GLDOPPCapture) (w' : World) :
  m_pFBO s <> None \/ m_pTexture s <> None ->
  initDOPP pw ph rot track blocking s w = Done st s' w' ->
  st <> RF_STATUS_OK.
Proof.
  intros Hpool H ->.
  apply initDOPP_OK_pool_was_empty in H as [Hf Ht].
  destruct Hpool; congruence.
Qed.

(** A failed framebuffer validation is final for the session:
    [initDOPP] returns [RF_STATUS_DOPP_FAIL] with the pool still
    allocated, and the next [initDOPP], on a machine where everything
    works, does not succeed. *)
Lemma initDOPP_needs_empty_pool_witness :
  let o := start incomplete_env [] 3 640 480 false false in
  result_of o = Some RF_STATUS_DOPP_FAIL
  /\ match initDOPP 640 480 0 false false (started_session o 3)
             (set_w_env good_env (started_world o)) with
     | Done st _ _ => st <> RF_STATUS_OK
     | _ => True
     end.
Proof.
  cbv zeta. split; [vm_compute; reflexivity|].
  destruct (initDOPP 640 480 0 false false
              (started_session (start incomplete_env [] 3 640 480 false false) 3)
              (set_w_env good_env
                 (started_world (start incomplete_env [] 3 640 480 false false))))
    as [st s2 w3| |] eqn:E; [|exact I|exact I].
  refine (initDOPP_needs_empty_pool 640 480 0 false false
            (started_session (start incomplete_env [] 3 640 480 false false) 3)
            (set_w_env good_env
               (started_world (start incomplete_env [] 3 640 480 false false)))
            st s2 w3 _ E).
  left. vm_compute. discriminate.
Defined.

(** ** [processDesktop]: what it leaves behind *)

Lemma processDesktop_render_session idx s w s' w' :
  processDesktop_render idx s w = Done tt s' w' ->
  s' = set_m_bDesktopChanged false s.
Proof.
  unfold processDesktop_render. run.
  destruct (m_pFBO s) as [l|]; [|discriminate].
  destruct (l !! N.to_nat idx); [|discriminate]. run.
  destruct (w_procs w P_wglDesktopTargetAMD); [|discriminate]. run.
  destruct (m_pShader s) eqn:Esh; [|discriminate]. run. rewrite ?Esh. run.
  destruct (env_viewport (w_env w)) as [[[x y] vw] vh]. run.
  unfold gl. intros H. inversion H. reflexivity.
Qed.

Lemma render_then_true_session idx s w b s' w' :
  bind (processDesktop_render idx) (fun _ => ret true) s w = Done b s' w' ->
  b = true /\ s' = set_m_bDesktopChanged false s.
Proof.
  intros (u & s1 & w1 & Hr & H)%bind_Done_inv. destruct u.
  apply processDesktop_render_session in Hr. inversion H; subst. auto.
Qed.

(** [processDesktop] changes nothing in the session but the changed
    flag: after a [true] return the session is the old one with
    [m_bDesktopChanged] cleared, after a [false] return it is the old one.
    So in tracked non-blocking mode a call right after a composite returns
    [false] without doing anything, whatever the slot, until the flag is
    set again: one composite per signaled change. *)
Theorem processDesktop_once_per_change (idx : N) (s : GLDOPPCapture) (w : World)
    (b : bool) (s' : GLDOPPCapture) (w' : World) :
  processDesktop idx s w = Done b s' w' ->
  s' = (if b then set_m_bDesktopChanged false s else s)
  /\ (b = true -> m_bTrackDesktopChanges s = true -> m_bBlocking s = false ->
      forall idx2 w2, processDesktop idx2 s' w2 = Done false s' w2).
Proof.
  intros H.
  assert (Hs : s' = if b then set_m_bDesktopChanged false s else s).
  { rewrite processDesktop_cases in H. cbv zeta in H.
    destruct (m_bTrackDesktopChanges s).
    - destruct (m_bBlocking s).
      + destruct (WaitForMultipleObjects s w) as [r s1 w1| |] eqn:Hw;
          [|discriminate..].
        apply WaitForMultipleObjects_frame in Hw as (-> & _).
        destruct (dword_sub r WAIT_OBJECT_0 =? 1)%Z.
        * inversion H. reflexivity.
        * apply render_then_true_session in H as [-> ->]. reflexivity.
      + destruct (m_bDesktopChanged s).
        * apply render_then_true_session in H as [-> ->]. reflexivity.
        * inversion H. reflexivity.
    - apply render_then_true_session in H as [-> ->]. reflexivity. }
  split; [exact Hs|].
  intros -> Htrack Hblock idx2 w2. subst s'.
  rewrite processDesktop_cases. cbv zeta. session_simpl.
  rewrite Htrack, Hblock. reflexivity.
Qed.

Lemma processDesktop_once_per_change_witness :
  let o := start good_env [] 3 640 480 true false in
  let s := set_m_bDesktopChanged true (started_session o 3) in
  result_of (processDesktop 0 s (started_world o)) = Some true
  /\ match processDesktop 0 s (started_world o) with
     | Done _ s' w' => processDesktop 1 s' w' = Done false s' w'
     | _ => False
     end.
Proof.
  cbv zeta. split; [vm_compute; reflexivity|].
  destruct (processDesktop 0
              (set_m_bDesktopChanged true
                 (started_session (start good_env [] 3 640 480 true false) 3))
              (started_world (start good_env [] 3 640 480 true false)))
    as [b s' w'| |] eqn:E;
    [|exfalso; revert E; vm_compute; discriminate..].
  assert (Hb : b = true)
    by (generalize E; vm_compute; intros HH; inversion HH; reflexivity).
  destruct (processDesktop_once_per_change _ _ _ _ _ _ E) as [_ Honce].
  apply Honce; [exact Hb | reflexivity | reflexivity].
Defined.

(** ** [releaseEvent] *)



(** ** The notification loop *)

Lemma notificationLoop_turn_inv s w u s' w' :
  notificationLoop_turn WaitForMultipleObjects s w = Done u s' w' ->
  m_bTrackDesktopChanges s' = m_bTrackDesktopChanges s.
Proof.
  unfold notificationLoop_turn.
  intros (r & s1 & w1 & Hw & H)%bind_Done_inv.
  apply WaitForMultipleObjects_frame in Hw as (-> & _).
  destruct (dword_sub r WAIT_OBJECT_0 =? 0)%Z; inversion H; reflexivity.
Qed.

Lemma notificationLoop_turn_no_fault s w :
  notificationLoop_turn WaitForMultipleObjects s w <> Fault.
Proof.
  unfold notificationLoop_turn, bind.
  pose proof (WaitForMultipleObjects_no_fault s w) as Hnf.
  destruct (WaitForMultipleObjects s w) as [r s1 w1| |]; [|congruence|discriminate].
  destruct (dword_sub r WAIT_OBJECT_0 =? 0)%Z; discriminate.
Qed.

Lemma notificationLoop_turns_tracking fuel :
  forall s w, m_bTrackDesktopChanges s = true ->
              notificationLoop_turns fuel s w = Blocked.
Proof.
  induction fuel as [|k IH]; intros s w Hflag; cbn [notificationLoop_turns];
    rewrite bind_this, Hflag; [reflexivity|].
  unfold bind at 1.
  pose proof (notificationLoop_turn_no_fault s w) as Hnf.
  destruct (notificationLoop_turn WaitForMultipleObjects s w) as [u s1 w1| |] eqn:E;
    [|congruence|reflexivity].
  apply IH. rewrite (notificationLoop_turn_inv _ _ _ _ _ E). exact Hflag.
Qed.

(** The loop of the notification thread leaves only through its test:
    with the tracking flag cleared it returns at once and changes nothing;
    with the flag set it does not return by itself, however many wake-ups
    it gets, since it never writes the flag. *)
Theorem notificationLoop_outcome (s : GLDOPPCapture) (w : World) :
  notificationLoop s w
  = if m_bTrackDesktopChanges s then Blocked else Done tt s w.
Proof.
  destruct (m_bTrackDesktopChanges s) eqn:E.
  - apply notificationLoop_turns_tracking. exact E.
  - apply notificationLoop_exits_when_cleared. exact E.
Qed.


(** ** The constructor *)

(** The constructor throws without a driver interface, before any call.
    With one it queries the DOPP state, enables DOPP only when it was off,
    and throws when it is still off after that.  Otherwise the session is
    the member initialiser list: two targets, no pool, no shader, no
    events, no thread, the changed flag stored as [false]. *)
Theorem GLDOPPCapture_ctor_outcome (uiDesktop : N) (w : World) :
  GLDOPPCapture_ctor uiDesktop false w = Thrown "DOPP no driver ineterface" w
  /\ (w_dopp_state w = true ->
      GLDOPPCapture_ctor uiDesktop true w
      = Built (GLDOPPCapture_members uiDesktop)
          (log (EvStoreChanged false) (log EvGetDoppState w)))
  /\ (w_dopp_state w = false ->
      exists w',
        emits w w' [EvGetDoppState; EvEnableDopp; EvGetDoppState]
        /\ w_dopp_state w' = env_enable_dopp (w_env w)
        /\ GLDOPPCapture_ctor uiDesktop true w
           = if env_enable_dopp (w_env w)
             then Built (GLDOPPCapture_members uiDesktop)
                    (log (EvStoreChanged false) w')
             else Thrown "DOPP not enabled" w')
  /\ pool_empty (GLDOPPCapture_members uiDesktop)
  /\ m_uiNumTargets (GLDOPPCapture_members uiDesktop) = 2
  /\ m_NotificationThread (GLDOPPCapture_members uiDesktop) = false
  /\ m_hDesktopEvent (GLDOPPCapture_members uiDesktop) = (NULL, NULL).
Proof.
  split; [reflexivity|]. split; [|split].
  - intros H. unfold GLDOPPCapture_ctor. cbn [negb]. world_simpl.
    rewrite H. reflexivity.
  - intros H. unfold GLDOPPCapture_ctor. cbn [negb]. world_simpl.
    rewrite H. cbn [negb].
    exists (log EvGetDoppState
              (log EvEnableDopp
                 (set_w_dopp_state (env_enable_dopp (w_env w))
                    (log EvGetDoppState w)))).
    split; [reflexivity|]. split; [reflexivity|].
    destruct (env_enable_dopp (w_env w)); reflexivity.
  - repeat split.
Qed.

(** ** [getFramebufferTex] *)

(** On a session whose pool is empty or allocated, [getFramebufferTex]
    always returns and changes nothing; it returns 0 for a slot at or
    beyond the target count and when there is no pool, and the stored
    texture name otherwise. *)
Theorem getFramebufferTex_total (idx : N) (s : GLDOPPCapture) (w : World) :
  pool_shape s ->
  exists tex,
    getFramebufferTex idx s w = Done tex s w
    /\ (m_uiNumTargets s <= idx \/ pool_empty s -> tex = 0)
    /\ (idx < m_uiNumTargets s ->
        forall texs, m_pTexture s = Some texs -> texs !! N.to_nat idx = Some tex).
Proof.
  intros [[Hf Ht] | (fbos & texs & Hf & Ht & Hlf & Hlt)].
  - exists 0. rewrite getFramebufferTex_no_pool by exact Ht.
    split; [reflexivity|]. split; [reflexivity|]. intros _ texs H. congruence.
  - destruct (N.lt_ge_cases idx (m_uiNumTargets s)) as [Hin | Hge].
    + destruct (lookup_lt_is_Some_2 texs (N.to_nat idx)) as [tex Hlk]; [lia|].
      exists tex.
      rewrite (getFramebufferTex_stored idx tex texs s w Ht Hlt Hlk).
      split; [reflexivity|]. split.
      * intros [H | [_ H]]; [lia | congruence].
      * intros _ texs' H. congruence.
    + exists 0. rewrite getFramebufferTex_out_of_range by exact Hge.
      split; [reflexivity|]. split; [reflexivity|]. intros H. lia.
Qed.

Lemma getFramebufferTex_total_witness :
  let o := start good_env [] 3 640 480 false false in
  exists tex,
    getFramebufferTex 7 (started_session o 3) (started_world o)
    = Done tex (started_session o 3) (started_world o)
    /\ tex = 0.
Proof.
  cbv zeta.
  destruct (getFramebufferTex_total 7
              (started_session (start good_env [] 3 640 480 false false) 3)
              (started_world (start good_env [] 3 640 480 false false)))
    as (tex & Hrun & Hzero & _).
  - right. eexists _, _. vm_compute. repeat split.
  - exists tex. split; [exact Hrun|]. apply Hzero. left. vm_compute. discriminate.
Defined.

(** ** [resizePresentTexture] and [resizeDesktopTexture]: calls and lock *)

Lemma resizePresentTexture_emits pw ph :
  emits_only is_gl (resizePresentTexture pw ph).
Proof. unfold resizePresentTexture. eo. apply createRenderTargets_emits. Qed.

(** [resizePresentTexture] makes GL calls and nothing else: it does not
    take the global DOPP lock (unlike [resizeDesktopTexture] and
    [processDesktop]), does not talk to the driver, and leaves events and
    thread alone. *)
Theorem resizePresentTexture_gl_only (pw ph : N) (s : GLDOPPCapture) (w : World)
    (st : RFStatus) (s' : GLDOPPCapture) (w' : World) :
  resizePresentTexture pw ph s w = Done st s' w' ->
  exists evs,
    changes_by evs w w'
    /\ forallb is_gl evs = true
    /\ forallb (fun e => negb (is_lock e)) evs = true
    /\ w_signaled w' = w_signaled w /\ w_parked w' = w_parked w
    /\ w_procs w' = w_procs w.
Proof.
  intros H. destruct (resizePresentTexture_emits pw ph _ _ _ _ _ H) as (evs & Hc & Hgl).
  exists evs. split; [exact Hc|]. split; [exact Hgl|].
  assert (Hall : forall P : Event -> bool,
             (forall e, is_gl e = true -> P e = true) -> forallb P evs = true).
  { intros P HP. apply forallb_forall. intros e He. apply HP.
    rewrite forallb_forall in Hgl. now apply Hgl. }
  split; [apply Hall; intros e; destruct e; (reflexivity || discriminate)|].
  destruct Hc as (_ & _ & _ & Hp & _ & _ & Hy & Hk).
  split; [apply Hy|split; [apply Hk|apply Hp]];
    apply Hall; intros e; destruct e; (reflexivity || discriminate).
Qed.

Lemma resizePresentTexture_gl_only_witness :
  let o := start good_env [] 3 640 480 true false in
  exists evs w',
    result_of (resizePresentTexture 800 600 (started_session o 3) (started_world o))
    = Some RF_STATUS_OK
    /\ changes_by evs (started_world o) w'
    /\ forallb is_gl evs = true
    /\ w_parked w' = Some (40, 44).
Proof.
  cbv zeta.
  destruct (resizePresentTexture 800 600
              (started_session (start good_env [] 3 640 480 true false) 3)
              (started_world (start good_env [] 3 640 480 true false)))
    as [st s' w'| |] eqn:E;
    [|exfalso; revert E; vm_compute; discriminate..].
  destruct (resizePresentTexture_gl_only _ _ _ _ _ _ _ E)
    as (evs & Hc & Hgl & _ & _ & Hk & _).
  exists evs, w'. split.
  - generalize E. vm_compute. intros HH. inversion HH. reflexivity.
  - split; [exact Hc|]. split; [exact Hgl|]. rewrite Hk. reflexivity.
Defined.

(** [resizeDesktopTexture] for a desktop id above 0 holds the global DOPP
    lock over all it does, on every return path: the lock is taken first
    and released last, and in between only GL calls and the two desktop
    entry points are called. *)
Theorem resizeDesktopTexture_lock_balanced (s : GLDOPPCapture) (w : World)
    (st : RFStatus) (s' : GLDOPPCapture) (w' : World) :
  0 < m_uiDesktopId s ->
  resizeDesktopTexture s w = Done st s' w' ->
  exists evs,
    changes_by ([EvLock] ++ evs ++ [EvUnlock]) w w'
    /\ forallb is_desktop_call evs = true.
Proof.
  intros Hid. apply N.ltb_lt in Hid.
  unfold resizeDesktopTexture. rewrite bind_this, Hid.
  unfold RFReadWriteAccess. intros H.
  apply bind_Done_inv in H as (u & s1 & w1 & Hlock & H).
  apply bind_Done_inv in H as (r & s2 & w2 & Hbody & H).
  inversion Hlock; subst u s1 w1; clear Hlock.
  inversion H; subst st s' w'; clear H.
  assert (Hq : exists evs, changes_by evs (log EvLock w) w2
                           /\ forallb is_desktop_call evs = true).
  { revert Hbody. generalize (log EvLock w). intros w0 Hbody.
    eapply (fun Heo => Heo s w0 r s2 w2 Hbody). clear.
    match goal with
    | |- forall x x0 x1 x2 x3, ?m x x0 = Done x1 x2 x3 -> _ =>
        change (emits_only is_desktop_call m)
    end.
    eo. }
  destruct Hq as (evs & Hc & Hp). exists evs. split; [|exact Hp].
  eapply changes_by_app; [apply changes_by_log|].
  eapply changes_by_app; [exact Hc | apply changes_by_log].
Qed.

Lemma resizeDesktopTexture_lock_balanced_witness :
  let o := start good_env [] 3 640 480 false false in
  exists evs w',
    result_of (resizeDesktopTexture (started_session o 3) (started_world o))
    = Some RF_STATUS_OK
    /\ changes_by ([EvLock] ++ evs ++ [EvUnlock]) (started_world o) w'
    /\ forallb is_desktop_call evs = true.
Proof.
  cbv zeta.
  destruct (resizeDesktopTexture
              (started_session (start good_env [] 3 640 480 false false) 3)
              (started_world (start good_env [] 3 640 480 false false)))
    as [st s' w'| |] eqn:E;
    [|exfalso; revert E; vm_compute; discriminate..].
  destruct (resizeDesktopTexture_lock_balanced
              (started_session (start good_env [] 3 640 480 false false) 3)
              (started_world (start good_env [] 3 640 480 false false)) st s' w')
    as (evs & Hc & Hp); [vm_compute; reflexivity | exact E |].
  exists evs, w'. split.
  - generalize E. vm_compute. intros HH. inversion HH. reflexivity.
  - split; assumption.
Defined.

(** A successful [resizeDesktopTexture]: the old capture texture is
    deleted first when there is one, the desktop is selected, the new
    capture texture and its size as GL reports it are stored (read back
    as unsigned), and the texture is left unbound. *)
Theorem resizeDesktopTexture_acquires (s : GLDOPPCapture) (w : World) :
  0 < m_uiDesktopId s ->
  w_procs w P_wglDesktopTargetAMD = true ->
  w_procs w P_wglGetDesktopTextureAMD = true ->
  env_desktop_target (w_env w) (m_uiDesktopId s) = true ->
  exists w',
    resizeDesktopTexture s w
    = Done RF_STATUS_OK
        (set_m_uiDesktopHeight (GLint_as_uint (env_tex_height (w_env w)))
           (set_m_uiDesktopWidth (GLint_as_uint (env_tex_width (w_env w)))
              (set_m_uiDesktopTexture (env_desktop_texture (w_env w)) s)))
        w'
    /\ emits w w'
         ([EvLock]
          ++ (if nonzero (m_uiDesktopTexture s)
              then [EvGL (glDeleteTextures [m_uiDesktopTexture s])] else [])
          ++ [EvDesktopTarget (m_uiDesktopId s);
              EvGetDesktopTexture;
              EvGL (glBindTexture (env_desktop_texture (w_env w)));
              EvGL (glTexParameterf GL_TEXTURE_MAG_FILTER GL_LINEAR);
              EvGL (glTexParameterf GL_TEXTURE_MIN_FILTER GL_LINEAR);
              EvGL (glTexParameterf GL_TEXTURE_WRAP_S GL_CLAMP_TO_EDGE);
              EvGL (glTexParameterf GL_TEXTURE_WRAP_T GL_CLAMP_TO_EDGE);
              EvGL (glGetTexLevelParameteriv GL_TEXTURE_WIDTH);
              EvGL (glGetTexLevelParameteriv GL_TEXTURE_HEIGHT);
              EvGL (glBindTexture 0);
              EvUnlock]).
Proof.
  intros Hid Hp1 Hp2 Hsel. apply N.ltb_lt in Hid.
  unfold resizeDesktopTexture. rewrite bind_this, Hid.
  unfold_prims. cbn.
  destruct (nonzero (m_uiDesktopTexture s)); cbn; rewrite Hp1; cbn;
    rewrite Hsel; cbn; rewrite Hp2; cbn;
    eexists; (split; [reflexivity|]); reflexivity.
Qed.

Lemma resizeDesktopTexture_acquires_witness :
  let o := start good_env [] 3 640 480 false false in
  exists s' w',
    resizeDesktopTexture (started_session o 3) (started_world o)
    = Done RF_STATUS_OK s' w'
    /\ m_uiDesktopTexture s' = 77
    /\ m_uiDesktopWidth s' = 1920 /\ m_uiDesktopHeight s' = 1080.
Proof.
  cbv zeta.
  destruct (resizeDesktopTexture_acquires
              (started_session (start good_env [] 3 640 480 false false) 3)
              (started_world (start good_env [] 3 640 480 false false)))
    as (w' & Hrun & _); [reflexivity..|].
  eexists _, w'. split; [exact Hrun|]. vm_compute. repeat split.
Defined.

(** ** Unsigned sizes passed as [GLsizei] *)


(** [initDOPP] accepts every non-zero present size, so also one that does
    not fit a [GLsizei]: [processDesktop] then sets a viewport of negative
    width. *)
Theorem processDesktop_viewport_wraps (idx : N) (s : GLDOPPCapture) (w : World) :
  initialised s w = true ->
  m_bTrackDesktopChanges s = false ->
  m_uiPresentWidth s = 4294967295 ->
  exists w',
    processDesktop idx s w = Done true (set_m_bDesktopChanged false s) w'
    /\ In (EvGL (glViewport 0 0 (-1) (uint_as_int (m_uiPresentHeight s))))
         (w_trace w').
Proof.
  intros Hi Htrack Hw.
  rewrite processDesktop_cases, Htrack. cbv zeta.
  destruct (render_then_true s w idx Hi) as (w' & Hr & fbos & fbo & _ & _ & Hem & _).
  exists w'. split; [exact Hr|].
  unfold emits in Hem. rewrite Hem. apply in_or_app. left.
  apply -> in_rev. unfold render_calls. rewrite Hw.
  change (uint_as_int 4294967295) with (-1)%Z.
  cbn [In]. auto 10.
Qed.

Lemma processDesktop_viewport_wraps_witness :
  let o := start good_env [] 3 4294967295 480 false false in
  result_of o = Some RF_STATUS_OK
  /\ exists w',
      processDesktop 0 (started_session o 3) (started_world o)
      = Done true (set_m_bDesktopChanged false (started_session o 3)) w'
      /\ In (EvGL (glViewport 0 0 (-1) 480)) (w_trace w').
Proof.
  cbv zeta. split; [vm_compute; reflexivity|].
  apply (processDesktop_viewport_wraps 0
           (started_session (start good_env [] 3 4294967295 480 false false) 3)
           (started_world (start good_env [] 3 4294967295 480 false false)));
    vm_compute; reflexivity.
Defined.

(** ** [createQuad] *)

(** [createQuad] generates one vertex-array name and one buffer name,
    both fresh and not zero, stores them in the session, fills the buffer
    with the rotated quad and leaves buffer and vertex array unbound; it
    touches no texture or framebuffer name. *)
Theorem createQuad_names (rot : float) (s : GLDOPPCapture) (w : World) :
  let va := max_name (w_names w VertexArray) + 1 in
  let vb := max_name (w_names w Buffer) + 1 in
  exists w',
    createQuad rot s w
    = Done tt (set_m_uiVertexBuffer vb (set_m_uiVertexArray va s)) w'
    /\ emits w w' (quad_calls rot va vb)
    /\ va <> 0 /\ vb <> 0
    /\ (va ∉ w_names w VertexArray) /\ (vb ∉ w_names w Buffer)
    /\ w_names w' VertexArray = va :: w_names w VertexArray
    /\ w_names w' Buffer = vb :: w_names w Buffer
    /\ w_names w' Texture = w_names w Texture
    /\ w_names w' Framebuffer = w_names w Framebuffer.
Proof.
  cbv zeta. unfold createQuad. run.
  change (fresh_names (w_names w VertexArray) 1)
    with [max_name (w_names w VertexArray) + 1 + 0].
  rewrite !(override_ne _ VertexArray _ Buffer) by discriminate.
  change (fresh_names (w_names w Buffer) 1)
    with [max_name (w_names w Buffer) + 1 + 0].
  rewrite !N.add_0_r. cbn [head default].
  eexists. split; [reflexivity|]. split; [reflexivity|].
  split; [lia|]. split; [lia|].
  split; [intros H%max_name_ge; lia|]. split; [intros H%max_name_ge; lia|].
  world_simpl.
  repeat first [rewrite override_eq | rewrite override_ne by discriminate].
  repeat split.
Qed.

(** ** The destructor and the thread *)

Lemma destructor_after_initDOPP_witness :
  let o := start good_env [] 3 640 480 true false in
  exists pre w1 s' w',
    GLDOPPCapture_dtor (started_session o 3) (started_world o) = Done tt s' w'
    /\ emits (started_world o) w1 pre
    /\ forallb (fun e => negb (is_teardown_call e)) pre = true
    /\ emits w1 w'
         [EvStoreTrack false; EvSetEvent 40; EvSleep 0; EvCloseHandle 44;
          EvWait 40 44; EvStoreChanged true;
          EvThreadJoin; EvDeleteDOPPEvent 40]
    /\ m_NotificationThread s' = false.
Proof.
  cbv zeta.
  apply (destructor_after_initDOPP 640 480 0 true false
           (GLDOPPCapture_members 3) (constructed_world good_env [] 3)
           (started_session (start good_env [] 3 640 480 true false) 3)
           (started_world (start good_env [] 3 640 480 true false)));
    vm_compute; reflexivity.
Defined.


(** ** The thread belongs to the session for all its life *)

Section SessionKeeps.
Context {B : Type} (f : GLDOPPCapture -> B).

Lemma sk_same {A} (m : M A) :
  (forall s w a s' w', m s w = Done a s' w' -> s' = s) -> session_keeps f m.
Proof. intros H s w a s' w' E. now rewrite (H _ _ _ _ _ E). Qed.

Lemma sk_ret {A} (a : A) : session_keeps f (ret a).
Proof. apply sk_same. intros s w a' s' w' H. now inversion H. Qed.

Lemma sk_this {A} (g : GLDOPPCapture -> A) : session_keeps f (this g).
Proof. apply sk_same. intros s w a' s' w' H. now inversion H. Qed.

Lemma sk_env {A} (g : Env -> A) : session_keeps f (env g).
Proof. apply sk_same. intros s w a' s' w' H. now inversion H. Qed.

Lemma sk_emit e : session_keeps f (emit e).
Proof. apply sk_same. intros s w a' s' w' H. now inversion H. Qed.

Lemma sk_gl c : session_keeps f (gl c).
Proof. apply sk_same. intros s w a' s' w' H. now inversion H. Qed.

Lemma sk_glGen o n : session_keeps f (glGen o n).
Proof. apply sk_same. intros s w a' s' w' H. now inversion H. Qed.

Lemma sk_glFramebufferComplete : session_keeps f glFramebufferComplete.
Proof. apply sk_same. intros s w a' s' w' H. now inversion H. Qed.

Lemma sk_through p : session_keeps f (through p).
Proof.
  apply sk_same. intros s w a' s' w' H. unfold through in H.
  destruct (w_procs w p); now inversion H.
Qed.

Lemma sk_shader c : session_keeps f (shader c).
Proof.
  apply sk_same. intros s w a' s' w' H. unfold shader in H.
  destruct (m_pShader s); now inversion H.
Qed.

Lemma sk_array_read arr i : session_keeps f (array_read arr i).
Proof.
  apply sk_same. intros s w a' s' w' H. unfold array_read in H.
  destruct (arr s) as [l|]; [|discriminate].
  destruct (l !! N.to_nat i); now inversion H.
Qed.

Lemma sk_SetEvent h : session_keeps f (SetEvent h).
Proof. apply sk_same. intros s w a' s' w' H. now inversion H. Qed.

Lemma sk_WaitForMultipleObjects : session_keeps f WaitForMultipleObjects.
Proof.
  apply sk_same. intros s w a' s' w' H.
  now apply WaitForMultipleObjects_frame in H as (-> & _).
Qed.

Lemma sk_assign upd : (forall s, f (upd s) = f s) -> session_keeps f (assign upd).
Proof. intros Hupd s w a' s' w' H. inversion H; subst. apply Hupd. Qed.

Lemma sk_bind {A C} (m : M A) (k : A -> M C) :
  session_keeps f m -> (forall a, session_keeps f (k a)) ->
  session_keeps f (bind m k).
Proof.
  intros Hm Hk s w b s' w' H. unfold bind in H.
  destruct (m s w) as [a s1 w1| |] eqn:E; try discriminate.
  rewrite (Hk a _ _ _ _ _ H). exact (Hm _ _ _ _ _ E).
Qed.

Lemma sk_if {A} (c : bool) (a b : M A) :
  session_keeps f a -> session_keeps f b -> session_keeps f (if c then a else b).
Proof. destruct c; auto. Qed.
End SessionKeeps.

Ltac sk_step :=
  match goal with
  | |- session_keeps _ (bind _ _) => apply sk_bind; [|intros ?]
  | |- session_keeps _ (ret _) => apply sk_ret
  | |- session_keeps _ (this _) => apply sk_this
  | |- session_keeps _ (assign _) => apply sk_assign; intros ?; reflexivity
  | |- session_keeps _ (env _) => apply sk_env
  | |- session_keeps _ (emit _) => apply sk_emit
  | |- session_keeps _ (gl _) => apply sk_gl
  | |- session_keeps _ (glGen _ _) => apply sk_glGen
  | |- session_keeps _ glFramebufferComplete => apply sk_glFramebufferComplete
  | |- session_keeps _ (through _) => apply sk_through
  | |- session_keeps _ (shader _) => apply sk_shader
  | |- session_keeps _ (array_read _ _) => apply sk_array_read
  | |- session_keeps _ (SetEvent _) => apply sk_SetEvent
  | |- session_keeps _ WaitForMultipleObjects => apply sk_WaitForMultipleObjects
  | |- session_keeps _ (if _ then _ else _) => apply sk_if
  | |- session_keeps _ (match ?o with Some _ => _ | None => _ end) => destruct o
  | |- context [let (_, _) := ?p in _] => destruct p
  end.

Ltac sk :=
  unfold RFReadWriteAccess, glGetTexLevelParameter, glGetViewport,
    linear_clamped, wglGetCurrentContext, wglDesktopTargetAMD,
    wglGetDesktopTextureAMD, Sleep, store_m_bDesktopChanged, first_targets;
  repeat sk_step.

(** The calls a client can make on an initialised session: no entry
    point is looked up and the thread is neither started nor joined. *)
Ltac client_calls :=
  let e := fresh "e" in intros e; destruct e; (reflexivity || discriminate).

Lemma createRenderTargets_loop_keeps {B} (f : GLDOPPCapture -> B) idxs acc :
  session_keeps f (createRenderTargets_loop idxs acc).
Proof.
  revert acc. induction idxs as [|i rest IH]; intros acc;
    cbn [createRenderTargets_loop]; sk. apply IH.
Qed.

(** What a client's call leaves as it is: the thread handle, the two
    event handles, the resolved entry points and the place of the
    thread. *)
Lemma client_call_keeps {A} (m : M A) :
  session_keeps m_NotificationThread m ->
  session_keeps m_hDesktopEvent m ->
  emits_only (fun e => negb (is_thread_call e) && negb (is_get_proc e)) m ->
  forall s w a s' w',
    m s w = Done a s' w' ->
    m_NotificationThread s' = m_NotificationThread s
    /\ m_hDesktopEvent s' = m_hDesktopEvent s
    /\ w_parked w' = w_parked w /\ w_procs w' = w_procs w.
Proof.
  intros Hth Hev Heo s w a s' w' H.
  split; [exact (Hth _ _ _ _ _ H)|]. split; [exact (Hev _ _ _ _ _ H)|].
  destruct (Heo _ _ _ _ _ H) as (evs & (_ & _ & _ & Hp & _ & _ & _ & Hk) & Hall).
  assert (Hboth : forall e, In e evs ->
                            is_thread_call e = false /\ is_get_proc e = false).
  { intros e He. rewrite forallb_forall in Hall. specialize (Hall e He).
    apply andb_prop in Hall as [H1 H2].
    split; [now destruct (is_thread_call e) | now destruct (is_get_proc e)]. }
  split; [apply Hk | apply Hp]; apply forallb_forall; intros e He;
    destruct (Hboth e He) as [H1 H2]; [now rewrite H1 | now rewrite H2].
Qed.

Lemma processDesktop_client idx :
  session_keeps m_NotificationThread (processDesktop idx)
  /\ session_keeps m_hDesktopEvent (processDesktop idx)
  /\ emits_only (fun e => negb (is_thread_call e) && negb (is_get_proc e))
       (processDesktop idx).
Proof.
  unfold processDesktop, processDesktop_render. split; [|split]; [sk | sk | eo].
Qed.

Lemma resizeDesktopTexture_client :
  session_keeps m_NotificationThread resizeDesktopTexture
  /\ session_keeps m_hDesktopEvent resizeDesktopTexture
  /\ emits_only (fun e => negb (is_thread_call e) && negb (is_get_proc e))
       resizeDesktopTexture.
Proof. unfold resizeDesktopTexture. split; [|split]; [sk | sk | eo]. Qed.

Lemma createRenderTargets_keeps {B} (f : GLDOPPCapture -> B) :
  (forall v s, f (set_m_pFBO v s) = f s) ->
  (forall v s, f (set_m_pTexture v s) = f s) ->
  session_keeps f createRenderTargets.
Proof.
  intros Hf Ht. unfold createRenderTargets.
  repeat first [ apply sk_assign; intros ?; first [apply Hf | apply Ht]
               | apply createRenderTargets_loop_keeps
               | sk_step ].
Qed.

Lemma resizePresentTexture_client pw ph :
  session_keeps m_NotificationThread (resizePresentTexture pw ph)
  /\ session_keeps m_hDesktopEvent (resizePresentTexture pw ph)
  /\ emits_only (fun e => negb (is_thread_call e) && negb (is_get_proc e))
       (resizePresentTexture pw ph).
Proof.
  unfold resizePresentTexture. split; [|split].
  - sk. apply createRenderTargets_keeps; reflexivity.
  - sk. apply createRenderTargets_keeps; reflexivity.
  - eo. eo_sub createRenderTargets_emits.
Qed.

Lemma releaseEvent_client :
  session_keeps m_NotificationThread releaseEvent
  /\ session_keeps m_hDesktopEvent releaseEvent
  /\ emits_only (fun e => negb (is_thread_call e) && negb (is_get_proc e))
       releaseEvent.
Proof. unfold releaseEvent. split; [|split]; [sk | sk | eo]. Qed.

Lemma getFramebufferTex_client idx :
  session_keeps m_NotificationThread (getFramebufferTex idx)
  /\ session_keeps m_hDesktopEvent (getFramebufferTex idx)
  /\ emits_only (fun e => negb (is_thread_call e) && negb (is_get_proc e))
       (getFramebufferTex idx).
Proof. unfold getFramebufferTex. split; [|split]; [sk | sk | eo]. Qed.

Lemma session_used_keeps s w s' w' :
  session_used s w s' w' ->
  m_NotificationThread s' = m_NotificationThread s
  /\ m_hDesktopEvent s' = m_hDesktopEvent s
  /\ w_parked w' = w_parked w /\ w_procs w' = w_procs w.
Proof.
  induction 1 as [| idx b s1 w1 s2 w2 _ IH H
                  | st s1 w1 s2 w2 _ IH H
                  | pw ph st s1 w1 s2 w2 _ IH H
                  | b s1 w1 s2 w2 _ IH H
                  | idx tex s1 w1 s2 w2 _ IH H ];
    [repeat split | | | | | ];
    destruct IH as (I1 & I2 & I3 & I4).
  - destruct (processDesktop_client idx) as (K1 & K2 & K3).
    destruct (client_call_keeps _ K1 K2 K3 _ _ _ _ _ H) as (J1 & J2 & J3 & J4).
    repeat split; congruence.
  - destruct resizeDesktopTexture_client as (K1 & K2 & K3).
    destruct (client_call_keeps _ K1 K2 K3 _ _ _ _ _ H) as (J1 & J2 & J3 & J4).
    repeat split; congruence.
  - destruct (resizePresentTexture_client pw ph) as (K1 & K2 & K3).
    destruct (client_call_keeps _ K1 K2 K3 _ _ _ _ _ H) as (J1 & J2 & J3 & J4).
    repeat split; congruence.
  - destruct releaseEvent_client as (K1 & K2 & K3).
    destruct (client_call_keeps _ K1 K2 K3 _ _ _ _ _ H) as (J1 & J2 & J3 & J4).
    repeat split; congruence.
  - destruct (getFramebufferTex_client idx) as (K1 & K2 & K3).
    destruct (client_call_keeps _ K1 K2 K3 _ _ _ _ _ H) as (J1 & J2 & J3 & J4).
    repeat split; congruence.
Qed.

(** Whatever a client does with a session between [initDOPP] and the
    destructor (composites, resizes, releases, texture queries, in any
    number and order), the thread stays this session's and the extension
    entry points stay resolved. *)
Theorem thread_of_session_kept (s : GLDOPPCapture) (w : World)
    (s' : GLDOPPCapture) (w' : World) :
  session_used s w s' w' ->
  (thread_of_session s w -> thread_of_session s' w')
  /\ w_procs w' = w_procs w
  /\ m_NotificationThread s' = m_NotificationThread s
  /\ m_hDesktopEvent s' = m_hDesktopEvent s.
Proof.
  intros (H1 & H2 & H3 & H4)%session_used_keeps.
  split; [|auto]. unfold thread_of_session, hDesktopEvent0.
  rewrite H1, H2, H3. auto.
Qed.

Lemma thread_of_session_kept_witness :
  let o := start good_env [] 3 640 480 true false in
  let s := set_m_bDesktopChanged true (started_session o 3) in
  match processDesktop 1 s (started_world o) with
  | Done _ s' w' =>
      m_NotificationThread s' = true /\ m_hDesktopEvent s' = (40, 44)
      /\ w_procs w' = w_procs (started_world o)
  | _ => False
  end.
Proof.
  cbv zeta.
  destruct (processDesktop 1
              (set_m_bDesktopChanged true
                 (started_session (start good_env [] 3 640 480 true false) 3))
              (started_world (start good_env [] 3 640 480 true false)))
    as [b s' w'| |] eqn:E;
    [|exfalso; revert E; vm_compute; discriminate..].
  destruct (thread_of_session_kept
              (set_m_bDesktopChanged true
                 (started_session (start good_env [] 3 640 480 true false) 3))
              (started_world (start good_env [] 3 640 480 true false)) s' w')
    as (_ & Hp & Hth & Hev).
  - eapply used_processDesktop; [apply used_not | exact E].
  - rewrite Hth, Hev, Hp. repeat split.
Defined.

(** The destructor of a session that was initialised once and then used
    returns: it neither dies on the extension entry point nor waits for
    ever in the join. *)
Theorem destructor_after_use (pw ph : N) (rot : float) (track blocking : bool)
    (s : GLDOPPCapture) (w : World) (s1 : GLDOPPCapture) (w1 : World)
    (s2 : GLDOPPCapture) (w2 : World) :
  initDOPP pw ph rot track blocking s w = Done RF_STATUS_OK s1 w1 ->
  m_NotificationThread s = false ->
  session_used s1 w1 s2 w2 ->
  exists pre w3 s' w',
    GLDOPPCapture_dtor s2 w2 = Done tt s' w'
    /\ emits w2 w3 pre
    /\ forallb (fun e => negb (is_teardown_call e)) pre = true
    /\ emits w3 w' (teardown_trace s2 w2)
    /\ m_NotificationThread s' = false.
Proof.
  intros Hinit Hthread Hused.
  destruct (initDOPP_thread_of_session _ _ _ _ _ _ _ _ _ Hinit Hthread)
    as [Hof _].
  apply initDOPP_OK_inv in Hinit
    as (sa & fbos & texs & live & _ & _ & _ & _ & _ & _ & _ & _ & _ & _ & _ & _
        & _ & Hprocs & _).
  apply session_used_keeps in Hused as (H1 & H2 & H3 & H4).
  assert (Hof2 : thread_of_session s2 w2).
  { unfold thread_of_session, hDesktopEvent0 in *. rewrite H1, H2, H3. exact Hof. }
  assert (Hp2 : w_procs w2 P_wglEnablePostProcessAMD = true)
    by (rewrite H4; apply Hprocs).
  destruct (dtor_resolved s2 w2 Hp2 Hof2)
    as (pre & w3 & s' & w' & Hrun & Hpre & Hok & Htear & _ & Hjoined & _).
  exists pre, w3, s', w'. auto.
Qed.

Lemma destructor_after_use_witness :
  let o := start good_env [] 3 640 480 true false in
  let s := started_session o 3 in
  match resizePresentTexture 800 600 s (started_world o) with
  | Done _ s2 w2 =>
      exists pre w3 s' w',
        GLDOPPCapture_dtor s2 w2 = Done tt s' w'
        /\ emits w2 w3 pre
        /\ forallb (fun e => negb (is_teardown_call e)) pre = true
        /\ emits w3 w' (teardown_trace s2 w2)
        /\ m_NotificationThread s' = false
  | _ => False
  end.
Proof.
  cbv zeta.
  destruct (resizePresentTexture 800 600
              (started_session (start good_env [] 3 640 480 true false) 3)
              (started_world (start good_env [] 3 640 480 true false)))
    as [st s2 w2| |] eqn:E;
    [|exfalso; revert E; vm_compute; discriminate..].
  apply (destructor_after_use 640 480 0 true false
           (GLDOPPCapture_members 3) (constructed_world good_env [] 3)
           (started_session (start good_env [] 3 640 480 true false) 3)
           (started_world (start good_env [] 3 640 480 true false)) s2 w2).
  - vm_compute. reflexivity.
  - reflexivity.
  - eapply used_resizePresentTexture; [apply used_not | exact E].
Defined.
